(** * Portrait Banana: the preview-generation pipeline

  A shallow embedding of the server-side generation pipeline of the
  repository (environment loader, rate limiter with its middleware and
  debug endpoint, image validator, prompt templates, generation client,
  response processor, watermark compositor and the preview endpoint),
  the properties of it that the specification states, and further
  properties that the code shows.

  Conventions.
  - JavaScript numbers that hold pixel sizes, byte sizes, counters and
    millisecond timestamps are integers in practice and are modelled
    as [Z].  Numbers that the watermark code multiplies by [1.2] or
    [0.6] are modelled as exact rationals ([Q]).
  - [Date.now()] is an effect: the [n]-th reading of the clock is
    [clock n], and the world counts the readings made so far.
  - An optional property ([x?: T]) is an [option]; JavaScript
    truthiness is written out ([truthy_str], [truthy_num]).
  - Exceptions are values of [Thrown]; a computation returns either
    a thrown value or a result, together with the new world.
  - [console.log]/[console.warn]/[console.error] output is not part
    of the model, and neither are the pages, the payment code, the
    browser-only image conversion and the listing of the rate-limit
    store, whose order is the order of insertion. *)

From Stdlib Require Import ZArith QArith String Ascii List Lia.
From stdpp Require Import base option gmap strings list pretty.

Open Scope string_scope.
Open Scope Z_scope.

(** ** JavaScript values and helpers *)

Module Js.

(** What a [throw] carries: an [Error] object with its [message], or
    some other value ([error instanceof Error] is false). *)
Inductive Thrown : Type :=
| JsError (message : string)
| JsOther.

(** [error instanceof Error ? error.message : dflt] *)
Definition message_or (t : Thrown) (dflt : string) : string :=
  match t with
  | JsError m => m
  | JsOther => dflt
  end.

(** Truthiness of a string-or-absent value: absent and [''] are falsy. *)
Definition truthy_str (o : option string) : bool :=
  match o with
  | Some s => negb (String.eqb s "")
  | None => false
  end.

(** [a || b] on string-or-absent operands, with a string default. *)
Definition or_str (o : option string) (dflt : string) : string :=
  match o with
  | Some s => if String.eqb s "" then dflt else s
  | None => dflt
  end.

(** Truthiness of an integer-or-absent value: absent and [0] are falsy. *)
Definition truthy_num (o : option Z) : bool :=
  match o with
  | Some n => negb (n =? 0)
  | None => false
  end.

(** [Math.ceil(a / b)] for integers [a] and positive [b]. *)
Definition ceil_div (a b : Z) : Z := - ((- a) / b).

(** [Math.round(a / b)] for integers [a >= 0] and positive [b]
    (round half up). *)
Definition round_div (a b : Z) : Z := (2 * a + b) / (2 * b).

(** [`${n}`] for an integer [n]. *)
Definition num_to_string (n : Z) : string := pretty n.

(** [haystack.includes(needle)] *)
Definition includes (haystack needle : string) : bool :=
  match String.index 0 needle haystack with
  | Some _ => true
  | None => false
  end.

(** [xs.join(sep)] *)
Fixpoint join (sep : string) (xs : list string) : string :=
  match xs with
  | [] => ""
  | [x] => x
  | x :: rest => x +:+ sep +:+ join sep rest
  end.

(** The white space that [String.prototype.trim] removes, among the
    characters a header value can hold (code points below 256). *)
Definition is_space (c : ascii) : bool :=
  let n := nat_of_ascii c in
  (Nat.eqb n 9 || Nat.eqb n 10 || Nat.eqb n 11 || Nat.eqb n 12
   || Nat.eqb n 13 || Nat.eqb n 32 || Nat.eqb n 160)%bool.

Fixpoint trim_start (s : string) : string :=
  match s with
  | String c r => if is_space c then trim_start r else s
  | EmptyString => EmptyString
  end.

(** Drops the trailing white space: a character is kept when it is
    not a space or when something is kept after it. *)
Fixpoint trim_end (s : string) : string :=
  match s with
  | String c r =>
      let r' := trim_end r in
      if (is_space c && String.eqb r' "")%bool then "" else String c r'
  | EmptyString => EmptyString
  end.

Definition trim (s : string) : string := trim_end (trim_start s).

(** [s.split(',')[0]]: the text before the first comma. *)
Fixpoint first_segment (s : string) : string :=
  match s with
  | String c r =>
      if Ascii.eqb c "," then "" else String c (first_segment r)
  | EmptyString => EmptyString
  end.

(** [table[key]] on an object literal used as a map.  (The model
    leaves out the keys every object inherits, [constructor] and the
    like: it treats them as missing.) *)
Fixpoint lookup_key {A} (key : string) (table : list (string * A)) : option A :=
  match table with
  | [] => None
  | (k, v) :: rest => if String.eqb k key then Some v else lookup_key key rest
  end.

(** The property names an object literal inherits from
    [Object.prototype].  [lookup_key] treats them as missing, so the
    statements below about keys that a table does not have leave them
    out. *)
Definition inherited_keys : list string :=
  [ "constructor"; "hasOwnProperty"; "isPrototypeOf"; "propertyIsEnumerable";
    "toLocaleString"; "toString"; "valueOf"; "__proto__";
    "__defineGetter__"; "__defineSetter__"; "__lookupGetter__"; "__lookupSetter__" ].

(** [c.toLowerCase()] for a character below 256: the letters [A-Z] and
    the accented capitals of Latin-1 move up by 32. *)
Definition lower_char (c : ascii) : ascii :=
  let n := nat_of_ascii c in
  if ((Nat.leb 65 n && Nat.leb n 90)
      || (Nat.leb 192 n && Nat.leb n 214)
      || (Nat.leb 216 n && Nat.leb n 222))%bool
  then ascii_of_nat (n + 32) else c.

(** [s.toLowerCase()] *)
Fixpoint toLowerCase (s : string) : string :=
  match s with
  | String c r => String (lower_char c) (toLowerCase r)
  | EmptyString => EmptyString
  end.

End Js.

(** ** constants.ts *)

Module GENERATION_CONFIG.
Definition PREVIEW_SIZE : Z := 512.
Definition FULL_SIZE : Z := 2048.
(** [0.039], the per-call price of either size class *)
Definition PREVIEW_COST : Q := 39 # 1000.
Definition FULL_COST : Q := 39 # 1000.
Definition MAX_ATTEMPTS : Z := 3.
Definition TIMEOUT_MS : Z := 300000.
End GENERATION_CONFIG.

Module RATE_LIMIT_CONFIG.
Definition MAX_ATTEMPTS_PER_IP : Z := 3.
Definition WINDOW_MS : Z := 24 * 60 * 60 * 1000.
Definition BLOCK_DURATION_MS : Z := 60 * 60 * 1000.
End RATE_LIMIT_CONFIG.

(** The two size classes, ['preview' | 'full']. *)
Inductive SizeClass : Type := preview | full.

(** ['high' | 'medium' | 'low'] *)
Inductive Quality : Type := high | medium | low.

(** ** types *)

(** A byte buffer ([Buffer], [Blob] contents). *)
Definition bytes : Type := list Byte.byte.

Record Dimensions : Type := { width : Z; height : Z }.

(** [UploadedImage]; [file] holds the contents of the [File]. *)
Record UploadedImage : Type := {
  image_id : string;
  image_file : bytes;
  image_preview : string;
  image_size : Z;
  image_type : string;
  image_dimensions : Dimensions;
  image_uploadedAt : string;
  image_base64Data : option string;
}.

(** [CustomizationOptions] as it arrives in a JSON body: every field
    may be missing, and the enum-typed fields are strings. *)
Record CustomizationOptions : Type := {
  background : option string;
  style : option string;
  industry : option string;
  mood : option string;
  additionalRequirements : option (list string);
}.

(** ** ai-utils.ts *)

Record ValidationResult : Type := {
  isValid : bool;
  errors : list string;
  warnings : list string;
}.

Record AIGenerationMetrics : Type := {
  metrics_startTime : Z;
  metrics_endTime : Z;
  metrics_duration : Z;
  metrics_cost : Q;
  metrics_model : string;
  metrics_size : SizeClass;
}.

(** [w / h < p / q] and [w / h > p / q] for integer [w], [h] and a
    positive [p / q], with JavaScript's division by zero ([w / 0] is an
    infinity of the sign of [w], and [0 / 0] is NaN, which compares
    false).  The comparisons are those of exact rationals, which is
    what the floating-point ones give for pixel sizes against 0.5 and
    2.0. *)
Definition div_lt (w h p q : Z) : bool :=
  if h >? 0 then w * q <? p * h
  else if h <? 0 then w * q >? p * h
  else w <? 0.

Definition div_gt (w h p q : Z) : bool :=
  if h >? 0 then w * q >? p * h
  else if h <? 0 then w * q <? p * h
  else w >? 0.

(** [aspectRatio < 0.5 || aspectRatio > 2.0] *)
Definition extreme_aspect (d : Dimensions) : bool :=
  (div_lt (width d) (height d) 1 2 || div_gt (width d) (height d) 2 1)%bool.

(** [Math.abs(aspectRatio - 1) > 0.1].  In double precision [1.1 - 1]
    is above [0.1] and [1 - 0.9] is below it, so a ratio of exactly
    11:10 counts as non-square and one of exactly 9:10 does not; any
    other ratio of pixel sizes is farther from both than the rounding
    error. *)
Definition non_square (d : Dimensions) : bool :=
  (div_lt (width d) (height d) 9 10
   || div_gt (width d) (height d) 11 10
   || ((height d >? 0) && (width d * 10 =? 11 * height d)))%bool.

(** [errors.push(e)] when [c] holds *)
Definition push_if (c : bool) (e : string) (acc : list string) : list string :=
  if c then (acc ++ [e])%list else acc.

Module ImageUtils.

Definition validateImageForAI (image : UploadedImage) : ValidationResult :=
  let d := image_dimensions image in
  let errors := [] in
  let warnings := [] in
  let errors :=
    push_if (width d <? GENERATION_CONFIG.PREVIEW_SIZE)
      ("Image width must be at least "
         +:+ Js.num_to_string GENERATION_CONFIG.PREVIEW_SIZE +:+ "px") errors in
  let errors :=
    push_if (height d <? GENERATION_CONFIG.PREVIEW_SIZE)
      ("Image height must be at least "
         +:+ Js.num_to_string GENERATION_CONFIG.PREVIEW_SIZE +:+ "px") errors in
  let maxSize := 10 * 1024 * 1024 in
  let errors :=
    push_if (image_size image >? maxSize)
      ("Image size must be less than "
         +:+ Js.num_to_string (Js.round_div maxSize (1024 * 1024)) +:+ "MB") errors in
  let warnings :=
    push_if (extreme_aspect d)
      "Extreme aspect ratio may affect generation quality" warnings in
  let warnings :=
    push_if ((width d <? GENERATION_CONFIG.FULL_SIZE)
             || (height d <? GENERATION_CONFIG.FULL_SIZE))%bool
      "Image resolution may be insufficient for full-size generation" warnings in
  {| isValid := Nat.eqb (length errors) 0;
     errors := errors;
     warnings := warnings |}.

Definition getOptimalGenerationSize (image : UploadedImage) : SizeClass :=
  let minDimension :=
    Z.min (width (image_dimensions image)) (height (image_dimensions image)) in
  if minDimension >=? GENERATION_CONFIG.FULL_SIZE then full else preview.

End ImageUtils.

Module ValidationUtils.

Definition validateGenerationRequest
    (image : UploadedImage) (options : CustomizationOptions) (size : SizeClass)
  : ValidationResult :=
  let imageValidation := ImageUtils.validateImageForAI image in
  let errors := errors imageValidation in
  let warnings := warnings imageValidation in
  let warnings :=
    push_if (negb (Js.truthy_str (background options)))
      "No background specified, using default" warnings in
  let warnings :=
    push_if (negb (Js.truthy_str (style options)))
      "No style specified, using default" warnings in
  let warnings :=
    match size with
    | full =>
        let minDimension :=
          Z.min (width (image_dimensions image)) (height (image_dimensions image)) in
        push_if (minDimension <? GENERATION_CONFIG.FULL_SIZE)
          "Image may not be suitable for full-resolution generation" warnings
    | preview => warnings
    end in
  {| isValid := Nat.eqb (length errors) 0;
     errors := errors;
     warnings := warnings |}.

(** The argument of [validateAIConfig]: each property may be absent. *)
Record PartialAIConfig : Type := {
  config_apiKey : option string;
  config_model : option string;
  config_baseUrl : option string;
  config_maxRetries : option Z;
}.

Definition validateAIConfig (config : PartialAIConfig) : ValidationResult :=
  let errors := [] in
  let warnings := [] in
  let errors :=
    push_if (negb (Js.truthy_str (config_apiKey config))) "API key is required" errors in
  let errors :=
    push_if (negb (Js.truthy_str (config_model config))) "Model is required" errors in
  let errors :=
    push_if (negb (Js.truthy_str (config_baseUrl config))) "Base URL is required" errors in
  let warnings :=
    push_if (match config_maxRetries config with
             | Some n => n <? 0
             | None => false
             end)
      "Max retries should be at least 0 (0 disables retries for cost savings)"
      warnings in
  {| isValid := Nat.eqb (length errors) 0;
     errors := errors;
     warnings := warnings |}.

End ValidationUtils.

Module ErrorUtils.

Record ParsedError : Type := {
  code : string;
  message : string;
  retryable : bool;
}.

(** [error.message?.includes(needle)]; an absent message is falsy. *)
Definition message_includes (message : option string) (needle : string) : bool :=
  match message with
  | Some m => Js.includes m needle
  | None => false
  end.

Definition parseAIError (error_message : option string) : ParsedError :=
  if message_includes error_message "API key" then
    {| code := "INVALID_API_KEY";
       message := "Invalid or missing API key";
       retryable := false |}
  else if message_includes error_message "quota" then
    {| code := "QUOTA_EXCEEDED";
       message := "API quota exceeded";
       retryable := true |}
  else if message_includes error_message "timeout" then
    {| code := "TIMEOUT";
       message := "Request timed out";
       retryable := true |}
  else if message_includes error_message "rate limit" then
    {| code := "RATE_LIMITED";
       message := "Rate limit exceeded";
       retryable := true |}
  else
    {| code := "UNKNOWN_ERROR";
       message := Js.or_str error_message "Unknown error occurred";
       retryable := true |}.

Definition isRetryableError (error_message : option string) : bool :=
  retryable (parseAIError error_message).

Definition userMessages : list (string * string) :=
  [ ("INVALID_API_KEY",
     "There was a problem with the AI service configuration. Please try again later.");
    ("QUOTA_EXCEEDED",
     "The AI service is temporarily unavailable. Please try again in a few minutes.");
    ("TIMEOUT",
     "The request took too long to process. Please try again.");
    ("RATE_LIMITED",
     "Too many requests. Please wait a moment and try again.");
    ("UNKNOWN_ERROR",
     "Something went wrong while generating your portrait. Please try again.") ].

Definition getUserFriendlyMessage (error_message : option string) : string :=
  let parsed := parseAIError error_message in
  Js.or_str (Js.lookup_key (code parsed) userMessages)
    (Js.or_str (Js.lookup_key "UNKNOWN_ERROR" userMessages) "").

End ErrorUtils.

Module MetricsUtils.

Definition createMetrics (startTime endTime : Z) (model : string) (size : SizeClass)
  : AIGenerationMetrics :=
  let duration := endTime - startTime in
  let cost :=
    match size with
    | preview => GENERATION_CONFIG.PREVIEW_COST
    | full => GENERATION_CONFIG.FULL_COST
    end in
  {| metrics_startTime := startTime;
     metrics_endTime := endTime;
     metrics_duration := duration;
     metrics_cost := cost;
     metrics_model := model;
     metrics_size := size |}.

End MetricsUtils.

Module PromptUtils.

Definition nl : string := String (ascii_of_nat 10) EmptyString.

Record PromptTemplate : Type := {
  template_id : string;
  template_name : string;
  template_description : string;
  template : string;
  template_variables : list string;
}.

Definition PROMPT_TEMPLATES : list PromptTemplate :=
  [ {| template_id := "professional";
       template_name := "Professional Portrait";
       template_description := "Clean, business-ready professional portrait";
       template :=
         "Transform this photo into a high-quality professional portrait." +:+ nl +:+ nl
         +:+ "Requirements:" +:+ nl +:+ "- {style_description}" +:+ nl
         +:+ "- Background: {background_description}" +:+ nl
         +:+ "- High resolution, sharp details, professional lighting" +:+ nl
         +:+ "- Maintain the person's facial features and identity" +:+ nl
         +:+ "- Remove any distracting elements from the original background" +:+ nl
         +:+ "- Ensure the portrait looks natural and professional" +:+ nl
         +:+ "- Use professional color grading and retouching" +:+ nl
         +:+ "- The final image should be suitable for business cards, LinkedIn profiles, and professional use"
         +:+ nl +:+ nl +:+ "Style: {style}" +:+ nl +:+ "Background: {background}" +:+ nl
         +:+ nl
         +:+ "Generate a professional portrait that maintains the person's likeness while creating a polished, business-ready image.";
       template_variables :=
         ["style"; "background"; "style_description"; "background_description"] |};
    {| template_id := "executive";
       template_name := "Executive Portrait";
       template_description := "High-level executive portrait with authority";
       template :=
         "Create an executive-level professional portrait from this photo." +:+ nl
         +:+ nl +:+ "Requirements:" +:+ nl +:+ "- {style_description}" +:+ nl
         +:+ "- Background: {background_description}" +:+ nl
         +:+ "- Convey authority, confidence, and leadership" +:+ nl
         +:+ "- High-end professional styling" +:+ nl
         +:+ "- Sharp, detailed image with executive presence" +:+ nl
         +:+ "- Maintain facial features while enhancing professional appearance" +:+ nl
         +:+ "- Remove background distractions" +:+ nl
         +:+ "- Use sophisticated color grading" +:+ nl +:+ nl +:+ "Style: {style}"
         +:+ nl +:+ "Background: {background}" +:+ nl +:+ nl
         +:+ "Generate an executive portrait that projects authority and professionalism.";
       template_variables :=
         ["style"; "background"; "style_description"; "background_description"] |};
    {| template_id := "creative";
       template_name := "Creative Professional";
       template_description := "Modern, creative professional portrait";
       template :=
         "Transform this into a creative professional portrait." +:+ nl +:+ nl
         +:+ "Requirements:" +:+ nl +:+ "- {style_description}" +:+ nl
         +:+ "- Background: {background_description}" +:+ nl
         +:+ "- Modern, innovative professional styling" +:+ nl
         +:+ "- Creative but appropriate for business use" +:+ nl
         +:+ "- Maintain personality while ensuring professionalism" +:+ nl
         +:+ "- High-quality, detailed image" +:+ nl
         +:+ "- Contemporary color grading and lighting" +:+ nl +:+ nl
         +:+ "Style: {style}" +:+ nl +:+ "Background: {background}" +:+ nl +:+ nl
         +:+ "Generate a creative professional portrait that balances innovation with business appropriateness.";
       template_variables :=
         ["style"; "background"; "style_description"; "background_description"] |} ].

Definition getPromptTemplates : list PromptTemplate := PROMPT_TEMPLATES.

Definition getPromptTemplate (id : string) : option PromptTemplate :=
  List.find (fun t => String.eqb (template_id t) id) PROMPT_TEMPLATES.

Definition styleDescriptions : list (string * string) :=
  [ ("professional",
     "professional business attire, confident expression, clean and polished look");
    ("casual", "smart casual attire, approachable expression, modern and friendly");
    ("executive",
     "executive-level professional attire, authoritative presence, sophisticated styling");
    ("creative",
     "creative professional attire, artistic expression, innovative and dynamic") ].

Definition backgroundDescriptions : list (string * string) :=
  [ ("office", "professional office setting with modern furniture and clean lighting");
    ("studio", "clean, minimalist studio background with soft lighting");
    ("outdoor", "outdoor professional setting with natural lighting");
    ("conference", "conference room with modern corporate environment") ].

(** The variables of a prompt: a value is [undefined] when the style or
    the background is not in its table. *)
Definition getPromptVariables (options : CustomizationOptions)
  : list (string * option string) :=
  [ ("style", Some (Js.or_str (style options) "professional"));
    ("background", Some (Js.or_str (background options) "office"));
    ("style_description",
     Js.lookup_key (Js.or_str (style options) "professional") styleDescriptions);
    ("background_description",
     Js.lookup_key (Js.or_str (background options) "office") backgroundDescriptions) ].

(** [\w] *)
Definition is_word (c : ascii) : bool :=
  let n := nat_of_ascii c in
  ((Nat.leb 48 n && Nat.leb n 57) || (Nat.leb 65 n && Nat.leb n 90)
   || Nat.eqb n 95 || (Nat.leb 97 n && Nat.leb n 122))%bool.

(** [variables[key] || match] *)
Definition replacement (variables : list (string * option string)) (key : string)
  : string :=
  Js.or_str (mjoin (Js.lookup_key key variables)) ("{" +:+ key +:+ "}").

(** [template.replace(/\{(\w+)\}/g, (match, key) => variables[key] || match)]
    as one pass over the template.  [pending] holds the word characters
    read since an opening brace that may still turn out to open a
    placeholder; they are written out unchanged when it does not. *)
Fixpoint interpolate (variables : list (string * option string))
    (pending : option string) (s : string) : string :=
  match s with
  | EmptyString =>
      match pending with
      | Some key => "{" +:+ key
      | None => ""
      end
  | String c r =>
      match pending with
      | None =>
          if Ascii.eqb c "{" then interpolate variables (Some "") r
          else String c (interpolate variables None r)
      | Some key =>
          if is_word c then
            interpolate variables (Some (key +:+ String c "")) r
          else if (Ascii.eqb c "}" && negb (String.eqb key ""))%bool then
            replacement variables key +:+ interpolate variables None r
          else if Ascii.eqb c "{" then
            "{" +:+ key +:+ interpolate variables (Some "") r
          else
            "{" +:+ key +:+ String c (interpolate variables None r)
      end
  end.

Definition interpolateTemplate (template : string)
    (variables : list (string * option string)) : string :=
  interpolate variables None template.

Definition buildPrompt (templateId : string) (options : CustomizationOptions)
    (customPrompt : option string) : Js.Thrown + string :=
  if Js.truthy_str customPrompt then inr (Js.or_str customPrompt "")
  else
    match getPromptTemplate templateId with
    | None =>
        inl (Js.JsError ("Prompt template '" +:+ templateId +:+ "' not found"))
    | Some t => inr (interpolateTemplate (template t) (getPromptVariables options))
    end.

Definition inappropriateKeywords : list string :=
  [ "nude"; "naked"; "sexual"; "explicit"; "inappropriate";
    "violence"; "weapon"; "drug"; "illegal" ].

Definition validatePrompt (prompt : string) : ValidationResult :=
  let lowerPrompt := Js.toLowerCase prompt in
  let errors :=
    fold_left
      (fun errors keyword =>
         push_if (Js.includes lowerPrompt keyword)
           ("Inappropriate keyword detected: " +:+ keyword) errors)
      inappropriateKeywords [] in
  let warnings := [] in
  let warnings :=
    push_if (Nat.ltb 2000 (String.length prompt))
      "Prompt is very long, may affect generation quality" warnings in
  let warnings :=
    push_if (Nat.ltb (String.length prompt) 50)
      "Prompt is very short, may not provide enough detail" warnings in
  {| isValid := Nat.eqb (length errors) 0;
     errors := errors;
     warnings := warnings |}.

End PromptUtils.

(** ** prompt-builder.ts *)

Module PromptBuilder.

Definition nl : string := String (ascii_of_nat 10) EmptyString.

Record PromptContext : Type := {
  ctx_style : string;
  ctx_background : string;
  ctx_industry : option string;
  ctx_mood : option string;
  ctx_lighting : option string;
  ctx_composition : option string;
  ctx_additionalRequirements : option (list string);
}.

Record PromptVariations : Type := {
  basic : string;
  detailed : string;
  technical : string;
  creative : string;
}.

Record StyleDescription : Type := {
  attire : string;
  expression : string;
  styling : string;
  posture : string;
}.

Record BackgroundDescription : Type := {
  setting : string;
  elements : string;
  bg_lighting : string;
  bg_mood : string;
}.

Definition STYLE_DESCRIPTIONS : list (string * StyleDescription) :=
  [ ("professional",
     {| attire := "professional business attire";
        expression := "confident, approachable expression";
        styling := "clean, polished look with modern styling";
        posture := "upright, professional posture" |});
    ("casual",
     {| attire := "smart casual attire";
        expression := "friendly, approachable expression";
        styling := "modern, relaxed professional styling";
        posture := "natural, comfortable posture" |});
    ("executive",
     {| attire := "executive-level professional attire";
        expression := "authoritative, confident expression";
        styling := "sophisticated, high-end professional styling";
        posture := "commanding, authoritative posture" |});
    ("creative",
     {| attire := "creative professional attire";
        expression := "innovative, artistic expression";
        styling := "contemporary, creative professional styling";
        posture := "dynamic, creative posture" |}) ].

Definition BACKGROUND_DESCRIPTIONS : list (string * BackgroundDescription) :=
  [ ("office",
     {| setting := "professional office setting";
        elements := "modern furniture, clean lines, corporate environment";
        bg_lighting := "professional office lighting with natural light";
        bg_mood := "business-focused, productive atmosphere" |});
    ("studio",
     {| setting := "clean, minimalist studio background";
        elements := "neutral backdrop, professional studio setup";
        bg_lighting := "soft, even studio lighting";
        bg_mood := "clean, professional, focused" |});
    ("outdoor",
     {| setting := "outdoor professional setting";
        elements := "natural environment, architectural elements";
        bg_lighting := "natural lighting with professional quality";
        bg_mood := "fresh, approachable, natural" |});
    ("conference",
     {| setting := "conference room with modern corporate environment";
        elements := "meeting room furniture, presentation equipment";
        bg_lighting := "professional conference room lighting";
        bg_mood := "collaborative, professional, meeting-ready" |}) ].

Definition INDUSTRY_CONTEXTS : list (string * string) :=
  [ ("technology", "tech industry professional, innovative, modern");
    ("finance", "financial services professional, trustworthy, analytical");
    ("healthcare", "healthcare professional, caring, knowledgeable");
    ("legal", "legal professional, authoritative, trustworthy");
    ("education", "educational professional, approachable, knowledgeable");
    ("consulting", "consulting professional, analytical, strategic");
    ("marketing", "marketing professional, creative, dynamic");
    ("sales", "sales professional, confident, persuasive");
    ("general", "business professional, versatile, competent") ].

(** [`${x}`] for a string that may be [undefined] *)
Definition show_undefined (o : option string) : string :=
  match o with
  | Some s => s
  | None => "undefined"
  end.

(** Reading a property of a table entry that may be [undefined]: the
    lookup of an unknown key gives [undefined], and the property access
    then throws a [TypeError]. *)
Definition entry_or_throw {A} (o : option A) (property : string) : Js.Thrown + A :=
  match o with
  | Some a => inr a
  | None =>
      inl (Js.JsError
             ("Cannot read properties of undefined (reading '" +:+ property +:+ "')"))
  end.

(** The context argument of [buildPrompt], [Partial<PromptContext>]. *)
Record PartialContext : Type := {
  partial_industry : option string;
  partial_mood : option string;
  partial_lighting : option string;
  partial_composition : option string;
  partial_additionalRequirements : option (list string);
}.

(** [a || dflt] kept as a present string *)
Definition or_default (o : option string) (dflt : string) : option string :=
  Some (Js.or_str o dflt).

Definition buildContext (options : CustomizationOptions) (context : PartialContext)
  : PromptContext :=
  {| ctx_style := Js.or_str (style options) "professional";
     ctx_background := Js.or_str (background options) "office";
     ctx_industry := or_default (partial_industry context) "general";
     ctx_mood := or_default (partial_mood context) "confident";
     ctx_lighting := or_default (partial_lighting context) "professional";
     ctx_composition := or_default (partial_composition context) "head-and-shoulders";
     ctx_additionalRequirements :=
       Some (default [] (partial_additionalRequirements context)) |}.

(** The [ADDITIONAL REQUIREMENTS] paragraph of the detailed prompt. *)
Definition additional_block (context : PromptContext) : string :=
  match ctx_additionalRequirements context with
  | Some (r :: rs) =>
      "ADDITIONAL REQUIREMENTS:" +:+ nl +:+ "- " +:+ Js.join (nl +:+ "- ") (r :: rs)
  | _ => ""
  end.

(** The two table lookups every builder starts with; the first
    property read of an unknown style is [attire], of an unknown
    background [setting]. *)
Definition describe (context : PromptContext)
  : Js.Thrown + (StyleDescription * BackgroundDescription) :=
  match entry_or_throw
          (Js.lookup_key (ctx_style context) STYLE_DESCRIPTIONS) "attire" with
  | inl t => inl t
  | inr styleDesc =>
      match entry_or_throw
              (Js.lookup_key (ctx_background context) BACKGROUND_DESCRIPTIONS)
              "setting" with
      | inl t => inl t
      | inr bgDesc => inr (styleDesc, bgDesc)
      end
  end.

Definition industry_of (context : PromptContext) : option string :=
  Js.lookup_key (Js.or_str (ctx_industry context) "general") INDUSTRY_CONTEXTS.

Definition buildBasicPrompt (context : PromptContext) : Js.Thrown + string :=
  match describe context with
  | inl t => inl t
  | inr (styleDesc, bgDesc) =>
      let industry := industry_of context in
      inr ("Transform this photo into a professional portrait." +:+ nl +:+ nl
         +:+ "Style: " +:+ (attire styleDesc) +:+ ", " +:+ (expression styleDesc) +:+ nl
         +:+ "Background: " +:+ (setting bgDesc) +:+ " with " +:+ (bg_lighting bgDesc)
         +:+ nl +:+ "Industry: " +:+ (show_undefined industry) +:+ nl +:+ nl
         +:+ "Generate a high-quality professional portrait suitable for business use.")
  end.

Definition buildDetailedPrompt (context : PromptContext) : Js.Thrown + string :=
  match describe context with
  | inl t => inl t
  | inr (styleDesc, bgDesc) =>
      let industry := industry_of context in
      inr ("Transform this photo into a high-quality professional portrait." +:+ nl
         +:+ nl +:+ "REQUIREMENTS:" +:+ nl +:+ "- " +:+ (attire styleDesc) +:+ " with "
         +:+ (styling styleDesc) +:+ nl +:+ "- " +:+ (expression styleDesc) +:+ " and "
         +:+ (posture styleDesc) +:+ nl +:+ "- Background: " +:+ (setting bgDesc)
         +:+ " featuring " +:+ (elements bgDesc) +:+ nl +:+ "- Lighting: "
         +:+ (bg_lighting bgDesc) +:+ " creating a " +:+ (bg_mood bgDesc)
         +:+ " atmosphere" +:+ nl +:+ "- Industry context: "
         +:+ (show_undefined industry) +:+ nl
         +:+ "- High resolution with sharp details and professional color grading" +:+ nl
         +:+ "- Maintain the person's facial features and identity" +:+ nl
         +:+ "- Remove distracting elements from the original background" +:+ nl
         +:+ "- Ensure the portrait looks natural and professional" +:+ nl
         +:+ "- Suitable for business cards, LinkedIn profiles, and professional use"
         +:+ nl +:+ nl +:+ "COMPOSITION: " +:+ (show_undefined (ctx_composition context))
         +:+ nl +:+ "MOOD: " +:+ (show_undefined (ctx_mood context)) +:+ nl
         +:+ "LIGHTING: " +:+ (show_undefined (ctx_lighting context)) +:+ nl +:+ nl
         +:+ (additional_block context) +:+ nl +:+ nl
         +:+ "Generate a professional portrait that maintains the person's likeness while creating a polished, business-ready image.")
  end.

Definition buildTechnicalPrompt (context : PromptContext) : Js.Thrown + string :=
  match describe context with
  | inl t => inl t
  | inr (styleDesc, bgDesc) =>
      inr ("PROFESSIONAL PORTRAIT GENERATION SPECIFICATIONS:" +:+ nl +:+ nl
         +:+ "INPUT ANALYSIS:" +:+ nl +:+ "- Maintain facial features and identity"
         +:+ nl +:+ "- Preserve natural skin tone and texture" +:+ nl
         +:+ "- Keep authentic facial expressions" +:+ nl +:+ nl
         +:+ "STYLING SPECIFICATIONS:" +:+ nl +:+ "- Attire: " +:+ (attire styleDesc)
         +:+ nl +:+ "- Expression: " +:+ (expression styleDesc) +:+ nl +:+ "- Styling: "
         +:+ (styling styleDesc) +:+ nl +:+ "- Posture: " +:+ (posture styleDesc) +:+ nl
         +:+ nl +:+ "BACKGROUND SPECIFICATIONS:" +:+ nl +:+ "- Setting: "
         +:+ (setting bgDesc) +:+ nl +:+ "- Elements: " +:+ (elements bgDesc) +:+ nl
         +:+ "- Lighting: " +:+ (bg_lighting bgDesc) +:+ nl +:+ "- Mood: "
         +:+ (bg_mood bgDesc) +:+ nl +:+ nl +:+ "TECHNICAL REQUIREMENTS:" +:+ nl
         +:+ "- Resolution: High resolution with sharp details" +:+ nl
         +:+ "- Color grading: Professional, natural skin tones" +:+ nl
         +:+ "- Lighting: Even, professional lighting without harsh shadows" +:+ nl
         +:+ "- Composition: " +:+ (show_undefined (ctx_composition context))
         +:+ " framing" +:+ nl +:+ "- Background: Clean, uncluttered, professional"
         +:+ nl +:+ "- Retouching: Subtle, natural-looking enhancements" +:+ nl +:+ nl
         +:+ "OUTPUT SPECIFICATIONS:" +:+ nl +:+ "- Format: High-quality digital image"
         +:+ nl +:+ "- Use case: Business cards, LinkedIn, professional profiles" +:+ nl
         +:+ "- Industry: " +:+ (Js.or_str (ctx_industry context) "general business")
         +:+ nl +:+ nl
         +:+ "Generate a technically precise professional portrait meeting all specifications.")
  end.

Definition buildCreativePrompt (context : PromptContext) : Js.Thrown + string :=
  match describe context with
  | inl t => inl t
  | inr (styleDesc, bgDesc) =>
      inr ("Create an innovative professional portrait that balances creativity with business appropriateness."
         +:+ nl +:+ nl +:+ "CREATIVE VISION:" +:+ nl +:+ "- Style: "
         +:+ (attire styleDesc) +:+ " with a " +:+ (expression styleDesc) +:+ nl
         +:+ "- Background: " +:+ (setting bgDesc) +:+ " that enhances the "
         +:+ (bg_mood bgDesc) +:+ " atmosphere" +:+ nl +:+ "- Lighting: "
         +:+ (bg_lighting bgDesc) +:+ " for a " +:+ (show_undefined (ctx_mood context))
         +:+ " mood" +:+ nl +:+ "- Industry: "
         +:+ (Js.or_str (ctx_industry context) "general") +:+ " professional" +:+ nl
         +:+ nl +:+ "ARTISTIC ELEMENTS:" +:+ nl
         +:+ "- Modern, contemporary approach to professional portraiture" +:+ nl
         +:+ "- Creative use of lighting and composition" +:+ nl
         +:+ "- Innovative but appropriate styling" +:+ nl
         +:+ "- Dynamic yet professional presentation" +:+ nl +:+ nl
         +:+ "TECHNICAL EXCELLENCE:" +:+ nl +:+ "- High resolution with artistic detail"
         +:+ nl +:+ "- Professional color grading with creative flair" +:+ nl
         +:+ "- Maintain facial features while enhancing presentation" +:+ nl
         +:+ "- Clean, purposeful background design" +:+ nl +:+ nl +:+ "BALANCE:" +:+ nl
         +:+ "- Creative expression within professional boundaries" +:+ nl
         +:+ "- Innovation that enhances rather than distracts" +:+ nl
         +:+ "- Artistic quality that serves business purposes" +:+ nl
         +:+ "- Modern approach to traditional professional portraiture" +:+ nl +:+ nl
         +:+ "Generate a creative professional portrait that stands out while maintaining business appropriateness.")
  end.

Definition buildPrompt (options : CustomizationOptions) (context : PartialContext)
  : Js.Thrown + PromptVariations :=
  let fullContext := buildContext options context in
  match buildBasicPrompt fullContext with
  | inl t => inl t
  | inr b =>
      match buildDetailedPrompt fullContext with
      | inl t => inl t
      | inr d =>
          match buildTechnicalPrompt fullContext with
          | inl t => inl t
          | inr t =>
              match buildCreativePrompt fullContext with
              | inl e => inl e
              | inr c =>
                  inr {| basic := b; detailed := d; technical := t; creative := c |}
              end
          end
      end
  end.

Record ContextValidation : Type := {
  context_isValid : bool;
  context_errors : list string;
}.

(** [!table[key]]: the key is missing from the table *)
Definition missing {A} (key : string) (table : list (string * A)) : bool :=
  match Js.lookup_key key table with
  | Some _ => false
  | None => true
  end.

Definition validateContext (context : PromptContext) : ContextValidation :=
  let errors := [] in
  let errors :=
    push_if (missing (ctx_style context) STYLE_DESCRIPTIONS)
      ("Invalid style: " +:+ ctx_style context) errors in
  let errors :=
    push_if (missing (ctx_background context) BACKGROUND_DESCRIPTIONS)
      ("Invalid background: " +:+ ctx_background context) errors in
  let errors :=
    push_if (Js.truthy_str (ctx_industry context)
             && missing (Js.or_str (ctx_industry context) "") INDUSTRY_CONTEXTS)%bool
      ("Invalid industry: " +:+ Js.or_str (ctx_industry context) "") errors in
  {| context_isValid := Nat.eqb (length errors) 0;
     context_errors := errors |}.

End PromptBuilder.

(** ** The host: everything the code consults but does not define *)

(** The provider's answer to [models.generateContent]: candidates with
    content parts, one of which may carry inline image data. *)
Record GeminiPart : Type := { inlineData : option (option string) }.
Record GeminiCandidate : Type := { content : option (option (list GeminiPart)) }.
Record GeminiResponse : Type := { candidates : option (list GeminiCandidate) }.

(** The vector overlay that [createWatermarkSvg] builds, as a tree
    rather than as its serialisation. *)
Record SvgRect : Type := {
  rect_x : Q; rect_y : Q; rect_width : Q; rect_height : Q;
  rect_fill : string; rect_opacity : Q;
}.
Record SvgText : Type := {
  text_x : Q; text_y : Q; text_font_size : Q;
  text_fill : string; text_opacity : Q; text_body : string;
}.
Record Svg : Type := {
  svg_width : Z; svg_height : Z;
  svg_rect : option SvgRect;
  svg_text : SvgText;
}.

Record Host : Type := {
  (** the value of the [n]-th [Date.now()] of the process *)
  clock : nat -> Z;
  (** [process.env.NODE_ENV === 'development'] *)
  NODE_ENV_development : bool;
  (** [env.get('DEV_MODE_SKIP_AI')] *)
  DEV_MODE_SKIP_AI : bool;
  GEMINI_API_KEY : string;
  (** [typeof window !== 'undefined'] and [typeof Buffer !== 'undefined'] *)
  window_defined : bool;
  Buffer_defined : bool;
  (** the outcome of the [n]-th [genAI.models.generateContent] call,
      given the model, the prompt and the image payload *)
  generateContent : nat -> string -> string -> string -> Js.Thrown + GeminiResponse;
  (** [Buffer.from(s, 'base64')] and [buf.toString('base64')] *)
  Buffer_from_base64 : string -> bytes;
  Buffer_to_base64 : bytes -> string;
  (** [atob] (which throws on malformed input) and [btoa] *)
  atob : string -> Js.Thrown + bytes;
  btoa : bytes -> string;
  (** the browser's [Image] loader: the size of a decodable blob *)
  Image_load : bytes -> option (Z * Z);
  (** [sharp(buf).metadata()]: width and height when known *)
  sharp_metadata : bytes -> Js.Thrown + (option Z * option Z);
  (** [sharp(buf).composite([{input, top, left}]).png().toBuffer()] *)
  sharp_composite_png : bytes -> Svg -> Q -> Q -> Js.Thrown + bytes;
}.

(** ** ai-service.ts: types and pure helpers *)

Module AIService.

Record GenerationRequest : Type := {
  request_image : UploadedImage;
  request_options : CustomizationOptions;
  request_size : SizeClass;
  request_prompt : option string;
}.

Record GenerationResponse : Type := {
  success : bool;
  imageUrl : option string;
  imageData : option string;
  error : option string;
  cost : option Q;
  generationTime : option Z;
}.

Record AIServiceConfig : Type := {
  apiKey : string;
  model : string;
  maxRetries : Z;
  baseUrl : string;
}.

Definition backgroundDescriptions : list (string * string) :=
  [ ("office", "professional office setting with modern furniture and clean lighting");
    ("studio", "clean, minimalist studio background with soft lighting");
    ("outdoor", "outdoor professional setting with natural lighting");
    ("conference", "conference room with modern corporate environment") ].

Definition styleDescriptions : list (string * string) :=
  [ ("professional",
     "professional business attire, confident expression, clean and polished look");
    ("casual", "smart casual attire, approachable expression, modern and friendly");
    ("executive",
     "executive-level professional attire, authoritative presence, sophisticated styling");
    ("creative",
     "creative professional attire, artistic expression, innovative and dynamic") ].

Definition buildPrompt (options : CustomizationOptions) (customPrompt : option string)
  : string :=
  if Js.truthy_str customPrompt then Js.or_str customPrompt ""
  else
    let nl := PromptBuilder.nl in
    let background := Js.or_str (background options) "office" in
    let style := Js.or_str (style options) "professional" in
    ("Transform this photo into a high-quality professional portrait. " +:+ nl
      +:+ "    " +:+ nl +:+ "    Requirements:" +:+ nl +:+ "    - "
      +:+ (PromptBuilder.show_undefined (Js.lookup_key style styleDescriptions))
      +:+ nl +:+ "    - Background: "
      +:+ (PromptBuilder.show_undefined (Js.lookup_key background backgroundDescriptions))
      +:+ nl +:+ "    - High resolution, sharp details, professional lighting" +:+ nl
      +:+ "    - Maintain the person's facial features and identity" +:+ nl
      +:+ "    - Remove any distracting elements from the original background" +:+ nl
      +:+ "    - Ensure the portrait looks natural and professional" +:+ nl
      +:+ "    - Use professional color grading and retouching" +:+ nl
      +:+ "    - The final image should be suitable for business cards, LinkedIn profiles, and professional use"
      +:+ nl +:+ "    " +:+ nl +:+ "    Style: " +:+ style +:+ nl
      +:+ "    Background: " +:+ background +:+ nl +:+ "    " +:+ nl
      +:+ "    Generate a professional portrait that maintains the person's likeness while creating a polished, business-ready image.").

Definition calculateCost (size : SizeClass) : Q :=
  match size with
  | preview => GENERATION_CONFIG.PREVIEW_COST
  | full => GENERATION_CONFIG.FULL_COST
  end.

(** The search of [callGeminiAPI] through the provider's answer:
    [candidates[0].content.parts.find(part => part.inlineData)], and
    the [data] of that part when it is a non-empty string. *)
Definition find_image_data (response : GeminiResponse) : option string :=
  match candidates response with
  | Some (candidate :: _) =>
      match content candidate with
      | Some (Some parts) =>
          match List.find (fun part => bool_decide (is_Some (inlineData part))) parts with
          | Some imagePart =>
              match inlineData imagePart with
              | Some (Some data) => if String.eqb data "" then None else Some data
              | _ => None
              end
          | None => None
          end
      | _ => None
      end
  | _ => None
  end.

Definition validateConfig (config : AIServiceConfig) : bool :=
  (negb (String.eqb (apiKey config) "")
   && negb (String.eqb (model config) "")
   && negb (String.eqb (baseUrl config) ""))%bool.

Record ServiceInfo : Type := {
  info_model : string;
  info_maxRetries : Z;
  info_baseUrl : string;
  isConfigured : bool;
}.

Definition getServiceInfo (config : AIServiceConfig) : ServiceInfo :=
  {| info_model := model config;
     info_maxRetries := maxRetries config;
     info_baseUrl := baseUrl config;
     isConfigured := validateConfig config |}.

End AIService.

(** ** env-validation.ts: loading the environment *)

Module EnvValidation.

(** ['development' | 'production' | 'test'] *)
Inductive NodeEnv : Type := development | production | test.

(** The validated configuration.  [Num] is the type of the numbers
    that [parseInt] and [parseFloat] give. *)
Record EnvConfig (Num : Type) : Type := {
  GEMINI_API_KEY : string;
  STRIPE_SECRET_KEY : string;
  STRIPE_PUBLISHABLE_KEY : string;
  STRIPE_WEBHOOK_SECRET : string;
  NEXT_PUBLIC_APP_URL : string;
  NODE_ENV : NodeEnv;
  DEV_MODE_SKIP_AI : bool;
  UPLOAD_MAX_SIZE : Num;
  RATE_LIMIT_MAX_ATTEMPTS : Num;
  RATE_LIMIT_WINDOW_MS : Num;
  GENERATION_PREVIEW_COST : Num;
  GENERATION_FULL_COST : Num;
  DOWNLOAD_PRICE : Num;
  CURRENCY : string;
  AWS_ACCESS_KEY_ID : option string;
  AWS_SECRET_ACCESS_KEY : option string;
  AWS_REGION : option string;
  AWS_S3_BUCKET : option string;
  CLOUDINARY_CLOUD_NAME : option string;
  CLOUDINARY_API_KEY : option string;
  CLOUDINARY_API_SECRET : option string;
  GOOGLE_ANALYTICS_ID : option string;
  SENTRY_DSN : option string;
}.
Arguments GEMINI_API_KEY {Num} _.
Arguments NODE_ENV {Num} _.
Arguments DEV_MODE_SKIP_AI {Num} _.

Definition requiredVars : list string :=
  [ "GEMINI_API_KEY"; "STRIPE_SECRET_KEY"; "STRIPE_PUBLISHABLE_KEY";
    "STRIPE_WEBHOOK_SECRET"; "NEXT_PUBLIC_APP_URL" ].

Definition numericVars : list string :=
  [ "UPLOAD_MAX_SIZE"; "RATE_LIMIT_MAX_ATTEMPTS"; "RATE_LIMIT_WINDOW_MS";
    "GENERATION_PREVIEW_COST"; "GENERATION_FULL_COST"; "DOWNLOAD_PRICE" ].

(** [!process.env[varName]] *)
Definition unset (env : gmap string string) (varName : string) : bool :=
  negb (Js.truthy_str (env !! varName)).

(** The value of [NODE_ENV] when it is one of the three. *)
Definition node_env_of (s : string) : option NodeEnv :=
  if String.eqb s "development" then Some development
  else if String.eqb s "production" then Some production
  else if String.eqb s "test" then Some test
  else None.

Section Loading.

Variable Num : Type.
(** [parseInt(s)] and [parseFloat(s)] *)
Variable parseInt : string -> Num.
Variable parseFloat : string -> Num.
(** [isNaN(Number(s))] *)
Variable not_a_number : string -> bool.
(** whether [new URL(s)] returns rather than throws *)
Variable URL_parses : string -> bool.

(** [validateAndLoadConfig], on [process.env].  Where the source gives
    [NODE_ENV] the default ['development'], the value has already passed
    the check against the three names, so the default is never taken. *)
Definition validateAndLoadConfig (env : gmap string string)
  : Js.Thrown + EnvConfig Num :=
  let nl := String (ascii_of_nat 10) EmptyString in
  let missingVars := List.filter (unset env) requiredVars in
  if Nat.ltb 0 (length missingVars) then
    inl (Js.JsError
           ("Missing required environment variables: " +:+ Js.join ", " missingVars
              +:+ nl
              +:+ "Please check your .env.local file and ensure all required variables are set."
              +:+ nl +:+ "See env.example for reference."))
  else
    match node_env_of (Js.or_str (env !! "NODE_ENV") "") with
    | None =>
        inl (Js.JsError "NODE_ENV must be one of: development, production, test")
    | Some nodeEnv =>
        if negb (URL_parses (Js.or_str (env !! "NEXT_PUBLIC_APP_URL") "")) then
          inl (Js.JsError "NEXT_PUBLIC_APP_URL must be a valid URL")
        else
          match List.find
                  (fun varName =>
                     (Js.truthy_str (env !! varName)
                      && not_a_number (Js.or_str (env !! varName) ""))%bool)
                  numericVars with
          | Some varName => inl (Js.JsError (varName +:+ " must be a valid number"))
          | None =>
              inr {| GEMINI_API_KEY := Js.or_str (env !! "GEMINI_API_KEY") "";
                     STRIPE_SECRET_KEY := Js.or_str (env !! "STRIPE_SECRET_KEY") "";
                     STRIPE_PUBLISHABLE_KEY :=
                       Js.or_str (env !! "STRIPE_PUBLISHABLE_KEY") "";
                     STRIPE_WEBHOOK_SECRET :=
                       Js.or_str (env !! "STRIPE_WEBHOOK_SECRET") "";
                     NEXT_PUBLIC_APP_URL := Js.or_str (env !! "NEXT_PUBLIC_APP_URL") "";
                     NODE_ENV := nodeEnv;
                     DEV_MODE_SKIP_AI :=
                       (bool_decide (env !! "DEV_MODE_SKIP_AI" = Some "true")
                        || match nodeEnv with
                           | development => true
                           | _ => false
                           end)%bool;
                     UPLOAD_MAX_SIZE :=
                       parseInt (Js.or_str (env !! "UPLOAD_MAX_SIZE") "10485760");
                     RATE_LIMIT_MAX_ATTEMPTS :=
                       parseInt (Js.or_str (env !! "RATE_LIMIT_MAX_ATTEMPTS") "3");
                     RATE_LIMIT_WINDOW_MS :=
                       parseInt (Js.or_str (env !! "RATE_LIMIT_WINDOW_MS") "86400000");
                     GENERATION_PREVIEW_COST :=
                       parseFloat (Js.or_str (env !! "GENERATION_PREVIEW_COST") "0.039");
                     GENERATION_FULL_COST :=
                       parseFloat (Js.or_str (env !! "GENERATION_FULL_COST") "0.039");
                     DOWNLOAD_PRICE :=
                       parseInt (Js.or_str (env !! "DOWNLOAD_PRICE") "799");
                     CURRENCY := Js.or_str (env !! "CURRENCY") "usd";
                     AWS_ACCESS_KEY_ID := env !! "AWS_ACCESS_KEY_ID";
                     AWS_SECRET_ACCESS_KEY := env !! "AWS_SECRET_ACCESS_KEY";
                     AWS_REGION := env !! "AWS_REGION";
                     AWS_S3_BUCKET := env !! "AWS_S3_BUCKET";
                     CLOUDINARY_CLOUD_NAME := env !! "CLOUDINARY_CLOUD_NAME";
                     CLOUDINARY_API_KEY := env !! "CLOUDINARY_API_KEY";
                     CLOUDINARY_API_SECRET := env !! "CLOUDINARY_API_SECRET";
                     GOOGLE_ANALYTICS_ID := env !! "GOOGLE_ANALYTICS_ID";
                     SENTRY_DSN := env !! "SENTRY_DSN" |}
          end
    end.

End Loading.

Definition isDevelopment {Num} (config : EnvConfig Num) : bool :=
  match NODE_ENV config with
  | development => true
  | _ => false
  end.

Definition isProduction {Num} (config : EnvConfig Num) : bool :=
  match NODE_ENV config with
  | production => true
  | _ => false
  end.

Definition isTest {Num} (config : EnvConfig Num) : bool :=
  match NODE_ENV config with
  | test => true
  | _ => false
  end.

Definition getAIConfig {Num} (config : EnvConfig Num) : AIService.AIServiceConfig :=
  {| AIService.apiKey := GEMINI_API_KEY config;
     AIService.model := "gemini-2.5-flash-image-preview";
     AIService.baseUrl := "https://generativelanguage.googleapis.com/v1beta";
     AIService.maxRetries := 0 |}.

End EnvValidation.

(** The host is a process that loaded [config] from [env]: what the
    code reads of the environment directly, and what it reads through
    the configuration, are the same. *)
Definition runs_with {Num} (host : Host) (env : gmap string string)
    (config : EnvValidation.EnvConfig Num) : Prop :=
  NODE_ENV_development host = bool_decide (env !! "NODE_ENV" = Some "development")
  /\ DEV_MODE_SKIP_AI host = EnvValidation.DEV_MODE_SKIP_AI config
  /\ GEMINI_API_KEY host = EnvValidation.GEMINI_API_KEY config.

(** ** ai-response-handler.ts: types and pure helpers *)

Module AIResponseHandler.

(** [Omit<ResponseMetadata, 'quality'>] *)
Record BareMetadata : Type := {
  bare_model : string;
  bare_generationTime : Z;
  bare_cost : Q;
  bare_size : SizeClass;
  bare_dimensions : option Dimensions;
  bare_format : string;
  bare_timestamp : Z;
}.

Record ResponseMetadata : Type := {
  model : string;
  generationTime : Z;
  cost : Q;
  size : SizeClass;
  quality : Quality;
  dimensions : option Dimensions;
  format : string;
  timestamp : Z;
}.

Record ProcessedResponse : Type := {
  success : bool;
  imageData : option string;
  imageUrl : option string;
  metadata : option ResponseMetadata;
  error : option string;
  warnings : option (list string);
}.

Record ValidationOptions : Type := {
  minWidth : option Z;
  minHeight : option Z;
  maxFileSize : option Z;
  allowedFormats : option (list string);
  qualityThreshold : option Q;
}.

Definition DEFAULT_VALIDATION : ValidationOptions :=
  {| minWidth := Some 512;
     minHeight := Some 512;
     maxFileSize := Some (10 * 1024 * 1024);
     allowedFormats := Some ["image/jpeg"; "image/png"; "image/webp"];
     qualityThreshold := Some (8 # 10) |}.

(** [{ ...defaults, ...overrides }]: a property that [overrides] has
    replaces the one of [defaults]. *)
Definition spread {A} (dflt override : option A) : option A :=
  match override with
  | Some v => Some v
  | None => dflt
  end.

Definition merge_options (defaults overrides : ValidationOptions) : ValidationOptions :=
  {| minWidth := spread (minWidth defaults) (minWidth overrides);
     minHeight := spread (minHeight defaults) (minHeight overrides);
     maxFileSize := spread (maxFileSize defaults) (maxFileSize overrides);
     allowedFormats := spread (allowedFormats defaults) (allowedFormats overrides);
     qualityThreshold := spread (qualityThreshold defaults) (qualityThreshold overrides) |}.

(** What [validateImageData] returns. *)
Record ImageValidation : Type := {
  isValid : bool;
  errors : list string;
  warnings_found : list string;
  found_dimensions : option Dimensions;
}.

(** The [score] that [assessQuality] accumulates. *)
Definition qualityScore (metadata : BareMetadata) : Z :=
  let score := 0 in
  let score :=
    match bare_dimensions metadata with
    | Some d =>
        let minDimension := Z.min (width d) (height d) in
        if minDimension >=? 2048 then score + 3
        else if minDimension >=? 1024 then score + 2
        else if minDimension >=? 512 then score + 1
        else score
    | None => score
    end in
  let score :=
    if bare_generationTime metadata <? 5000 then score + 2
    else if bare_generationTime metadata <? 15000 then score + 1
    else score in
  let score :=
    match bare_size metadata with
    | full => score + 2
    | preview => score + 1
    end in
  score.

Definition assessQuality (metadata : BareMetadata) (options : ValidationOptions)
  : Quality :=
  let score := qualityScore metadata in
  if score >=? 6 then high
  else if score >=? 3 then medium
  else low.

Definition extractMetadata (metrics : AIGenerationMetrics)
    (validation : ImageValidation) (now : Z) : BareMetadata :=
  {| bare_model := metrics_model metrics;
     bare_generationTime := metrics_duration metrics;
     bare_cost := metrics_cost metrics;
     bare_size := metrics_size metrics;
     bare_dimensions := found_dimensions validation;
     bare_format := "image/jpeg";
     bare_timestamp := now |}.

(** [{ ...metadata, quality }] *)
Definition with_quality (metadata : BareMetadata) (q : Quality) : ResponseMetadata :=
  {| model := bare_model metadata;
     generationTime := bare_generationTime metadata;
     cost := bare_cost metadata;
     size := bare_size metadata;
     quality := q;
     dimensions := bare_dimensions metadata;
     format := bare_format metadata;
     timestamp := bare_timestamp metadata |}.

Record Blob : Type := {
  blob_bytes : bytes;
  blob_type : string;
}.

(** [blob.size] *)
Definition blob_size (b : Blob) : Z := Z.of_nat (length (blob_bytes b)).

(** [list.includes(x)] on strings *)
Definition includes_str (xs : list string) (x : string) : bool :=
  existsb (String.eqb x) xs.

(** The checks of [validateImageData] on a decoded blob whose
    dimensions were looked up. *)
Definition check_blob (blob : Blob) (dims : option Dimensions)
    (options : ValidationOptions) : ImageValidation :=
  let errors := [] in
  let warnings := [] in
  let limit :=
    if Js.truthy_num (maxFileSize options)
    then default 0 (maxFileSize options) else 10 * 1024 * 1024 in
  let errors :=
    push_if (blob_size blob >? limit)
      ("Image too large: "
         +:+ Js.num_to_string (Js.round_div (blob_size blob) (1024 * 1024)) +:+ "MB")
      errors in
  let errors :=
    match allowedFormats options with
    | Some formats =>
        push_if (negb (includes_str formats (blob_type blob)))
          ("Unsupported format: " +:+ blob_type blob) errors
    | None => errors
    end in
  let '(errors, warnings) :=
    match dims with
    | Some d =>
        let errors :=
          push_if (Js.truthy_num (minWidth options)
                   && (width d <? default 0 (minWidth options)))%bool
            ("Width too small: " +:+ Js.num_to_string (width d)
               +:+ "px (minimum: "
               +:+ Js.num_to_string (default 0 (minWidth options)) +:+ "px)")
            errors in
        let errors :=
          push_if (Js.truthy_num (minHeight options)
                   && (height d <? default 0 (minHeight options)))%bool
            ("Height too small: " +:+ Js.num_to_string (height d)
               +:+ "px (minimum: "
               +:+ Js.num_to_string (default 0 (minHeight options)) +:+ "px)")
            errors in
        let warnings :=
          push_if (extreme_aspect d)
            "Unusual aspect ratio may affect display quality" warnings in
        let warnings :=
          push_if (non_square d)
            "Non-square image may not be optimal for portrait use" warnings in
        (errors, warnings)
    | None =>
        (errors, (warnings ++ ["Could not determine image dimensions"])%list)
    end in
  {| isValid := Nat.eqb (length errors) 0;
     errors := errors;
     warnings_found := warnings;
     found_dimensions := dims |}.

(** ['success' | 'warning' | 'error'] *)
Inductive DisplayType : Type :=
| display_success
| display_warning
| display_error.

Record Display : Type := {
  display_message : string;
  display_type : DisplayType;
  display_details : option (list string);
}.

(** [`${q}`] for a quality tier *)
Definition quality_name (q : Quality) : string :=
  match q with
  | high => "high"
  | medium => "medium"
  | low => "low"
  end.

(** [`${n}`] for a number that may be [undefined] *)
Definition show_number (o : option Z) : string :=
  match o with
  | Some n => Js.num_to_string n
  | None => "undefined"
  end.

Definition formatResponseForDisplay (processed : ProcessedResponse) : Display :=
  if negb (success processed) then
    {| display_message := Js.or_str (error processed) "Generation failed";
       display_type := display_error;
       display_details := None |}
  else
    match warnings processed with
    | Some (w :: ws) =>
        {| display_message := "Portrait generated successfully with some warnings";
           display_type := display_warning;
           display_details := Some (w :: ws) |}
    | _ =>
        {| display_message := "Portrait generated successfully!";
           display_type := display_success;
           display_details :=
             match metadata processed with
             | Some m =>
                 Some [ "Size: " +:+ show_number (width <$> dimensions m) +:+ "x"
                          +:+ show_number (height <$> dimensions m);
                        "Quality: " +:+ quality_name (quality m);
                        "Generation time: "
                          +:+ Js.num_to_string (Js.round_div (generationTime m) 1000)
                          +:+ "s" ]
             | None => None
             end |}
    end.

End AIResponseHandler.

(** ** watermark.ts: types and pure helpers *)

Module WatermarkService.

Inductive Position : Type :=
| bottom_right
| bottom_center
| center
| top_right.

Record WatermarkOptions : Type := {
  text : string;
  opacity : Q;
  fontSize : Q;
  fontFamily : string;
  color : string;
  backgroundColor : option string;
  position : Position;
  padding : Q;
  pattern : option bool;
}.

(** [Partial<WatermarkOptions>] *)
Record PartialOptions : Type := {
  partial_text : option string;
  partial_opacity : option Q;
  partial_fontSize : option Q;
  partial_fontFamily : option string;
  partial_color : option string;
  partial_backgroundColor : option string;
  partial_position : option Position;
  partial_padding : option Q;
  partial_pattern : option bool;
}.

Definition no_options : PartialOptions :=
  {| partial_text := None; partial_opacity := None; partial_fontSize := None;
     partial_fontFamily := None; partial_color := None;
     partial_backgroundColor := None; partial_position := None;
     partial_padding := None; partial_pattern := None |}.

Record WatermarkResult : Type := {
  success : bool;
  imageData : option string;
  error : option string;
}.

Definition DEFAULT_OPTIONS : WatermarkOptions :=
  {| text := "PREVIEW - Portrait Banana";
     opacity := 7 # 10;
     fontSize := 24 # 1;
     fontFamily := "Arial, sans-serif";
     color := "rgba(0, 0, 0, 0.8)";
     backgroundColor := Some "rgba(255, 255, 255, 0.9)";
     position := bottom_center;
     padding := 20 # 1;
     pattern := Some true |}.

(** [{ ...this.DEFAULT_OPTIONS, ...options }] *)
Definition merge_options (defaults : WatermarkOptions) (options : PartialOptions)
  : WatermarkOptions :=
  {| text := default (text defaults) (partial_text options);
     opacity := default (opacity defaults) (partial_opacity options);
     fontSize := default (fontSize defaults) (partial_fontSize options);
     fontFamily := default (fontFamily defaults) (partial_fontFamily options);
     color := default (color defaults) (partial_color options);
     backgroundColor :=
       match partial_backgroundColor options with
       | Some c => Some c
       | None => backgroundColor defaults
       end;
     position := default (position defaults) (partial_position options);
     padding := default (padding defaults) (partial_padding options);
     pattern :=
       match partial_pattern options with
       | Some p => Some p
       | None => pattern defaults
       end |}.

Record Point : Type := { x : Q; y : Q }.

(** [calculateServerPosition(imageSize, position, fontSize)]; the
    [default] arm of the [switch] repeats the [bottom-center] arm and no
    value of [Position] reaches it. *)
Definition calculateServerPosition (imageSize : Z) (position : Position) (fontSize : Q)
  : Point :=
  (let imageSize := inject_Z imageSize in
   let padding := 20 # 1 in
   let textHeight := fontSize * (12 # 10) in
   match position with
   | bottom_center =>
       {| x := imageSize / (2 # 1); y := imageSize - padding - textHeight / (2 # 1) |}
   | bottom_right =>
       {| x := imageSize - padding; y := imageSize - padding - textHeight / (2 # 1) |}
   | top_right =>
       {| x := imageSize - padding; y := padding + textHeight / (2 # 1) |}
   | center =>
       {| x := imageSize / (2 # 1); y := imageSize / (2 # 1) |}
   end)%Q.

(** [text.length] *)
Definition text_length (s : string) : Q := inject_Z (Z.of_nat (String.length s)).

Definition createWatermarkSvg (options : WatermarkOptions) (imageWidth imageHeight : Z)
  : Svg :=
  let textWidth := (text_length (text options) * fontSize options * (6 # 10))%Q in
  let textHeight := (fontSize options * (12 # 10))%Q in
  let pos := calculateServerPosition imageWidth (position options) (fontSize options) in
  {| svg_width := imageWidth;
     svg_height := imageHeight;
     svg_rect :=
       if Js.truthy_str (backgroundColor options) then
         Some {| rect_x := (x pos - textWidth / (2 # 1) - (10 # 1))%Q;
                 rect_y := (y pos - textHeight / (2 # 1) - (5 # 1))%Q;
                 rect_width := (textWidth + (20 # 1))%Q;
                 rect_height := (textHeight + (10 # 1))%Q;
                 rect_fill := Js.or_str (backgroundColor options) "";
                 rect_opacity := opacity options |}
       else None;
     svg_text :=
       {| text_x := x pos;
          text_y := y pos;
          text_font_size := fontSize options;
          text_fill := color options;
          text_opacity := opacity options;
          text_body := text options |} |}.

(** [s] without the prefix [p], when it starts with it *)
Fixpoint strip_prefix (p s : string) : option string :=
  match p, s with
  | EmptyString, _ => Some s
  | String a p', String b s' => if Ascii.eqb a b then strip_prefix p' s' else None
  | String _ _, EmptyString => None
  end.

(** [[a-z]] *)
Definition is_lower (c : ascii) : bool :=
  let n := nat_of_ascii c in (Nat.leb 97 n && Nat.leb n 122)%bool.

Fixpoint drop_lower (s : string) : string :=
  match s with
  | String c r => if is_lower c then drop_lower r else s
  | EmptyString => EmptyString
  end.

(** [imageData.replace(/^data:image\/[a-z]+;base64,/, '')] *)
Definition strip_data_url (imageData : string) : string :=
  match strip_prefix "data:image/" imageData with
  | Some rest =>
      match rest with
      | String c _ =>
          if is_lower c then
            match strip_prefix ";base64," (drop_lower rest) with
            | Some payload => payload
            | None => imageData
            end
          else imageData
      | EmptyString => imageData
      end
  | None => imageData
  end.

(** A number is truthy when it is not zero. *)
Definition truthy_Q (o : option Q) : bool :=
  match o with
  | Some q => negb (Qeq_bool q 0)
  | None => false
  end.

Definition Qlt_bool (a b : Q) : bool := negb (Qle_bool b a).

Record OptionsValidation : Type := {
  isValid : bool;
  errors : list string;
}.

Definition validateOptions (options : PartialOptions) : OptionsValidation :=
  let errors := [] in
  let errors :=
    push_if (Js.truthy_str (partial_text options)
             && Nat.ltb 100 (String.length (Js.or_str (partial_text options) "")))%bool
      "Watermark text too long (max 100 characters)" errors in
  let errors :=
    push_if (truthy_Q (partial_opacity options)
             && (Qlt_bool (default 0%Q (partial_opacity options)) 0
                 || Qlt_bool 1 (default 0%Q (partial_opacity options))))%bool
      "Opacity must be between 0 and 1" errors in
  let errors :=
    push_if (truthy_Q (partial_fontSize options)
             && (Qlt_bool (default 0%Q (partial_fontSize options)) (8 # 1)
                 || Qlt_bool (72 # 1) (default 0%Q (partial_fontSize options))))%bool
      "Font size must be between 8 and 72" errors in
  let errors :=
    push_if (truthy_Q (partial_padding options)
             && Qlt_bool (default 0%Q (partial_padding options)) 0)%bool
      "Padding must be non-negative" errors in
  {| isValid := Nat.eqb (length errors) 0;
     errors := errors |}.

End WatermarkService.

(** ** app/api/generate-preview/route.ts: types *)

(** The [image] of a request body.  The handler tests [id], [type] and
    [base64Data] for presence, so they are optional here. *)
Record ImageJson : Type := {
  json_id : option string;
  json_preview : string;
  json_size : Z;
  json_type : option string;
  json_dimensions : Dimensions;
  json_uploadedAt : string;
  json_base64Data : option string;
}.

Record PreviewGenerationRequest : Type := {
  body_image : option ImageJson;
  body_options : option CustomizationOptions;
  body_prompt : option string;
  body_useCase : option string;
}.

Record PreviewMetadata : Type := {
  meta_generationTime : Z;
  meta_cost : Q;
  meta_dimensions : Dimensions;
  meta_quality : Quality;
  watermarked : bool;
}.

(** The JSON of a response: the error shape and [PreviewGenerationResponse]. *)
Record ResponseBody : Type := {
  success : bool;
  error : option string;
  retryAfter_sent : option Z;
  resetTime_sent : option Z;
  previewUrl : option string;
  imageData : option string;
  metadata : option PreviewMetadata;
  warnings_sent : option (list string);
}.

Record NextResponse : Type := {
  status : Z;
  body : ResponseBody;
  response_headers : list (string * string);
}.

(** [NextResponse.json({ success: false, error }, { status })] *)
Definition error_response (status : Z) (message : string) : NextResponse :=
  {| status := status;
     body := {| success := false;
                error := Some message;
                retryAfter_sent := None;
                resetTime_sent := None;
                previewUrl := None;
                imageData := None;
                metadata := None;
                warnings_sent := None |};
     response_headers := [] |}.

Definition createPreviewUrl (imageData : string) : string :=
  if String.prefix "data:" imageData then imageData
  else "data:image/png;base64," +:+ imageData.

(** [headers.get(name)] and [headers.set(name, value)] on the headers
    of a response; header names compare without regard to case. *)
Definition same_header (a b : string) : bool :=
  String.eqb (Js.toLowerCase a) (Js.toLowerCase b).

Definition header_get (name : string) (hs : list (string * string)) : option string :=
  snd <$> List.find (fun kv => same_header (fst kv) name) hs.

Definition header_set (name value : string) (hs : list (string * string))
  : list (string * string) :=
  (List.filter (fun kv => negb (same_header (fst kv) name)) hs ++ [(name, value)])%list.

(** ** app/api/debug/rate-limit/route.ts: types *)

(** The JSON of the debug endpoint's answers. *)
Record DebugResponse : Type := {
  debug_status : Z;
  debug_error : option string;
  debug_success : option bool;
  debug_message : option string;
  debug_cleared : option bool;
}.

(** ** rate-limit.ts: types *)

Module RateLimitTypes.

Record RateLimitResult : Type := {
  allowed : bool;
  remaining : Z;
  resetTime : Z;
  retryAfter : option Z;
}.

Record RateLimitEntry : Type := {
  count : Z;
  entry_resetTime : Z;
  lastRequest : Z;
}.

End RateLimitTypes.
Import RateLimitTypes.

(** ** The world and the computations over it *)

Record World : Type := {
  (** [rateLimitStore], the module-level [Map] of rate-limit.ts *)
  rateLimitStore : gmap string RateLimitEntry;
  (** how many times [Date.now()] has been read *)
  clockReads : nat;
  (** how many times the provider has been called *)
  providerCalls : nat;
  (** [aiService.retryCount] *)
  retryCount : Z;
}.

(** How a computation ends: it returns, it throws, or the recursion
    budget given to it ran out before it ended. *)
Inductive Outcome (A : Type) : Type :=
| Returns (a : A)
| Throws (t : Js.Thrown)
| Unfinished.
Arguments Returns {A} a.
Arguments Throws {A} t.
Arguments Unfinished {A}.

Definition M (A : Type) : Type := World -> Outcome A * World.

Definition ret {A} (a : A) : M A := fun w => (Returns a, w).

Definition throw {A} (t : Js.Thrown) : M A := fun w => (Throws t, w).

Definition unfinished {A} : M A := fun w => (Unfinished, w).

Definition bind {A B} (m : M A) (k : A -> M B) : M B :=
  fun w =>
    match m w with
    | (Returns a, w') => k a w'
    | (Throws t, w') => (Throws t, w')
    | (Unfinished, w') => (Unfinished, w')
    end.

(** [try { body } catch (error) { handler(error) }] *)
Definition try_catch {A} (body : M A) (handler : Js.Thrown -> M A) : M A :=
  fun w =>
    match body w with
    | (Throws t, w') => handler t w'
    | r => r
    end.

(** Lifts an outcome of the host or of a pure function that can throw. *)
Definition lift {A} (r : Js.Thrown + A) : M A :=
  match r with
  | inr a => ret a
  | inl t => throw t
  end.

Notation "x <- m ;; k" := (bind m (fun x => k))
  (at level 100, m at next level, right associativity).
Notation "m ;;; k" := (bind m (fun _ => k))
  (at level 100, right associativity).

(** The request as the handlers see it: its headers (by lower-case
    name) and the outcome of [request.json()] and of
    destructuring its result. *)
Record NextRequest (Body : Type) : Type := {
  headers : gmap string string;
  json : Js.Thrown + Body;
}.
Arguments headers {Body} _.
Arguments json {Body} _.

Section Server.

Variable host : Host.

(** [Date.now()] *)
Definition Date_now : M Z :=
  fun w =>
    (Returns (clock host (clockReads w)),
     {| rateLimitStore := rateLimitStore w;
        clockReads := S (clockReads w);
        providerCalls := providerCalls w;
        retryCount := retryCount w |}).

Definition get_store : M (gmap string RateLimitEntry) :=
  fun w => (Returns (rateLimitStore w), w).

Definition set_store (s : gmap string RateLimitEntry) : M unit :=
  fun w =>
    (Returns tt,
     {| rateLimitStore := s;
        clockReads := clockReads w;
        providerCalls := providerCalls w;
        retryCount := retryCount w |}).

Definition get_retryCount : M Z := fun w => (Returns (retryCount w), w).

Definition set_retryCount (n : Z) : M unit :=
  fun w =>
    (Returns tt,
     {| rateLimitStore := rateLimitStore w;
        clockReads := clockReads w;
        providerCalls := providerCalls w;
        retryCount := n |}).

(** ** rate-limit.ts *)

Definition getClientIP {Body} (request : NextRequest Body) : string :=
  let forwarded := headers request !! "x-forwarded-for" in
  let realIP := headers request !! "x-real-ip" in
  let remoteAddr := headers request !! "x-remote-addr" in
  if Js.truthy_str forwarded then
    Js.trim (Js.first_segment (Js.or_str forwarded ""))
  else if Js.truthy_str realIP then Js.or_str realIP ""
  else if Js.truthy_str remoteAddr then Js.or_str remoteAddr ""
  else "unknown".

(** The window and the ceiling in force: one hour and 50 in
    development, [RATE_LIMIT_CONFIG] otherwise. *)
Definition windowMs : Z :=
  if NODE_ENV_development host then 60 * 60 * 1000
  else RATE_LIMIT_CONFIG.WINDOW_MS.

Definition maxAttempts : Z :=
  if NODE_ENV_development host then 50
  else RATE_LIMIT_CONFIG.MAX_ATTEMPTS_PER_IP.

(** [cleanupExpiredEntries]: reads the clock again and deletes every
    entry whose window has passed. *)
Definition cleanupExpiredEntries : M unit :=
  now <- Date_now ;;
  store <- get_store ;;
  set_store (filter (fun kv => ~ (now > entry_resetTime (snd kv))) store).

Definition checkRateLimit {Body} (request : NextRequest Body) : M RateLimitResult :=
  let clientIP := getClientIP request in
  now <- Date_now ;;
  store <- get_store ;;
  let fresh :=
    {| count := 0; entry_resetTime := now + windowMs; lastRequest := now |} in
  let entry :=
    match store !! clientIP with
    | Some e => if now >? entry_resetTime e then fresh else e
    | None => fresh
    end in
  if count entry >=? maxAttempts then
    let retryAfter := Js.ceil_div (entry_resetTime entry - now) 1000 in
    ret {| allowed := false;
           remaining := 0;
           resetTime := entry_resetTime entry;
           retryAfter := Some retryAfter |}
  else
    let entry' :=
      {| count := count entry + 1;
         entry_resetTime := entry_resetTime entry;
         lastRequest := now |} in
    set_store (<[clientIP := entry']> store) ;;;
    cleanupExpiredEntries ;;;
    ret {| allowed := true;
           remaining := maxAttempts - count entry';
           resetTime := entry_resetTime entry';
           retryAfter := None |}.

(** [getRateLimitStatus]: what the store holds for an address, read
    against [RATE_LIMIT_CONFIG] in every environment.  The clock is
    read only when there is an entry. *)
Definition getRateLimitStatus (ip : string) : M (option RateLimitResult) :=
  store <- get_store ;;
  match store !! ip with
  | None => ret None
  | Some entry =>
      now <- Date_now ;;
      let maxAttempts := RATE_LIMIT_CONFIG.MAX_ATTEMPTS_PER_IP in
      if now >? entry_resetTime entry then
        ret (Some {| allowed := true;
                     remaining := maxAttempts;
                     resetTime := now + RATE_LIMIT_CONFIG.WINDOW_MS;
                     retryAfter := None |})
      else
        ret (Some {| allowed := count entry <? maxAttempts;
                     remaining := Z.max 0 (maxAttempts - count entry);
                     resetTime := entry_resetTime entry;
                     retryAfter :=
                       if count entry >=? maxAttempts
                       then Some (Js.ceil_div (entry_resetTime entry - now) 1000)
                       else None |})
  end.

(** [rateLimitStore.delete(ip)]: whether there was an entry *)
Definition resetRateLimit (ip : string) : M bool :=
  store <- get_store ;;
  set_store (delete ip store) ;;;
  ret (bool_decide (is_Some (store !! ip))).

Definition clearAll : M unit := set_store ∅.

Definition clearForIP (ip : string) : M bool :=
  store <- get_store ;;
  set_store (delete ip store) ;;;
  ret (bool_decide (is_Some (store !! ip))).

Record DebugInfo : Type := {
  debug_entry : option RateLimitEntry;
  isDevelopment : bool;
  debug_maxAttempts : Z;
  debug_windowMs : Z;
}.

Definition getDebugInfo (ip : string) : M DebugInfo :=
  store <- get_store ;;
  let isDevelopment := NODE_ENV_development host in
  let windowMs :=
    if isDevelopment then 60 * 60 * 1000 else RATE_LIMIT_CONFIG.WINDOW_MS in
  let maxAttempts :=
    if isDevelopment then 50 else RATE_LIMIT_CONFIG.MAX_ATTEMPTS_PER_IP in
  ret {| debug_entry := store !! ip;
         isDevelopment := isDevelopment;
         debug_maxAttempts := maxAttempts;
         debug_windowMs := windowMs |}.

(** [withRateLimit(handler)]: the middleware around a route handler. *)
Definition withRateLimit {Body} (handler : NextRequest Body -> M NextResponse)
    (request : NextRequest Body) : M NextResponse :=
  rateLimitResult <- checkRateLimit request ;;
  if negb (allowed rateLimitResult) then
    ret {| status := 429;
           body := {| success := false;
                      error := Some "Rate limit exceeded";
                      retryAfter_sent := retryAfter rateLimitResult;
                      resetTime_sent := Some (resetTime rateLimitResult);
                      previewUrl := None;
                      imageData := None;
                      metadata := None;
                      warnings_sent := None |};
           response_headers :=
             [ ("Content-Type", "application/json");
               ("X-RateLimit-Limit",
                Js.num_to_string RATE_LIMIT_CONFIG.MAX_ATTEMPTS_PER_IP);
               ("X-RateLimit-Remaining", Js.num_to_string (remaining rateLimitResult));
               ("X-RateLimit-Reset", Js.num_to_string (resetTime rateLimitResult));
               ("Retry-After",
                match retryAfter rateLimitResult with
                | Some seconds => Js.num_to_string seconds
                | None => "0"
                end) ] |}
  else
    response <- handler request ;;
    let headers :=
      header_set "X-RateLimit-Reset" (Js.num_to_string (resetTime rateLimitResult))
        (header_set "X-RateLimit-Remaining"
           (Js.num_to_string (remaining rateLimitResult))
           (header_set "X-RateLimit-Limit"
              (Js.num_to_string RATE_LIMIT_CONFIG.MAX_ATTEMPTS_PER_IP)
              (response_headers response))) in
    ret {| status := status response;
           body := body response;
           response_headers := headers |}.

(** ** env-validation.ts *)

Definition getAIConfig : AIService.AIServiceConfig :=
  {| AIService.apiKey := GEMINI_API_KEY host;
     AIService.model := "gemini-2.5-flash-image-preview";
     AIService.baseUrl := "https://generativelanguage.googleapis.com/v1beta";
     AIService.maxRetries := 0 |}.

(** ** ai-service.ts *)

(** [this.genAI.models.generateContent(...)]: one more provider call. *)
Definition models_generateContent (model prompt image : string) : M GeminiResponse :=
  fun w =>
    let w' :=
      {| rateLimitStore := rateLimitStore w;
         clockReads := clockReads w;
         providerCalls := S (providerCalls w);
         retryCount := retryCount w |} in
    match generateContent host (providerCalls w) model prompt image with
    | inr response => (Returns response, w')
    | inl t => (Throws t, w')
    end.

Definition callGeminiAPI (prompt image model : string) : M string :=
  try_catch
    (response <- models_generateContent model prompt image ;;
     match AIService.find_image_data response with
     | Some imageData => ret imageData
     | None => throw (Js.JsError "No image generated in response")
     end)
    (fun error =>
       throw (Js.JsError
                ("Failed to generate image: " +:+ Js.message_or error "Unknown error"))).

(** [convertImageToBase64]: the contents of the file in base64, through
    [FileReader] in a browser and through [Buffer] otherwise. *)
Definition convertImageToBase64 (file : bytes) : string :=
  if window_defined host then btoa host file else Buffer_to_base64 host file.

(** [request.image.base64Data] when it is a non-empty string, else the
    converted file *)
Definition image_payload (image : UploadedImage) : string :=
  if Js.truthy_str (image_base64Data image)
  then Js.or_str (image_base64Data image) ""
  else convertImageToBase64 (image_file image).

(** [generatePortrait] of the service built from [config].  The retry
    in the [catch] block calls the method again, which sets
    [retryCount] back to 0; [budget] bounds the depth of that recursion.
    The pause before a retry is real time and is left out. *)
Fixpoint generatePortrait (config : AIService.AIServiceConfig) (budget : nat)
    (request : AIService.GenerationRequest) : M AIService.GenerationResponse :=
  match budget with
  | O => unfinished
  | S budget' =>
      startTime <- Date_now ;;
      try_catch
        (set_retryCount 0 ;;;
         if DEV_MODE_SKIP_AI host then
           let imageBase64 := image_payload (AIService.request_image request) in
           endTime <- Date_now ;;
           ret {| AIService.success := true;
                  AIService.imageUrl := None;
                  AIService.imageData := Some imageBase64;
                  AIService.error := None;
                  AIService.cost := Some (0 # 1);
                  AIService.generationTime := Some (endTime - startTime) |}
         else
           let prompt :=
             AIService.buildPrompt (AIService.request_options request)
               (AIService.request_prompt request) in
           let imageBase64 := image_payload (AIService.request_image request) in
           imageData <- callGeminiAPI prompt imageBase64 (AIService.model config) ;;
           endTime <- Date_now ;;
           let cost := AIService.calculateCost (AIService.request_size request) in
           ret {| AIService.success := true;
                  AIService.imageUrl := None;
                  AIService.imageData := Some imageData;
                  AIService.error := None;
                  AIService.cost := Some cost;
                  AIService.generationTime := Some (endTime - startTime) |})
        (fun error =>
           retries <- get_retryCount ;;
           if retries <? AIService.maxRetries config then
             set_retryCount (retries + 1) ;;;
             generatePortrait config budget' request
           else
             ret {| AIService.success := false;
                    AIService.imageUrl := None;
                    AIService.imageData := None;
                    AIService.error :=
                      Some (Js.message_or error "Failed to generate portrait");
                    AIService.cost := None;
                    AIService.generationTime := None |})
  end.

(** The exported singleton, [new AIService()]. *)
Definition aiService_generatePortrait := generatePortrait getAIConfig.

(** ** ai-response-handler.ts *)

Definition isValidBase64 (str : string) : bool :=
  if Buffer_defined host then
    String.eqb (Buffer_to_base64 host (Buffer_from_base64 host str)) str
  else
    match atob host str with
    | inr decoded => String.eqb (btoa host decoded) str
    | inl _ => false
    end.

Definition base64ToBlob (base64 : string) : Js.Thrown + AIResponseHandler.Blob :=
  if Buffer_defined host then
    inr {| AIResponseHandler.blob_bytes := Buffer_from_base64 host base64;
           AIResponseHandler.blob_type := "image/jpeg" |}
  else
    match atob host base64 with
    | inr byteCharacters =>
        inr {| AIResponseHandler.blob_bytes := byteCharacters;
               AIResponseHandler.blob_type := "image/jpeg" |}
    | inl t => inl t
    end.

(** On the server ([typeof window === 'undefined']) the answer is
    [null]; in a browser it is what loading the blob as an [Image]
    gives. *)
Definition getImageDimensions (blob : AIResponseHandler.Blob) : option Dimensions :=
  if negb (window_defined host) then None
  else
    match Image_load host (AIResponseHandler.blob_bytes blob) with
    | Some (w, h) => Some {| width := w; height := h |}
    | None => None
    end.

Definition validateImageData (imageData : string)
    (options : AIResponseHandler.ValidationOptions)
  : AIResponseHandler.ImageValidation :=
  if negb (isValidBase64 imageData) then
    {| AIResponseHandler.isValid := false;
       AIResponseHandler.errors := ["Invalid base64 image data"];
       AIResponseHandler.warnings_found := [];
       AIResponseHandler.found_dimensions := None |}
  else
    match base64ToBlob imageData with
    | inr blob =>
        AIResponseHandler.check_blob blob (getImageDimensions blob) options
    | inl error =>
        {| AIResponseHandler.isValid := false;
           AIResponseHandler.errors :=
             ["Validation error: " +:+ Js.message_or error "Unknown error"];
           AIResponseHandler.warnings_found := [];
           AIResponseHandler.found_dimensions := None |}
    end.

Definition failed_response (message : string) : AIResponseHandler.ProcessedResponse :=
  {| AIResponseHandler.success := false;
     AIResponseHandler.imageData := None;
     AIResponseHandler.imageUrl := None;
     AIResponseHandler.metadata := None;
     AIResponseHandler.error := Some message;
     AIResponseHandler.warnings := None |}.

Definition processResponse (response : AIService.GenerationResponse)
    (metrics : AIGenerationMetrics)
    (validationOptions : AIResponseHandler.ValidationOptions)
  : M AIResponseHandler.ProcessedResponse :=
  let options :=
    AIResponseHandler.merge_options
      AIResponseHandler.DEFAULT_VALIDATION validationOptions in
  try_catch
    (if (negb (AIService.success response)
         || negb (Js.truthy_str (AIService.imageData response)))%bool then
       ret (failed_response
              (Js.or_str (AIService.error response) "No image data received"))
     else
       let imageData := Js.or_str (AIService.imageData response) "" in
       let validation := validateImageData imageData options in
       if negb (AIResponseHandler.isValid validation) then
         ret (failed_response
                ("Image validation failed: "
                   +:+ Js.join ", " (AIResponseHandler.errors validation)))
       else
         let warnings := AIResponseHandler.warnings_found validation in
         now <- Date_now ;;
         let metadata := AIResponseHandler.extractMetadata metrics validation now in
         let quality := AIResponseHandler.assessQuality metadata options in
         ret {| AIResponseHandler.success := true;
                AIResponseHandler.imageData := AIService.imageData response;
                AIResponseHandler.imageUrl := None;
                AIResponseHandler.metadata :=
                  Some (AIResponseHandler.with_quality metadata quality);
                AIResponseHandler.error := None;
                AIResponseHandler.warnings :=
                  if Nat.ltb 0 (length warnings) then Some warnings else None |})
    (fun error =>
       ret (failed_response (Js.message_or error "Failed to process response"))).

(** ** watermark.ts *)

Definition addWatermarkServer (imageData : string)
    (options : WatermarkService.WatermarkOptions)
  : WatermarkService.WatermarkResult :=
  let base64Data := WatermarkService.strip_data_url imageData in
  let imageBuffer := Buffer_from_base64 host base64Data in
  let attempt : Js.Thrown + string :=
    match sharp_metadata host imageBuffer with
    | inl t => inl t
    | inr (metadata_width, metadata_height) =>
        let width := default 512 metadata_width in
        let height := default 512 metadata_height in
        let watermarkSvg := WatermarkService.createWatermarkSvg options width height in
        let watermarkPos :=
          WatermarkService.calculateServerPosition width
            (WatermarkService.position options) (WatermarkService.fontSize options) in
        match sharp_composite_png host imageBuffer watermarkSvg
                (WatermarkService.y watermarkPos) (WatermarkService.x watermarkPos) with
        | inl t => inl t
        | inr watermarkedBuffer =>
            let watermarkedBase64 := Buffer_to_base64 host watermarkedBuffer in
            inr ("data:image/png;base64," +:+ watermarkedBase64)
        end
    end in
  match attempt with
  | inr dataUrl =>
      {| WatermarkService.success := true;
         WatermarkService.imageData := Some dataUrl;
         WatermarkService.error := None |}
  | inl error =>
      {| WatermarkService.success := false;
         WatermarkService.imageData := None;
         WatermarkService.error :=
           Some (Js.message_or error "Server watermarking failed") |}
  end.

Definition addWatermark (imageData : string)
    (options : WatermarkService.PartialOptions)
  : WatermarkService.WatermarkResult :=
  let opts :=
    WatermarkService.merge_options WatermarkService.DEFAULT_OPTIONS options in
  addWatermarkServer imageData opts.

Definition addPreviewWatermark (imageData : string)
  : WatermarkService.WatermarkResult :=
  addWatermarkServer imageData
    {| WatermarkService.text := "PREVIEW - Portrait Banana";
       WatermarkService.fontSize := 20 # 1;
       WatermarkService.fontFamily := "Arial, sans-serif";
       WatermarkService.position := WatermarkService.bottom_center;
       WatermarkService.opacity := 8 # 10;
       WatermarkService.backgroundColor := Some "rgba(255, 255, 255, 0.9)";
       WatermarkService.color := "rgba(0, 0, 0, 0.8)";
       WatermarkService.padding := 20 # 1;
       WatermarkService.pattern := Some true |}.

Definition addSubtleWatermark (imageData : string)
  : WatermarkService.WatermarkResult :=
  addWatermark imageData
    {| WatermarkService.partial_text := Some "Portrait Banana";
       WatermarkService.partial_fontSize := Some (16 # 1);
       WatermarkService.partial_position := Some WatermarkService.bottom_right;
       WatermarkService.partial_opacity := Some (5 # 10);
       WatermarkService.partial_backgroundColor := Some "rgba(255, 255, 255, 0.7)";
       WatermarkService.partial_color := Some "rgba(0, 0, 0, 0.6)";
       WatermarkService.partial_pattern := Some false;
       WatermarkService.partial_fontFamily := None;
       WatermarkService.partial_padding := None |}.

(** ** app/api/generate-preview/route.ts *)

Definition rate_limited_response (rateLimitResult : RateLimitResult) : NextResponse :=
  {| status := 429;
     body := {| success := false;
                error := Some "Rate limit exceeded. Please try again later.";
                retryAfter_sent := retryAfter rateLimitResult;
                resetTime_sent := Some (resetTime rateLimitResult);
                previewUrl := None;
                imageData := None;
                metadata := None;
                warnings_sent := None |};
     response_headers :=
       [ ("X-RateLimit-Limit", "3");
         ("X-RateLimit-Remaining", Js.num_to_string (remaining rateLimitResult));
         ("X-RateLimit-Reset", Js.num_to_string (resetTime rateLimitResult));
         ("Retry-After",
          match retryAfter rateLimitResult with
          | Some seconds => Js.num_to_string seconds
          | None => "0"
          end) ] |}.

(** The handler after admission and body parsing, from the field checks
    on. *)
Definition handle_body (budget : nat) (startTime : Z)
    (rateLimitResult : RateLimitResult) (body : PreviewGenerationRequest)
  : M NextResponse :=
  match body_image body, body_options body with
  | Some image, Some options =>
      if (negb (Js.truthy_str (json_base64Data image))
          || negb (Js.truthy_str (json_id image))
          || negb (Js.truthy_str (json_type image)))%bool then
        ret (error_response 400 "Invalid image data: missing required fields")
      else if (negb (Js.truthy_str (background options))
               || negb (Js.truthy_str (style options)))%bool then
        ret (error_response 400 "Invalid options: background and style are required")
      else
        promptVariations <-
          lift (PromptBuilder.buildPrompt options
                  {| PromptBuilder.partial_industry := industry options;
                     PromptBuilder.partial_mood := mood options;
                     PromptBuilder.partial_lighting := None;
                     PromptBuilder.partial_composition := None;
                     PromptBuilder.partial_additionalRequirements :=
                       additionalRequirements options |}) ;;
        let finalPrompt :=
          Js.or_str (body_prompt body) (PromptBuilder.detailed promptVariations) in
        let promptValidation :=
          PromptBuilder.validateContext
            {| PromptBuilder.ctx_style := Js.or_str (style options) "professional";
               PromptBuilder.ctx_background := Js.or_str (background options) "office";
               PromptBuilder.ctx_industry :=
                 Some (Js.or_str (industry options) "general");
               PromptBuilder.ctx_mood := None;
               PromptBuilder.ctx_lighting := None;
               PromptBuilder.ctx_composition := None;
               PromptBuilder.ctx_additionalRequirements := None |} in
        if negb (PromptBuilder.context_isValid promptValidation) then
          ret (error_response 400
                 ("Invalid prompt context: "
                    +:+ Js.join ", " (PromptBuilder.context_errors promptValidation)))
        else
          let uploadedImage :=
            {| image_id := Js.or_str (json_id image) "";
               image_file := [];
               image_preview := json_preview image;
               image_size := json_size image;
               image_type := Js.or_str (json_type image) "";
               image_dimensions := json_dimensions image;
               image_uploadedAt := json_uploadedAt image;
               image_base64Data := json_base64Data image |} in
          generationResult <-
            aiService_generatePortrait budget
              {| AIService.request_image := uploadedImage;
                 AIService.request_options := options;
                 AIService.request_size := preview;
                 AIService.request_prompt := Some finalPrompt |} ;;
          if (negb (AIService.success generationResult)
              || negb (Js.truthy_str (AIService.imageData generationResult)))%bool then
            ret (error_response 500
                   (Js.or_str (AIService.error generationResult)
                      "Failed to generate preview"))
          else
            endTime <- Date_now ;;
            let metrics :=
              MetricsUtils.createMetrics startTime endTime
                (AIService.model getAIConfig) preview in
            processedResponse <-
              processResponse generationResult metrics
                {| AIResponseHandler.minWidth := Some GENERATION_CONFIG.PREVIEW_SIZE;
                   AIResponseHandler.minHeight := Some GENERATION_CONFIG.PREVIEW_SIZE;
                   AIResponseHandler.maxFileSize := Some (5 * 1024 * 1024);
                   AIResponseHandler.allowedFormats :=
                     Some ["image/jpeg"; "image/png"; "image/webp"];
                   AIResponseHandler.qualityThreshold := None |} ;;
            if (negb (AIResponseHandler.success processedResponse)
                || negb (Js.truthy_str (AIResponseHandler.imageData processedResponse)))%bool
            then
              ret (error_response 500
                     (Js.or_str (AIResponseHandler.error processedResponse)
                        "Failed to process generated image"))
            else
              let processedImage :=
                Js.or_str (AIResponseHandler.imageData processedResponse) "" in
              let watermarkResult := addPreviewWatermark processedImage in
              (* a failed watermark is logged with console.warn and no more *)
              let watermarkedImageData :=
                Js.or_str (WatermarkService.imageData watermarkResult) processedImage in
              let previewUrl := createPreviewUrl watermarkedImageData in
              let metadata :=
                {| meta_generationTime := metrics_duration metrics;
                   meta_cost := metrics_cost metrics;
                   meta_dimensions :=
                     match AIResponseHandler.metadata processedResponse with
                     | Some m =>
                         default {| width := GENERATION_CONFIG.PREVIEW_SIZE;
                                    height := GENERATION_CONFIG.PREVIEW_SIZE |}
                           (AIResponseHandler.dimensions m)
                     | None =>
                         {| width := GENERATION_CONFIG.PREVIEW_SIZE;
                            height := GENERATION_CONFIG.PREVIEW_SIZE |}
                     end;
                   meta_quality :=
                     match AIResponseHandler.metadata processedResponse with
                     | Some m => AIResponseHandler.quality m
                     | None => medium
                     end;
                   watermarked := true |} in
              ret {| status := 200;
                     body := {| success := true;
                                error := None;
                                retryAfter_sent := None;
                                resetTime_sent := None;
                                previewUrl := Some previewUrl;
                                imageData := Some watermarkedImageData;
                                metadata := Some metadata;
                                warnings_sent :=
                                  AIResponseHandler.warnings processedResponse |};
                     response_headers :=
                       [ ("X-RateLimit-Limit", "3");
                         ("X-RateLimit-Remaining",
                          Js.num_to_string (remaining rateLimitResult));
                         ("X-RateLimit-Reset",
                          Js.num_to_string (resetTime rateLimitResult)) ] |}
  | _, _ =>
      ret (error_response 400
             "Missing required fields: image and options are required")
  end.

Definition POST (budget : nat) (request : NextRequest PreviewGenerationRequest)
  : M NextResponse :=
  startTime <- Date_now ;;
  try_catch
    (rateLimitResult <- checkRateLimit request ;;
     if negb (allowed rateLimitResult) then
       ret (rate_limited_response rateLimitResult)
     else
       body <- lift (json request) ;;
       handle_body budget startTime rateLimitResult body)
    (fun error =>
       let errorMessage := Js.message_or error "Internal server error" in
       ret (error_response 500 ("Preview generation failed: " +:+ errorMessage))).

(** ** app/api/debug/rate-limit/route.ts *)

Definition debug_forbidden : DebugResponse :=
  {| debug_status := 403;
     debug_error := Some "This endpoint is only available in development mode";
     debug_success := None;
     debug_message := None;
     debug_cleared := None |}.

(** The [POST] of the debug endpoint; the body is the [ip] property of
    the parsed JSON, when it has one. *)
Definition debug_POST (request : NextRequest (option string)) : M DebugResponse :=
  if negb (NODE_ENV_development host) then ret debug_forbidden
  else
    try_catch
      (ip <- lift (json request) ;;
       if Js.truthy_str ip then
         cleared <- clearForIP (Js.or_str ip "") ;;
         ret {| debug_status := 200;
                debug_error := None;
                debug_success := Some true;
                debug_message :=
                  Some ("Rate limit cleared for IP: " +:+ Js.or_str ip "");
                debug_cleared := Some cleared |}
       else
         clearAll ;;;
         ret {| debug_status := 200;
                debug_error := None;
                debug_success := Some true;
                debug_message := Some "All rate limits cleared";
                debug_cleared := None |})
      (fun _ =>
         ret {| debug_status := 500;
                debug_error := Some "Failed to clear rate limits";
                debug_success := None;
                debug_message := None;
                debug_cleared := None |}).

End Server.

(** ** Scenarios *)

(** [n] consecutive admission checks of one request: the result of each
    and the entry that the store holds for the client after it. *)
Fixpoint admissions (host : Host) {Body} (request : NextRequest Body) (n : nat)
    (w : World) : list (RateLimitResult * option RateLimitEntry) * World :=
  match n with
  | O => ([], w)
  | S n' =>
      match checkRateLimit host request w with
      | (Returns r, w') =>
          let '(rest, w'') := admissions host request n' w' in
          ((r, rateLimitStore w' !! getClientIP request) :: rest, w'')
      | (_, w') => ([], w')
      end
  end.

(** The world after an admitted check: two more clock readings, the
    given store, nothing else touched. *)
Definition admitted_world (w : World) (s : gmap string RateLimitEntry) : World :=
  {| rateLimitStore := s;
     clockReads := S (S (clockReads w));
     providerCalls := providerCalls w;
     retryCount := retryCount w |}.

(** The world after one more clock reading and nothing else: what a
    denied check leaves, and what the handler's first statement
    leaves. *)
Definition tick (w : World) : World :=
  {| rateLimitStore := rateLimitStore w;
     clockReads := S (clockReads w);
     providerCalls := providerCalls w;
     retryCount := retryCount w |}.

(** The client has no entry, or one whose window has passed at the next
    clock reading. *)
Definition no_live_entry (host : Host) (ip : string) (w : World) : Prop :=
  match rateLimitStore w !! ip with
  | Some e => clock host (clockReads w) > entry_resetTime e
  | None => True
  end.

(** What an admitted check returns and stores when it brings the count
    to [k] in the window that ends at [r], at time [now]. *)
Definition admitted (host : Host) (k r now : Z)
  : RateLimitResult * option RateLimitEntry :=
  ({| allowed := true;
      remaining := maxAttempts host - k;
      resetTime := r;
      retryAfter := None |},
   Some {| count := k; entry_resetTime := r; lastRequest := now |}).

(** ** The scoring rule in the words of the specification *)

Module QualitySpec.

(** +3 if the shorter side is at least 2048px, +2 if at least 1024px,
    +1 if at least 512px, 0 otherwise *)
Definition dimension_points (shorter_side : Z) : Z :=
  if 2048 <=? shorter_side then 3
  else if 1024 <=? shorter_side then 2
  else if 512 <=? shorter_side then 1
  else 0.

(** +2 if generation took less than 5000ms, +1 if less than 15000ms *)
Definition time_points (duration : Z) : Z :=
  if duration <? 5000 then 2
  else if duration <? 15000 then 1
  else 0.

(** +2 for [full], +1 for [preview] *)
Definition size_points (size : SizeClass) : Z :=
  match size with
  | full => 2
  | preview => 1
  end.

(** at least 6 is [high], at least 3 is [medium], else [low] *)
Definition tier (total : Z) : Quality :=
  if 6 <=? total then high
  else if 3 <=? total then medium
  else low.

End QualitySpec.

(** ** A concrete host for the scenarios

    A Node.js server: no [window], a [Buffer] with the standard base64
    codec, a [sharp] that reads the size of a PNG from its header and
    rejects every other buffer, that refuses an overlay whose [top] or
    [left] is not an integer, and whose compositing is stood for by
    appending one byte to the base image. *)

Module Demo.

Definition alphabet : string :=
  "ABCDEFGHIJKLMNOPQRSTUVWXYZabcdefghijklmnopqrstuvwxyz0123456789+/".

Definition digit (n : N) : ascii :=
  match String.get (N.to_nat n) alphabet with
  | Some c => c
  | None => "="%char
  end.

Fixpoint value_in (c : ascii) (s : string) (i : N) : option N :=
  match s with
  | String d r => if Ascii.eqb c d then Some i else value_in c r (N.succ i)
  | EmptyString => None
  end.

Fixpoint encode (bs : list N) : string :=
  match bs with
  | a :: b :: c :: rest =>
      let n := (a * 65536 + b * 256 + c)%N in
      String (digit (n / 262144))
        (String (digit ((n / 4096) mod 64))
           (String (digit ((n / 64) mod 64))
              (String (digit (n mod 64)) (encode rest))))
  | [a; b] =>
      let n := (a * 65536 + b * 256)%N in
      String (digit (n / 262144))
        (String (digit ((n / 4096) mod 64))
           (String (digit ((n / 64) mod 64)) "="))
  | [a] =>
      let n := (a * 65536)%N in
      String (digit (n / 262144)) (String (digit ((n / 4096) mod 64)) "==")
  | [] => ""
  end.

(** The six-bit values of the characters up to the padding; characters
    outside the alphabet are skipped. *)
Fixpoint sextets (s : string) : list N :=
  match s with
  | String c r =>
      if Ascii.eqb c "=" then []
      else
        match value_in c alphabet 0%N with
        | Some v => v :: sextets r
        | None => sextets r
        end
  | EmptyString => []
  end.

Fixpoint octets (vs : list N) : list N :=
  match vs with
  | a :: b :: c :: d :: rest =>
      let n := (a * 262144 + b * 4096 + c * 64 + d)%N in
      (n / 65536 :: (n / 256) mod 256 :: n mod 256 :: octets rest)%N
  | [a; b; c] =>
      let n := (a * 262144 + b * 4096 + c * 64)%N in
      [n / 65536; (n / 256) mod 256]%N
  | [a; b] =>
      let n := (a * 262144 + b * 4096)%N in
      [n / 65536]%N
  | _ => []
  end.

Definition to_byte (n : N) : Byte.byte := default Byte.x00 (Byte.of_N n).

Definition from_base64 (s : string) : bytes := map to_byte (octets (sextets s)).

Definition to_base64 (buf : bytes) : string := encode (map Byte.to_N buf).

(** The eight bytes every PNG starts with. *)
Definition png_signature : list N := [137; 80; 78; 71; 13; 10; 26; 10]%N.

Definition be32 (a b c d : N) : Z := Z.of_N (a * 16777216 + b * 65536 + c * 256 + d).

(** The width and the height in the header of a PNG. *)
Definition png_size (buf : bytes) : option (Z * Z) :=
  let ns := map Byte.to_N buf in
  if bool_decide (take 8 ns = png_signature) then
    match drop 16 ns with
    | w3 :: w2 :: w1 :: w0 :: h3 :: h2 :: h1 :: h0 :: _ =>
        Some (be32 w3 w2 w1 w0, be32 h3 h2 h1 h0)
    | _ => None
    end
  else None.

Definition metadata_of (buf : bytes) : Js.Thrown + (option Z * option Z) :=
  match png_size buf with
  | Some (w, h) => inr (Some w, Some h)
  | None => inl (Js.JsError "Input buffer contains unsupported image format")
  end.

(** The digits after the decimal point of [r / d], for [0 <= r < d]. *)
Fixpoint decimals (fuel : nat) (r d : Z) : string :=
  match fuel with
  | O => ""
  | S fuel' =>
      if r =? 0 then ""
      else Js.num_to_string ((10 * r) / d) +:+ decimals fuel' ((10 * r) mod d) d
  end.

(** [`${q}`] for a number with few decimals, such as the offsets of the
    scenarios. *)
Definition show_decimal (q : Q) : string :=
  let n := Z.abs (Qnum q) in
  let d := Zpos (Qden q) in
  (if Qnum q <? 0 then "-" else "")
    +:+ Js.num_to_string (n / d)
    +:+ (if n mod d =? 0 then "" else "." +:+ decimals 17 (n mod d) d).

(** [Number.isInteger(q)] *)
Definition is_integer (q : Q) : bool := Qnum q mod Zpos (Qden q) =? 0.

(** [composite] checks the options of the overlay when it is called,
    [top] before [left], and the image is decoded when the pipeline
    runs. *)
Definition composite_of (buf : bytes) (overlay : Svg) (top left : Q)
  : Js.Thrown + bytes :=
  if negb (is_integer top) then
    inl (Js.JsError ("Expected integer for top but received " +:+ show_decimal top
                       +:+ " of type number"))
  else if negb (is_integer left) then
    inl (Js.JsError ("Expected integer for left but received " +:+ show_decimal left
                       +:+ " of type number"))
  else
    match png_size buf with
    | Some _ => inr (buf ++ [Byte.x01])%list
    | None => inl (Js.JsError "Input buffer contains unsupported image format")
    end.

(** A provider answer that carries one inline image. *)
Definition image_answer (data : string) : GeminiResponse :=
  {| candidates :=
       Some [ {| content := Some (Some [ {| inlineData := Some (Some data) |} ]) |} ] |}.

(** A production server with the given clock and provider. *)
Definition server (clock : nat -> Z)
    (provider : nat -> string -> string -> string -> Js.Thrown + GeminiResponse)
  : Host :=
  {| clock := clock;
     NODE_ENV_development := false;
     DEV_MODE_SKIP_AI := false;
     GEMINI_API_KEY := "key";
     window_defined := false;
     Buffer_defined := true;
     generateContent := provider;
     Buffer_from_base64 := from_base64;
     Buffer_to_base64 := to_base64;
     atob := fun s => inr (from_base64 s);
     btoa := to_base64;
     Image_load := png_size;
     sharp_metadata := metadata_of;
     sharp_composite_png := composite_of |}.

(** A clock that advances one millisecond per reading. *)
Definition ticking (start : Z) : nat -> Z := fun n => start + Z.of_nat n.

(** The first [n] readings are a millisecond apart; the later ones come
    [gap] milliseconds after them. *)
Definition ticking_then_late (n : nat) (gap : Z) : nat -> Z :=
  fun i => if (i <? n)%nat then Z.of_nat i else gap + Z.of_nat i.

(** The first [n] readings are a millisecond apart from 0; the later
    ones all give [at_]. *)
Definition ticking_then_at (n : nat) (at_ : Z) : nat -> Z :=
  fun i => if (i <? n)%nat then Z.of_nat i else at_.

(** The header of a PNG of 512 by 512, of 1024 by 512 and of 256 by 256
    pixels, and twelve bytes that are no image, in base64. *)
Definition png_512x512 : string := "iVBORw0KGgoAAAANSUhEUgAAAgAAAAIA".
Definition png_1024x512 : string := "iVBORw0KGgoAAAANSUhEUgAABAAAAAIA".
Definition png_256x256 : string := "iVBORw0KGgoAAAANSUhEUgAAAQAAAAEA".
Definition not_an_image : string := "bm90IGFuIGltYWdl".

Definition returns_image (data : string)
  : nat -> string -> string -> string -> Js.Thrown + GeminiResponse :=
  fun _ _ _ _ => inr (image_answer data).

Definition fails_with (message : string)
  : nat -> string -> string -> string -> Js.Thrown + GeminiResponse :=
  fun _ _ _ _ => inl (Js.JsError message).

Definition new_world : World :=
  {| rateLimitStore := ∅; clockReads := 0; providerCalls := 0; retryCount := 0 |}.

Definition office_professional : CustomizationOptions :=
  {| background := Some "office";
     style := Some "professional";
     industry := None;
     mood := None;
     additionalRequirements := None |}.

(** An upload of the given size whose payload is [data]. *)
Definition upload (w h : Z) (data : string) : ImageJson :=
  {| json_id := Some "img-1";
     json_preview := "blob:preview";
     json_size := 1024 * 1024;
     json_type := Some "image/png";
     json_dimensions := {| width := w; height := h |};
     json_uploadedAt := "2025-01-01T00:00:00.000Z";
     json_base64Data := Some data |}.

Definition request_of (address : string) (body : PreviewGenerationRequest)
  : NextRequest PreviewGenerationRequest :=
  {| headers := {[ "x-forwarded-for" := address ]};
     json := inr body |}.

Definition preview_request (w h : Z) (data : string)
  : NextRequest PreviewGenerationRequest :=
  request_of "203.0.113.7"
    {| body_image := Some (upload w h data);
       body_options := Some office_professional;
       body_prompt := None;
       body_useCase := None |}.

(** A body without [options]. *)
Definition incomplete_request : NextRequest PreviewGenerationRequest :=
  request_of "203.0.113.7"
    {| body_image := Some (upload 512 512 png_512x512);
       body_options := None;
       body_prompt := None;
       body_useCase := None |}.

(** Options that [validateOptions] rejects: an opacity of 5, a font
    size of 200 and a padding of -1.  The first and the last come with
    a font size of 20, which is in range and puts the overlay at whole
    pixels (at the default size of 24 the offset from the top of a 512px
    image is 512 - 20 - 14.4 = 477.6, which [sharp] refuses whatever the
    other options are). *)
Definition opacity_5 : WatermarkService.PartialOptions :=
  {| WatermarkService.partial_text := None;
     WatermarkService.partial_opacity := Some (5 # 1);
     WatermarkService.partial_fontSize := Some (20 # 1);
     WatermarkService.partial_fontFamily := None;
     WatermarkService.partial_color := None;
     WatermarkService.partial_backgroundColor := None;
     WatermarkService.partial_position := None;
     WatermarkService.partial_padding := None;
     WatermarkService.partial_pattern := None |}.

Definition font_size_200 : WatermarkService.PartialOptions :=
  {| WatermarkService.partial_text := None;
     WatermarkService.partial_opacity := None;
     WatermarkService.partial_fontSize := Some (200 # 1);
     WatermarkService.partial_fontFamily := None;
     WatermarkService.partial_color := None;
     WatermarkService.partial_backgroundColor := None;
     WatermarkService.partial_position := None;
     WatermarkService.partial_padding := None;
     WatermarkService.partial_pattern := None |}.

Definition padding_minus_1 : WatermarkService.PartialOptions :=
  {| WatermarkService.partial_text := None;
     WatermarkService.partial_opacity := None;
     WatermarkService.partial_fontSize := Some (20 # 1);
     WatermarkService.partial_fontFamily := None;
     WatermarkService.partial_color := None;
     WatermarkService.partial_backgroundColor := None;
     WatermarkService.partial_position := None;
     WatermarkService.partial_padding := Some (-1 # 1);
     WatermarkService.partial_pattern := None |}.

(** The image of a preview request as the service receives it. *)
Definition uploaded (w h : Z) (data : string) : UploadedImage :=
  {| image_id := "img-1";
     image_file := [];
     image_preview := "blob:preview";
     image_size := 1024 * 1024;
     image_type := "image/png";
     image_dimensions := {| width := w; height := h |};
     image_uploadedAt := "2025-01-01T00:00:00.000Z";
     image_base64Data := Some data |}.

(** A generation that succeeded with the header of a 512 by 512 PNG,
    the metrics of a preview that took three seconds, and the options
    the handler validates previews with. *)
Definition generated : AIService.GenerationResponse :=
  {| AIService.success := true;
     AIService.imageUrl := None;
     AIService.imageData := Some png_512x512;
     AIService.error := None;
     AIService.cost := Some GENERATION_CONFIG.PREVIEW_COST;
     AIService.generationTime := Some 3000 |}.

Definition preview_metrics : AIGenerationMetrics :=
  MetricsUtils.createMetrics 0 3000 "gemini-2.5-flash-image-preview" preview.

Definition preview_validation : AIResponseHandler.ValidationOptions :=
  {| AIResponseHandler.minWidth := Some GENERATION_CONFIG.PREVIEW_SIZE;
     AIResponseHandler.minHeight := Some GENERATION_CONFIG.PREVIEW_SIZE;
     AIResponseHandler.maxFileSize := Some (5 * 1024 * 1024);
     AIResponseHandler.allowedFormats :=
       Some ["image/jpeg"; "image/png"; "image/webp"];
     AIResponseHandler.qualityThreshold := None |}.

(** A server whose provider is never reached. *)
Definition idle_server (clock : nat -> Z) : Host :=
  server clock (fails_with "unreachable").

(** What [processResponse] makes of [generated] on that server. *)
Definition processed : AIResponseHandler.ProcessedResponse :=
  match fst (processResponse (idle_server (ticking 0)) generated preview_metrics
               preview_validation new_world) with
  | Returns result => result
  | _ => failed_response "unfinished"
  end.

Definition processed_metadata : AIResponseHandler.ResponseMetadata :=
  default
    (AIResponseHandler.with_quality
       (AIResponseHandler.extractMetadata preview_metrics
          (validateImageData (idle_server (ticking 0)) "" preview_validation) 0) low)
    (AIResponseHandler.metadata processed).

(** An upload of 15MB. *)
Definition large_file : UploadedImage :=
  {| image_id := "img-2";
     image_file := [];
     image_preview := "blob:preview";
     image_size := 15 * 1024 * 1024;
     image_type := "image/png";
     image_dimensions := {| width := 512; height := 512 |};
     image_uploadedAt := "2025-01-01T00:00:00.000Z";
     image_base64Data := None |}.

(** A request of the same client whose body is no JSON. *)
Definition unparsable_request : NextRequest PreviewGenerationRequest :=
  {| headers := {[ "x-forwarded-for" := "203.0.113.7" ]};
     json := inl (Js.JsError "Unexpected end of JSON input") |}.

(** A service configured with one retry. *)
Definition one_retry : AIService.AIServiceConfig :=
  {| AIService.apiKey := "key";
     AIService.model := "gemini-2.5-flash-image-preview";
     AIService.maxRetries := 1;
     AIService.baseUrl := "https://generativelanguage.googleapis.com/v1beta" |}.

Definition generation_request : AIService.GenerationRequest :=
  {| AIService.request_image := uploaded 512 512 png_512x512;
     AIService.request_options := office_professional;
     AIService.request_size := preview;
     AIService.request_prompt := None |}.

(** A production server in skip mode ([DEV_MODE_SKIP_AI=true]). *)
Definition skipping_server (clock : nat -> Z) : Host :=
  {| clock := clock;
     NODE_ENV_development := false;
     DEV_MODE_SKIP_AI := true;
     GEMINI_API_KEY := "key";
     window_defined := false;
     Buffer_defined := true;
     generateContent := fails_with "unreachable";
     Buffer_from_base64 := from_base64;
     Buffer_to_base64 := to_base64;
     atob := fun s => inr (from_base64 s);
     btoa := to_base64;
     Image_load := png_size;
     sharp_metadata := metadata_of;
     sharp_composite_png := composite_of |}.

(** A request that came through two proxies. *)
Definition chained_request : NextRequest PreviewGenerationRequest :=
  {| headers := {[ "x-forwarded-for" := "203.0.113.7 , 10.0.0.1, 10.0.0.2" ]};
     json := inl (Js.JsError "Unexpected end of JSON input") |}.

(** A request of another client. *)
Definition other_request : NextRequest PreviewGenerationRequest :=
  request_of "198.51.100.2"
    {| body_image := Some (upload 512 512 png_512x512);
       body_options := None;
       body_prompt := None;
       body_useCase := None |}.

(** The world after one check of the other client on an idle server. *)
Definition after_other_client : World :=
  snd (checkRateLimit (idle_server (ticking 0)) other_request new_world).


(** What the handler answers to a first request, and the world it
    leaves, on a given host. *)
Definition answer_of (host : Host) (request : NextRequest PreviewGenerationRequest)
  : NextResponse :=
  match fst (POST host 1 request new_world) with
  | Returns resp => resp
  | _ => error_response 500 "unfinished"
  end.

Definition world_after (host : Host) (request : NextRequest PreviewGenerationRequest)
  : World :=
  snd (POST host 1 request new_world).

(** The environment of a development machine, the host that runs with
    it, and the configuration loaded from it (with the numbers kept as
    their text, every text taken for a number and every URL for
    valid). *)
Definition development_env : gmap string string :=
  {[ "GEMINI_API_KEY" := "key";
     "STRIPE_SECRET_KEY" := "sk_test_1";
     "STRIPE_PUBLISHABLE_KEY" := "pk_test_1";
     "STRIPE_WEBHOOK_SECRET" := "whsec_1";
     "NEXT_PUBLIC_APP_URL" := "http://localhost:3000";
     "NODE_ENV" := "development";
     "DEV_MODE_SKIP_AI" := "false" ]}.

Definition development_server (clock : nat -> Z) : Host :=
  {| clock := clock;
     NODE_ENV_development := true;
     DEV_MODE_SKIP_AI := true;
     GEMINI_API_KEY := "key";
     window_defined := false;
     Buffer_defined := true;
     generateContent := fails_with "unreachable";
     Buffer_from_base64 := from_base64;
     Buffer_to_base64 := to_base64;
     atob := fun s => inr (from_base64 s);
     btoa := to_base64;
     Image_load := png_size;
     sharp_metadata := metadata_of;
     sharp_composite_png := composite_of |}.

Definition load_as_text (env : gmap string string)
  : Js.Thrown + EnvValidation.EnvConfig string :=
  EnvValidation.validateAndLoadConfig string (fun s => s) (fun s => s)
    (fun _ => false) (fun _ => true) env.

(** What [load_as_text] makes of [development_env]. *)
Definition development_config : EnvValidation.EnvConfig string :=
  {| EnvValidation.GEMINI_API_KEY := "key";
     EnvValidation.STRIPE_SECRET_KEY := "sk_test_1";
     EnvValidation.STRIPE_PUBLISHABLE_KEY := "pk_test_1";
     EnvValidation.STRIPE_WEBHOOK_SECRET := "whsec_1";
     EnvValidation.NEXT_PUBLIC_APP_URL := "http://localhost:3000";
     EnvValidation.NODE_ENV := EnvValidation.development;
     EnvValidation.DEV_MODE_SKIP_AI := true;
     EnvValidation.UPLOAD_MAX_SIZE := "10485760";
     EnvValidation.RATE_LIMIT_MAX_ATTEMPTS := "3";
     EnvValidation.RATE_LIMIT_WINDOW_MS := "86400000";
     EnvValidation.GENERATION_PREVIEW_COST := "0.039";
     EnvValidation.GENERATION_FULL_COST := "0.039";
     EnvValidation.DOWNLOAD_PRICE := "799";
     EnvValidation.CURRENCY := "usd";
     EnvValidation.AWS_ACCESS_KEY_ID := None;
     EnvValidation.AWS_SECRET_ACCESS_KEY := None;
     EnvValidation.AWS_REGION := None;
     EnvValidation.AWS_S3_BUCKET := None;
     EnvValidation.CLOUDINARY_CLOUD_NAME := None;
     EnvValidation.CLOUDINARY_API_KEY := None;
     EnvValidation.CLOUDINARY_API_SECRET := None;
     EnvValidation.GOOGLE_ANALYTICS_ID := None;
     EnvValidation.SENTRY_DSN := None |}.


End Demo.

(** The metadata of a response without its quality tier. *)
Definition bare_of (md : AIResponseHandler.ResponseMetadata)
  : AIResponseHandler.BareMetadata :=
  {| AIResponseHandler.bare_model := AIResponseHandler.model md;
     AIResponseHandler.bare_generationTime := AIResponseHandler.generationTime md;
     AIResponseHandler.bare_cost := AIResponseHandler.cost md;
     AIResponseHandler.bare_size := AIResponseHandler.size md;
     AIResponseHandler.bare_dimensions := AIResponseHandler.dimensions md;
     AIResponseHandler.bare_format := AIResponseHandler.format md;
     AIResponseHandler.bare_timestamp := AIResponseHandler.timestamp md |}.

(** The points for the dimensions of a result, none when they are
    unknown. *)
Definition dimension_points_of (dims : option Dimensions) : Z :=
  match dims with
  | Some d => QualitySpec.dimension_points (Z.min (width d) (height d))
  | None => 0
  end.

(** The entry an admission check works on at the next clock reading:
    the stored one while its window lasts, a fresh one otherwise. *)
Definition current_entry (host : Host) (ip : string) (w : World) : RateLimitEntry :=
  let now := clock host (clockReads w) in
  let fresh :=
    {| count := 0; entry_resetTime := now + windowMs host; lastRequest := now |} in
  match rateLimitStore w !! ip with
  | Some e => if now >? entry_resetTime e then fresh else e
  | None => fresh
  end.


(** The world after one provider call and nothing else. *)
Definition tick_provider (w : World) : World :=
  {| rateLimitStore := rateLimitStore w;
     clockReads := clockReads w;
     providerCalls := S (providerCalls w);
     retryCount := retryCount w |}.

(** In the scenario of the window (below), the [retryAfter] of the
    denied check: the time from that check, whose clock reading is
    number [c + 2N], to the reset time, in seconds, rounded up. *)
Definition retry_seconds (host : Host) (c : nat) : Z :=
  let N := Z.to_nat (maxAttempts host) in
  Js.ceil_div (clock host c + windowMs host - clock host (c + 2 * N)) 1000.

(** The trace of the scenario of the window: from the clock reading
    [c] on, a client without a live entry makes [N] admitted checks
    (two readings each), one denied check (one reading), and one check
    after the reset time. *)
Definition window_trace (host : Host) (c : nat)
  : list (RateLimitResult * option RateLimitEntry) :=
  let N := Z.to_nat (maxAttempts host) in
  let t0 := clock host c in
  let t1 := clock host (c + 2 * N + 1) in
  (map (fun k => admitted host (Z.of_nat k + 1) (t0 + windowMs host)
                   (clock host (c + 2 * k)))
       (seq 0 N)
   ++ [ ({| allowed := false;
            remaining := 0;
            resetTime := t0 + windowMs host;
            retryAfter := Some (retry_seconds host c) |},
         Some {| count := maxAttempts host;
                 entry_resetTime := t0 + windowMs host;
                 lastRequest := clock host (c + 2 * (N - 1)) |});
        admitted host 1 (t1 + windowMs host) t1 ])%list.

(** An allowed check leaves an entry whose count is within the ceiling. *)
Definition within_ceiling (host : Host)
    (step : RateLimitResult * option RateLimitEntry) : Prop :=
  allowed (fst step) = true ->
  exists e, snd step = Some e /\ count e <= maxAttempts host.

(** The same upload declared with other dimensions and another byte
    size. *)
Definition resized_image (d : Dimensions) (size : Z) (image : ImageJson) : ImageJson :=
  {| json_id := json_id image;
     json_preview := json_preview image;
     json_size := size;
     json_type := json_type image;
     json_dimensions := d;
     json_uploadedAt := json_uploadedAt image;
     json_base64Data := json_base64Data image |}.

Definition resized (d : Dimensions) (size : Z)
    (request : NextRequest PreviewGenerationRequest)
  : NextRequest PreviewGenerationRequest :=
  {| headers := headers request;
     json :=
       match json request with
       | inr body =>
           inr {| body_image := resized_image d size <$> body_image body;
                  body_options := body_options body;
                  body_prompt := body_prompt body;
                  body_useCase := body_useCase body |}
       | inl t => inl t
       end |}.

(** The image the service receives, declared with other dimensions and
    another byte size. *)
Definition resized_upload (d : Dimensions) (size : Z) (image : UploadedImage)
  : UploadedImage :=
  {| image_id := image_id image;
     image_file := image_file image;
     image_preview := image_preview image;
     image_size := size;
     image_type := image_type image;
     image_dimensions := d;
     image_uploadedAt := image_uploadedAt image;
     image_base64Data := image_base64Data image |}.

Definition resized_generation (d : Dimensions) (size : Z)
    (request : AIService.GenerationRequest) : AIService.GenerationRequest :=
  {| AIService.request_image :=
       resized_upload d size (AIService.request_image request);
     AIService.request_options := AIService.request_options request;
     AIService.request_size := AIService.request_size request;
     AIService.request_prompt := AIService.request_prompt request |}.

(** The same request with another [useCase] in its body, or none. *)
Definition with_useCase (useCase : option string)
    (request : NextRequest PreviewGenerationRequest)
  : NextRequest PreviewGenerationRequest :=
  {| headers := headers request;
     json :=
       match json request with
       | inr parsed =>
           inr {| body_image := body_image parsed;
                  body_options := body_options parsed;
                  body_prompt := body_prompt parsed;
                  body_useCase := useCase |}
       | inl t => inl t
       end |}.

(** The options that [addPreviewWatermark] hands to the compositor, and
    those that [addSubtleWatermark] lays over the defaults. *)
Definition preview_watermark_options : WatermarkService.WatermarkOptions :=
  {| WatermarkService.text := "PREVIEW - Portrait Banana";
     WatermarkService.fontSize := 20 # 1;
     WatermarkService.fontFamily := "Arial, sans-serif";
     WatermarkService.position := WatermarkService.bottom_center;
     WatermarkService.opacity := 8 # 10;
     WatermarkService.backgroundColor := Some "rgba(255, 255, 255, 0.9)";
     WatermarkService.color := "rgba(0, 0, 0, 0.8)";
     WatermarkService.padding := 20 # 1;
     WatermarkService.pattern := Some true |}.

Definition subtle_watermark_options : WatermarkService.PartialOptions :=
  {| WatermarkService.partial_text := Some "Portrait Banana";
     WatermarkService.partial_fontSize := Some (16 # 1);
     WatermarkService.partial_position := Some WatermarkService.bottom_right;
     WatermarkService.partial_opacity := Some (5 # 10);
     WatermarkService.partial_backgroundColor := Some "rgba(255, 255, 255, 0.7)";
     WatermarkService.partial_color := Some "rgba(0, 0, 0, 0.6)";
     WatermarkService.partial_pattern := Some false;
     WatermarkService.partial_fontFamily := None;
     WatermarkService.partial_padding := None |}.

(** The keys of the placeholders that the scan of a template replaces,
    in the order in which it meets them. *)
Fixpoint placeholders (pending : option string) (s : string) : list string :=
  match s with
  | EmptyString => []
  | String c r =>
      match pending with
      | None =>
          if Ascii.eqb c "{" then placeholders (Some "") r else placeholders None r
      | Some key =>
          if PromptUtils.is_word c then placeholders (Some (key +:+ String c "")) r
          else if (Ascii.eqb c "}" && negb (String.eqb key ""))%bool then
            key :: placeholders None r
          else if Ascii.eqb c "{" then placeholders (Some "") r
          else placeholders None r
      end
  end.

(** * Properties *)

(** ** The rate limiter *)

Section RateLimiter.

Variable host : Host.
Context {Body : Type}.
Variable request : NextRequest Body.

Lemma maxAttempts_pos : 1 <= maxAttempts host.
Proof. unfold maxAttempts. destruct (NODE_ENV_development host); cbv; congruence. Qed.

Lemma windowMs_pos : 0 < windowMs host.
Proof. unfold windowMs. destruct (NODE_ENV_development host); reflexivity. Qed.

Lemma ceil_div_pos (a : Z) : 0 < a -> 0 < Js.ceil_div a 1000.
Proof.
  intros Ha. unfold Js.ceil_div.
  assert (- a / 1000 < 0); [|lia].
  apply Z.div_lt_upper_bound; lia.
Qed.

Lemma ceil_div_nonneg (a : Z) : 0 <= a -> 0 <= Js.ceil_div a 1000.
Proof.
  intros Ha. unfold Js.ceil_div.
  assert (- a / 1000 <= 0); [|lia].
  apply Z.div_le_upper_bound; lia.
Qed.

Ltac run_check :=
  unfold checkRateLimit, cleanupExpiredEntries, bind, Date_now, get_store,
    set_store, ret; simpl.

(** One check against a live entry below the ceiling. *)
Lemma check_live_entry (w : World) (e : RateLimitEntry) :
  rateLimitStore w !! getClientIP request = Some e ->
  clock host (clockReads w) <= entry_resetTime e ->
  clock host (S (clockReads w)) <= entry_resetTime e ->
  count e < maxAttempts host ->
  exists s,
    checkRateLimit host request w =
      (Returns (fst (admitted host (count e + 1) (entry_resetTime e)
                       (clock host (clockReads w)))),
       admitted_world w s)
    /\ s !! getClientIP request =
         snd (admitted host (count e + 1) (entry_resetTime e)
                (clock host (clockReads w))).
Proof.
  intros Hget Hnow Hsweep Hcount. run_check. rewrite Hget.
  destruct (Z.gtb_spec (clock host (clockReads w)) (entry_resetTime e)); [lia|].
  destruct (Z.geb_spec (count e) (maxAttempts host)); [lia|].
  eexists; split; [reflexivity|].
  apply map_lookup_filter_Some; split.
  - apply lookup_insert_eq.
  - simpl. lia.
Qed.

(** One check of a client without a live entry opens a window. *)
Lemma check_no_live_entry (w : World) :
  no_live_entry host (getClientIP request) w ->
  clock host (S (clockReads w)) <= clock host (clockReads w) + windowMs host ->
  exists s,
    checkRateLimit host request w =
      (Returns (fst (admitted host 1
                       (clock host (clockReads w) + windowMs host)
                       (clock host (clockReads w)))),
       admitted_world w s)
    /\ s !! getClientIP request =
         snd (admitted host 1 (clock host (clockReads w) + windowMs host)
                (clock host (clockReads w))).
Proof.
  intros Hfresh Hsweep. pose proof maxAttempts_pos as HN.
  unfold no_live_entry in Hfresh. run_check.
  destruct (rateLimitStore w !! getClientIP request) as [e|] eqn:Hget.
  - destruct (Z.gtb_spec (clock host (clockReads w)) (entry_resetTime e)); [|lia].
    simpl. destruct (Z.geb_spec 0 (maxAttempts host)); [lia|].
    eexists; split; [reflexivity|].
    apply map_lookup_filter_Some; split; [apply lookup_insert_eq | simpl; lia].
  - simpl. destruct (Z.geb_spec 0 (maxAttempts host)); [lia|].
    eexists; split; [reflexivity|].
    apply map_lookup_filter_Some; split; [apply lookup_insert_eq | simpl; lia].
Qed.

(** One check against a live entry at the ceiling is denied and leaves
    the store as it is. *)
Lemma check_at_ceiling (w : World) (e : RateLimitEntry) :
  rateLimitStore w !! getClientIP request = Some e ->
  clock host (clockReads w) <= entry_resetTime e ->
  maxAttempts host <= count e ->
  checkRateLimit host request w =
    (Returns {| allowed := false;
                remaining := 0;
                resetTime := entry_resetTime e;
                retryAfter :=
                  Some (Js.ceil_div
                          (entry_resetTime e - clock host (clockReads w)) 1000) |},
     tick w).
Proof.
  intros Hget Hnow Hcount. run_check. rewrite Hget.
  destruct (Z.gtb_spec (clock host (clockReads w)) (entry_resetTime e)); [lia|].
  destruct (Z.geb_spec (count e) (maxAttempts host)); [|lia].
  reflexivity.
Qed.

Lemma admitted_ext (k k' r r' now now' : Z) :
  k = k' -> r = r' -> now = now' ->
  admitted host k r now = admitted host k' r' now'.
Proof. intros -> -> ->. reflexivity. Qed.

Lemma checkRateLimit_returns (w : World) :
  exists r w', checkRateLimit host request w = (Returns r, w').
Proof.
  run_check.
  destruct (_ >=? _); eauto.
Qed.

Lemma admissions_app (a b : nat) (w : World) :
  admissions host request (a + b) w =
    let '(l1, w1) := admissions host request a w in
    let '(l2, w2) := admissions host request b w1 in
    ((l1 ++ l2)%list, w2).
Proof.
  revert w. induction a as [|a IH]; intros w; simpl.
  - destruct (admissions host request b w); reflexivity.
  - destruct (checkRateLimit_returns w) as (r & w' & ->).
    rewrite IH.
    destruct (admissions host request a w') as [l1 w1].
    destruct (admissions host request b w1) as [l2 w2]. reflexivity.
Qed.

(** [m] checks in a row against a live entry that has room for them. *)
Lemma admissions_live (m : nat) :
  forall (w : World) (e : RateLimitEntry),
    rateLimitStore w !! getClientIP request = Some e ->
    count e + Z.of_nat m <= maxAttempts host ->
    (forall i, (i < 2 * m)%nat ->
               clock host (clockReads w + i) <= entry_resetTime e) ->
    exists w' e',
      admissions host request m w =
        (map (fun j => admitted host (count e + 1 + Z.of_nat j) (entry_resetTime e)
                         (clock host (clockReads w + 2 * j)))
             (seq 0 m), w')
      /\ clockReads w' = (clockReads w + 2 * m)%nat
      /\ rateLimitStore w' !! getClientIP request = Some e'
      /\ count e' = count e + Z.of_nat m
      /\ entry_resetTime e' = entry_resetTime e
      /\ lastRequest e' =
           match m with
           | O => lastRequest e
           | S m' => clock host (clockReads w + 2 * m')
           end.
Proof.
  induction m as [|m IH]; intros w e Hget Hroom Hclock.
  - exists w, e. simpl. repeat split; auto; lia.
  - destruct (check_live_entry w e Hget) as (s & Hcheck & Hs).
    + specialize (Hclock 0%nat). rewrite Nat.add_0_r in Hclock. apply Hclock. lia.
    + specialize (Hclock 1%nat). rewrite Nat.add_1_r in Hclock. apply Hclock. lia.
    + lia.
    + simpl in Hs.
      destruct (IH (admitted_world w s) _ Hs)
        as (w' & e' & Htrace & Hreads & Hget' & Hc & Hr & Hl).
      * simpl. lia.
      * intros i Hi. simpl.
        replace (S (S (clockReads w + i))) with (clockReads w + (2 + i))%nat by lia.
        apply Hclock. lia.
      * exists w', e'. simpl admissions. rewrite Hcheck, Htrace.
        simpl in Hreads, Hc, Hr.
        repeat split; [|lia|assumption|lia|assumption|].
        2:{ rewrite Hl. destruct m as [|m']; simpl; [f_equal; lia|].
            f_equal. lia. }
        f_equal. simpl map. f_equal.
        -- simpl. rewrite Hs. unfold admitted; simpl.
           rewrite Z.add_0_r, Nat.add_0_r. reflexivity.
        -- rewrite <- seq_shift, map_map. apply map_ext. intros j.
           simpl. apply admitted_ext; [lia | reflexivity | f_equal; lia].
Qed.

(** One check that finds room: the entry it works on is stored with
    one more use. *)
Lemma check_admitted (w : World) :
  count (current_entry host (getClientIP request) w) < maxAttempts host ->
  clock host (S (clockReads w))
    <= entry_resetTime (current_entry host (getClientIP request) w) ->
  exists s,
    checkRateLimit host request w =
      (Returns (fst (admitted host
                       (count (current_entry host (getClientIP request) w) + 1)
                       (entry_resetTime (current_entry host (getClientIP request) w))
                       (clock host (clockReads w)))),
       admitted_world w s)
    /\ s !! getClientIP request =
         snd (admitted host
                (count (current_entry host (getClientIP request) w) + 1)
                (entry_resetTime (current_entry host (getClientIP request) w))
                (clock host (clockReads w))).
Proof.
  intros Hroom Hsweep. run_check.
  fold (current_entry host (getClientIP request) w).
  destruct (Z.geb_spec (count (current_entry host (getClientIP request) w))
              (maxAttempts host)); [lia|].
  eexists; split; [reflexivity|].
  apply map_lookup_filter_Some; split; [apply lookup_insert_eq | simpl; lia].
Qed.

(** One check that finds no room is denied and touches nothing but the
    clock. *)
Lemma check_denied (w : World) :
  maxAttempts host <= count (current_entry host (getClientIP request) w) ->
  checkRateLimit host request w =
    (Returns
       {| allowed := false;
          remaining := 0;
          resetTime := entry_resetTime (current_entry host (getClientIP request) w);
          retryAfter :=
            Some (Js.ceil_div
                    (entry_resetTime (current_entry host (getClientIP request) w)
                     - clock host (clockReads w)) 1000) |},
     tick w).
Proof.
  intros Hfull. run_check.
  fold (current_entry host (getClientIP request) w).
  destruct (Z.geb_spec (count (current_entry host (getClientIP request) w))
              (maxAttempts host)); [reflexivity | lia].
Qed.

End RateLimiter.

(** C3, amended.  A client without a live entry makes [N + 2]
    admission checks, where [N] is the ceiling in force: the first
    [N + 1] inside the window that the first one opens (every clock
    reading no later than its reset time), the last one after the reset
    time.  The first [N] are allowed, with [remaining] going from
    [N - 1] down to [0] and the stored count going from [1] up to [N];
    check [N + 1] is denied, leaves the entry at count [N], and
    announces the time to the reset in seconds, rounded up, which is
    positive when the check comes before the reset time and 0 when it
    comes at it; the last check replaces the entry by one of count [1]
    in a new window and returns [remaining = N - 1].  Whenever a check
    is allowed, the count it stores is at most [N]. *)
Theorem rate_limit_window
    (host : Host) {Body : Type} (request : NextRequest Body) (w : World) :
  let N := Z.to_nat (maxAttempts host) in
  let c := clockReads w in
  let t0 := clock host c in
  let t1 := clock host (c + 2 * N + 1) in
  no_live_entry host (getClientIP request) w ->
  (forall i, (i <= 2 * N)%nat -> clock host (c + i) <= t0 + windowMs host) ->
  t0 + windowMs host < t1 ->
  clock host (c + 2 * N + 2) <= t1 + windowMs host ->
  (exists w' : World,
      admissions host request (N + 2) w = (window_trace host c, w'))
  /\ Forall (within_ceiling host) (window_trace host c)
  /\ 0 <= retry_seconds host c
  /\ (clock host (c + 2 * N) < t0 + windowMs host -> 0 < retry_seconds host c)
  /\ (clock host (c + 2 * N) = t0 + windowMs host -> retry_seconds host c = 0).
Proof.
  intros N c t0 t1 Hfresh Hwin Hafter Hsweep.
  pose proof (maxAttempts_pos host) as HN.
  assert (HNz : Z.of_nat N = maxAttempts host) by (subst N; lia).
  assert (HNn : (1 <= N)%nat) by lia.
  (* the first check opens the window *)
  destruct (check_no_live_entry host request w Hfresh) as (s1 & Hcheck1 & Hs1).
  { specialize (Hwin 1%nat). rewrite Nat.add_1_r in Hwin.
    subst c t0. specialize (Hwin ltac:(lia)). lia. }
  fold c t0 in Hcheck1, Hs1. cbn [admitted snd] in Hs1.
  (* the next N - 1 checks fill it *)
  destruct (admissions_live host request (N - 1) (admitted_world w s1) _ Hs1)
    as (w2 & e2 & Htrace & Hreads & Hget2 & Hcount2 & Hreset2 & Hlast2).
  { cbn [count]. lia. }
  { intros i Hi. cbn [entry_resetTime clockReads admitted_world]. fold c.
    replace (S (S c) + i)%nat with (c + (2 + i))%nat by lia.
    specialize (Hwin (2 + i)%nat ltac:(lia)). lia. }
  cbn [count entry_resetTime lastRequest clockReads admitted_world]
    in Htrace, Hreads, Hcount2, Hreset2, Hlast2.
  fold c in Htrace, Hreads, Hlast2.
  assert (Hlast : lastRequest e2 = clock host (c + 2 * (N - 1))).
  { rewrite Hlast2. destruct (N - 1)%nat as [|n'] eqn:En.
    - subst t0. f_equal. lia.
    - f_equal. lia. }
  clear Hlast2.
  assert (Hreads2 : clockReads w2 = (c + 2 * N)%nat) by lia.
  clear Hreads.
  (* check N + 1 finds the entry at the ceiling *)
  assert (Hnow2 : clock host (clockReads w2) <= t0 + windowMs host).
  { rewrite Hreads2. apply Hwin. lia. }
  pose proof (check_at_ceiling host request w2 e2 Hget2 ltac:(lia) ltac:(lia))
    as Hdenied.
  rewrite Hreads2 in Hnow2, Hdenied.
  (* the last check comes after the reset time *)
  assert (Hreads3 : clockReads (tick w2) = (c + 2 * N + 1)%nat).
  { cbn [clockReads tick]. lia. }
  destruct (check_no_live_entry host request (tick w2))
    as (s4 & Hcheck4 & Hs4).
  { unfold no_live_entry. rewrite Hreads3.
    cbn [rateLimitStore tick]. rewrite Hget2, Hreset2. fold t1. lia. }
  { rewrite Hreads3. replace (S (c + 2 * N + 1)) with (c + 2 * N + 2)%nat by lia.
    fold t1. lia. }
  rewrite Hreads3 in Hcheck4, Hs4. fold t1 in Hcheck4, Hs4.
  unfold window_trace, retry_seconds. fold N t0 t1.
  split; [|split; [|split; [|split]]].
  - eexists.
    replace (N + 2)%nat with (1 + ((N - 1) + 2))%nat by lia.
    rewrite admissions_app. simpl (admissions host request 1 w).
    rewrite Hcheck1. cbn iota beta.
    rewrite admissions_app, Htrace. simpl (admissions host request 2 w2).
    rewrite Hdenied, Hcheck4. cbn iota beta.
    assert (Hseq : seq 0 N = 0%nat :: map S (seq 0 (N - 1))).
    { destruct N as [|n]; [lia|]. simpl. rewrite seq_shift, Nat.sub_0_r. reflexivity. }
    rewrite Hseq. cbn [map app]. rewrite map_map.
    cbn [rateLimitStore admitted_world tick].
    rewrite Hs1, Hs4, Hget2, Hreset2.
    destruct e2 as [count2 reset2 last2].
    cbn [count entry_resetTime lastRequest] in Hcount2, Hreset2, Hlast.
    subst count2 reset2 last2.
    f_equal. f_equal.
    + unfold admitted. cbn [fst]. rewrite Nat.mul_0_r, Nat.add_0_r. reflexivity.
    + f_equal.
      * apply map_ext. intros j. apply admitted_ext; [lia | reflexivity | f_equal; lia].
      * replace (1 + Z.of_nat (N - 1)) with (maxAttempts host) by lia.
        reflexivity.
  - apply Forall_app; split.
    + apply Forall_forall. intros [r stored] Hin _.
      apply list_elem_of_In, in_map_iff in Hin.
      destruct Hin as (k & Hk & Hin). apply in_seq in Hin.
      unfold admitted in Hk. inversion Hk; subst r stored.
      eexists; split; [reflexivity|]. cbn [count]. lia.
    + repeat constructor.
      * unfold within_ceiling. cbn [fst allowed]. discriminate.
      * intros _. eexists; split; [reflexivity|]. cbn [count]. lia.
  - apply ceil_div_nonneg. lia.
  - intros Hbefore. apply ceil_div_pos. lia.
  - intros Hat. rewrite Hat, Z.sub_diag. reflexivity.
Qed.

(** C3 as stated fails at the reset time itself.  On a production
    server (ceiling 3) a new client's first check, at time 0, opens a
    window that ends at 86400000; three checks are allowed; the fourth
    comes at 86400000 exactly.  The window has not passed, so the entry
    is kept and the check is denied: with [retryAfter = 0], not a
    positive number. *)
Lemma denied_at_the_reset_time_retries_after_zero :
  let host := Demo.idle_server (Demo.ticking_then_at 6 86400000) in
  let results :=
    map fst (fst (admissions host Demo.incomplete_request 4 Demo.new_world)) in
  results =
    [ {| allowed := true; remaining := 2; resetTime := 86400000; retryAfter := None |};
      {| allowed := true; remaining := 1; resetTime := 86400000; retryAfter := None |};
      {| allowed := true; remaining := 0; resetTime := 86400000; retryAfter := None |};
      {| allowed := false; remaining := 0; resetTime := 86400000;
         retryAfter := Some 0 |} ]
  /\ clock host 6 = 86400000
  /\ ~ (exists r seconds,
          results !! 3%nat = Some r /\ retryAfter r = Some seconds /\ 0 < seconds).
Proof.
  cbv zeta.
  assert (Hresults :
    map fst (fst (admissions (Demo.idle_server (Demo.ticking_then_at 6 86400000))
                    Demo.incomplete_request 4 Demo.new_world)) =
    [ {| allowed := true; remaining := 2; resetTime := 86400000; retryAfter := None |};
      {| allowed := true; remaining := 1; resetTime := 86400000; retryAfter := None |};
      {| allowed := true; remaining := 0; resetTime := 86400000; retryAfter := None |};
      {| allowed := false; remaining := 0; resetTime := 86400000;
         retryAfter := Some 0 |} ]) by (vm_compute; reflexivity).
  rewrite Hresults. split; [reflexivity|]. split; [reflexivity|].
  intros (r & seconds & Hr & Hseconds & Hpos).
  cbn in Hr. injection Hr as <-. cbn in Hseconds. injection Hseconds as <-. lia.
Qed.

(** ** The response processor *)

Lemma qualityScore_additive (metadata : AIResponseHandler.BareMetadata) :
  AIResponseHandler.qualityScore metadata =
    dimension_points_of (AIResponseHandler.bare_dimensions metadata)
    + QualitySpec.time_points (AIResponseHandler.bare_generationTime metadata)
    + QualitySpec.size_points (AIResponseHandler.bare_size metadata).
Proof.
  unfold AIResponseHandler.qualityScore, dimension_points_of,
    QualitySpec.dimension_points, QualitySpec.time_points, QualitySpec.size_points.
  destruct (AIResponseHandler.bare_dimensions metadata) as [d|];
    destruct (AIResponseHandler.bare_size metadata);
    repeat match goal with
           | |- context [?a >=? ?b] => destruct (Z.geb_spec a b)
           | |- context [?a <=? ?b] => destruct (Z.leb_spec a b)
           | |- context [?a <? ?b] => destruct (Z.ltb_spec a b)
           end; lia.
Qed.

Lemma assessQuality_tier (metadata : AIResponseHandler.BareMetadata)
    (options : AIResponseHandler.ValidationOptions) :
  AIResponseHandler.assessQuality metadata options =
    QualitySpec.tier (AIResponseHandler.qualityScore metadata).
Proof.
  unfold AIResponseHandler.assessQuality, QualitySpec.tier.
  repeat match goal with
         | |- context [?a >=? ?b] => destruct (Z.geb_spec a b)
         | |- context [?a <=? ?b] => destruct (Z.leb_spec a b)
         end; try reflexivity; lia.
Qed.

(** What a successful [processResponse] returns: the upstream payload,
    the metrics and the dimensions that validation found, with the tier
    that [assessQuality] gives them. *)
Lemma processResponse_success (host : Host)
    (response : AIService.GenerationResponse) (metrics : AIGenerationMetrics)
    (validationOptions : AIResponseHandler.ValidationOptions)
    (w w' : World) (result : AIResponseHandler.ProcessedResponse) :
  processResponse host response metrics validationOptions w = (Returns result, w') ->
  AIResponseHandler.success result = true ->
  exists validation md,
    validation =
      validateImageData host (Js.or_str (AIService.imageData response) "")
        (AIResponseHandler.merge_options
           AIResponseHandler.DEFAULT_VALIDATION validationOptions)
    /\ AIResponseHandler.isValid validation = true
    /\ AIResponseHandler.metadata result = Some md
    /\ AIResponseHandler.dimensions md = AIResponseHandler.found_dimensions validation
    /\ AIResponseHandler.generationTime md = metrics_duration metrics
    /\ AIResponseHandler.size md = metrics_size metrics
    /\ AIResponseHandler.quality md =
         AIResponseHandler.assessQuality (bare_of md)
           (AIResponseHandler.merge_options
              AIResponseHandler.DEFAULT_VALIDATION validationOptions)
    /\ AIResponseHandler.warnings result =
         (if Nat.ltb 0 (length (AIResponseHandler.warnings_found validation))
          then Some (AIResponseHandler.warnings_found validation) else None).
Proof.
  unfold processResponse, try_catch, bind, Date_now, ret, failed_response.
  destruct (negb (AIService.success response)
            || negb (Js.truthy_str (AIService.imageData response)))%bool.
  { intros [= <- _]. discriminate. }
  destruct (AIResponseHandler.isValid (validateImageData host _ _)) eqn:Hvalid;
    cbn [negb].
  2:{ intros [= <- _]. discriminate. }
  intros [= <- _] _.
  eexists; eexists; split; [reflexivity|].
  split; [exact Hvalid|].
  cbn. repeat split; reflexivity.
Qed.

(** C4.  The quality tier is the tier of a sum of three terms: the
    points for the shorter side (3 from 2048px, 2 from 1024px, 1 from
    512px, else 0, and 0 when the dimensions are unknown), the points
    for the duration (2 below 5000ms, 1 below 15000ms) and the points
    for the size class (2 for full, 1 for preview); 6 and more is high,
    3 and more medium, less low.  This holds of [assessQuality] on any
    metadata and of the tier in the metadata of every successful
    [processResponse].  A shorter side of 2048 at 3000ms for full
    scores 7, high; a shorter side of 300 at 20000ms for preview scores
    1, low. *)
Theorem quality_tier_additive :
  (forall (metadata : AIResponseHandler.BareMetadata)
          (options : AIResponseHandler.ValidationOptions),
      AIResponseHandler.assessQuality metadata options =
        QualitySpec.tier
          (dimension_points_of (AIResponseHandler.bare_dimensions metadata)
           + QualitySpec.time_points (AIResponseHandler.bare_generationTime metadata)
           + QualitySpec.size_points (AIResponseHandler.bare_size metadata)))
  /\ (forall (host : Host) (response : AIService.GenerationResponse)
             (metrics : AIGenerationMetrics)
             (validationOptions : AIResponseHandler.ValidationOptions)
             (w w' : World) (result : AIResponseHandler.ProcessedResponse)
             (md : AIResponseHandler.ResponseMetadata),
         processResponse host response metrics validationOptions w
           = (Returns result, w') ->
         AIResponseHandler.metadata result = Some md ->
         AIResponseHandler.quality md =
           QualitySpec.tier
             (dimension_points_of (AIResponseHandler.dimensions md)
              + QualitySpec.time_points (metrics_duration metrics)
              + QualitySpec.size_points (metrics_size metrics)))
  /\ (forall (metadata : AIResponseHandler.BareMetadata) (d : Dimensions),
         AIResponseHandler.bare_dimensions metadata = Some d ->
         Z.min (width d) (height d) = 2048 ->
         AIResponseHandler.bare_generationTime metadata = 3000 ->
         AIResponseHandler.bare_size metadata = full ->
         AIResponseHandler.qualityScore metadata = 7
         /\ forall options, AIResponseHandler.assessQuality metadata options = high)
  /\ (forall (metadata : AIResponseHandler.BareMetadata) (d : Dimensions),
         AIResponseHandler.bare_dimensions metadata = Some d ->
         Z.min (width d) (height d) = 300 ->
         AIResponseHandler.bare_generationTime metadata = 20000 ->
         AIResponseHandler.bare_size metadata = preview ->
         AIResponseHandler.qualityScore metadata = 1
         /\ forall options, AIResponseHandler.assessQuality metadata options = low).
Proof.
  split; [|split; [|split]].
  - intros metadata options.
    rewrite assessQuality_tier, qualityScore_additive. reflexivity.
  - intros host response metrics validationOptions w w' result md Hrun Hmd.
    destruct (AIResponseHandler.success result) eqn:Hok.
    + destruct (processResponse_success _ _ _ _ _ _ _ Hrun Hok)
        as (validation & md' & _ & _ & Hmd' & _ & Htime & Hsize & Hq & _).
      rewrite Hmd in Hmd'. injection Hmd' as <-.
      rewrite Hq, assessQuality_tier, qualityScore_additive.
      cbn [bare_of AIResponseHandler.bare_dimensions
             AIResponseHandler.bare_generationTime AIResponseHandler.bare_size].
      rewrite Htime, Hsize. reflexivity.
    + exfalso. revert Hrun.
      unfold processResponse, try_catch, bind, Date_now, ret, failed_response.
      destruct (negb (AIService.success response)
                || negb (Js.truthy_str (AIService.imageData response)))%bool.
      { intros [= <- _]. discriminate. }
      destruct (AIResponseHandler.isValid (validateImageData host _ _));
        cbn [negb]; intros [= <- _]; discriminate.
  - intros metadata d Hd Hmin Htime Hsize.
    assert (Hscore : AIResponseHandler.qualityScore metadata = 7).
    { rewrite qualityScore_additive, Hd, Htime, Hsize.
      cbn [dimension_points_of]. rewrite Hmin. reflexivity. }
    split; [exact Hscore|].
    intros options. rewrite assessQuality_tier, Hscore. reflexivity.
  - intros metadata d Hd Hmin Htime Hsize.
    assert (Hscore : AIResponseHandler.qualityScore metadata = 1).
    { rewrite qualityScore_additive, Hd, Htime, Hsize.
      cbn [dimension_points_of]. rewrite Hmin. reflexivity. }
    split; [exact Hscore|].
    intros options. rewrite assessQuality_tier, Hscore. reflexivity.
Qed.

(** On a server the dimension lookup answers [null], so a validation
    that reaches the blob checks records no dimensions and leaves the
    warning that says so. *)
Lemma validateImageData_server (host : Host) (imageData : string)
    (options : AIResponseHandler.ValidationOptions) :
  window_defined host = false ->
  AIResponseHandler.isValid (validateImageData host imageData options) = true ->
  AIResponseHandler.found_dimensions (validateImageData host imageData options) = None
  /\ In "Could not determine image dimensions"
        (AIResponseHandler.warnings_found (validateImageData host imageData options)).
Proof.
  intros Hserver. unfold validateImageData, getImageDimensions. rewrite Hserver.
  destruct (isValidBase64 host imageData); cbn [negb]; [|discriminate].
  destruct (base64ToBlob host imageData) as [t|blob]; [discriminate|].
  intros _. unfold AIResponseHandler.check_blob.
  cbn [AIResponseHandler.found_dimensions AIResponseHandler.warnings_found].
  split; [reflexivity|]. apply in_or_app. right. left. reflexivity.
Qed.

(** C9.  On a server (no [window]) [getImageDimensions] answers
    [null] for every blob, and every successful [processResponse]
    has metadata without dimensions, carries the warning that the
    dimensions could not be determined, and has a quality score whose
    dimension term is 0: the score is the duration points plus the size
    points.  For the preview class that is at most 2 + 1 = 3, so the
    tier is never high. *)
Theorem server_side_quality_has_no_dimension_term
    (host : Host) (response : AIService.GenerationResponse)
    (metrics : AIGenerationMetrics)
    (validationOptions : AIResponseHandler.ValidationOptions)
    (w w' : World) (result : AIResponseHandler.ProcessedResponse) :
  window_defined host = false ->
  processResponse host response metrics validationOptions w = (Returns result, w') ->
  AIResponseHandler.success result = true ->
  (forall blob, getImageDimensions host blob = None)
  /\
  exists (md : AIResponseHandler.ResponseMetadata) (warnings : list string),
    AIResponseHandler.metadata result = Some md
    /\ AIResponseHandler.dimensions md = None
    /\ AIResponseHandler.warnings result = Some warnings
    /\ In "Could not determine image dimensions" warnings
    /\ AIResponseHandler.qualityScore (bare_of md) =
         0 + QualitySpec.time_points (AIResponseHandler.generationTime md)
           + QualitySpec.size_points (AIResponseHandler.size md)
    /\ AIResponseHandler.quality md =
         QualitySpec.tier (AIResponseHandler.qualityScore (bare_of md))
    /\ (AIResponseHandler.size md = preview ->
        AIResponseHandler.qualityScore (bare_of md) <= 3
        /\ AIResponseHandler.quality md <> high).
Proof.
  intros Hserver Hrun Hok.
  split.
  { intros blob. unfold getImageDimensions. rewrite Hserver. reflexivity. }
  destruct (processResponse_success _ _ _ _ _ _ _ Hrun Hok)
    as (validation & md & -> & Hvalid & Hmd & Hdims & _ & _ & Hq & Hwarn).
  destruct (validateImageData_server _ _ _ Hserver Hvalid) as [Hnone Hin].
  rewrite Hnone in Hdims.
  assert (Hscore :
    AIResponseHandler.qualityScore (bare_of md) =
      0 + QualitySpec.time_points (AIResponseHandler.generationTime md)
        + QualitySpec.size_points (AIResponseHandler.size md)).
  { rewrite qualityScore_additive.
    cbn [bare_of AIResponseHandler.bare_dimensions
           AIResponseHandler.bare_generationTime AIResponseHandler.bare_size].
    rewrite Hdims. reflexivity. }
  rewrite assessQuality_tier in Hq.
  exists md.
  exists (AIResponseHandler.warnings_found
            (validateImageData host (Js.or_str (AIService.imageData response) "")
               (AIResponseHandler.merge_options
                  AIResponseHandler.DEFAULT_VALIDATION validationOptions))).
  split; [exact Hmd|]. split; [exact Hdims|].
  split.
  { rewrite Hwarn.
    destruct (AIResponseHandler.warnings_found _) as [|x xs]; [destruct Hin|].
    reflexivity. }
  split; [exact Hin|]. split; [exact Hscore|]. split; [exact Hq|].
  intros Hpreview.
  assert (Hle : AIResponseHandler.qualityScore (bare_of md) <= 3).
  { rewrite Hscore, Hpreview. unfold QualitySpec.time_points, QualitySpec.size_points.
    repeat match goal with
           | |- context [?a <? ?b] => destruct (Z.ltb_spec a b)
           end; lia. }
  split; [exact Hle|].
  rewrite Hq. unfold QualitySpec.tier.
  destruct (Z.leb_spec 6 (AIResponseHandler.qualityScore (bare_of md))); [lia|].
  destruct (3 <=? _); discriminate.
Qed.

(** ** The watermark compositor *)

(** A successful [addWatermarkServer] is the PNG buffer that [sharp]
    made of the decoded input and the overlay of the options, placed at
    the anchor of the options, in base64 behind the PNG data-URL
    prefix. *)
Lemma addWatermarkServer_composites (host : Host) (imageData : string)
    (options : WatermarkService.WatermarkOptions) :
  WatermarkService.success (addWatermarkServer host imageData options) = true ->
  let buffer := Buffer_from_base64 host (WatermarkService.strip_data_url imageData) in
  exists (metadata_width metadata_height : option Z) (png : bytes),
    sharp_metadata host buffer = inr (metadata_width, metadata_height)
    /\ (let width := default 512 metadata_width in
        let height := default 512 metadata_height in
        let pos :=
          WatermarkService.calculateServerPosition width
            (WatermarkService.position options) (WatermarkService.fontSize options) in
        sharp_composite_png host buffer
          (WatermarkService.createWatermarkSvg options width height)
          (WatermarkService.y pos) (WatermarkService.x pos) = inr png)
    /\ addWatermarkServer host imageData options =
         {| WatermarkService.success := true;
            WatermarkService.imageData :=
              Some ("data:image/png;base64," +:+ Buffer_to_base64 host png);
            WatermarkService.error := None |}.
Proof.
  unfold addWatermarkServer.
  destruct (sharp_metadata host _) as [t|[mw mh]]; [discriminate|].
  destruct (sharp_composite_png host _ _ _ _) as [t|png] eqn:Hpng; [discriminate|].
  intros _. exists mw, mh, png. split; [reflexivity|]. split; [exact Hpng | reflexivity].
Qed.

(** C10.  Whenever [addWatermark], [addPreviewWatermark] or
    [addSubtleWatermark] succeeds, the image it returns is the data URL
    [data:image/png;base64,] followed by the base64 of the composited
    image: the buffer that the [sharp] pipeline, which ends in [.png()],
    produced from the decoded input and the overlay that
    [createWatermarkSvg] builds from the options in use for the size
    that [sharp] reports (512 where it reports none), placed with its
    top and left at the point that [calculateServerPosition] gives for
    the width.  The options in use are the given ones over the defaults
    for [addWatermark], the preview options for [addPreviewWatermark]
    and the subtle ones over the defaults for [addSubtleWatermark].  The
    format of the input plays no part. *)
Theorem watermark_output_is_png_data_url
    (host : Host) (imageData : string) (options : WatermarkService.PartialOptions)
    (result : WatermarkService.WatermarkResult)
    (used : WatermarkService.WatermarkOptions) :
  (result = addWatermark host imageData options
   /\ used = WatermarkService.merge_options WatermarkService.DEFAULT_OPTIONS options)
  \/ (result = addPreviewWatermark host imageData
      /\ used = preview_watermark_options)
  \/ (result = addSubtleWatermark host imageData
      /\ used = WatermarkService.merge_options WatermarkService.DEFAULT_OPTIONS
                  subtle_watermark_options) ->
  WatermarkService.success result = true ->
  let buffer := Buffer_from_base64 host (WatermarkService.strip_data_url imageData) in
  exists (metadata_width metadata_height : option Z) (png : bytes),
    sharp_metadata host buffer = inr (metadata_width, metadata_height)
    /\ (let width := default 512 metadata_width in
        let height := default 512 metadata_height in
        let pos :=
          WatermarkService.calculateServerPosition width
            (WatermarkService.position used) (WatermarkService.fontSize used) in
        sharp_composite_png host buffer
          (WatermarkService.createWatermarkSvg used width height)
          (WatermarkService.y pos) (WatermarkService.x pos) = inr png)
    /\ result =
         {| WatermarkService.success := true;
            WatermarkService.imageData :=
              Some ("data:image/png;base64," +:+ Buffer_to_base64 host png);
            WatermarkService.error := None |}.
Proof.
  intros [[-> ->] | [[-> ->] | [-> ->]]] Hok; revert Hok;
    unfold addSubtleWatermark, addPreviewWatermark, addWatermark;
    apply addWatermarkServer_composites.
Qed.

(** ** The preview endpoint *)

(** A 400 is sent before anything but the admission check has touched
    the world: the handler's later answers are 500 and 200. *)
Lemma handle_body_400 (host : Host) (budget : nat) (startTime : Z)
    (rateLimitResult : RateLimitResult) (body : PreviewGenerationRequest)
    (w w' : World) (resp : NextResponse) :
  handle_body host budget startTime rateLimitResult body w = (Returns resp, w') ->
  status resp = 400 ->
  w' = w.
Proof.
  unfold handle_body.
  destruct (body_image body) as [image|]; [|intros [= _ <-]; reflexivity].
  destruct (body_options body) as [options|]; [|intros [= _ <-]; reflexivity].
  destruct (negb (Js.truthy_str (json_base64Data image))
            || negb (Js.truthy_str (json_id image))
            || negb (Js.truthy_str (json_type image)))%bool;
    [intros [= _ <-]; reflexivity|].
  destruct (negb (Js.truthy_str (background options))
            || negb (Js.truthy_str (style options)))%bool;
    [intros [= _ <-]; reflexivity|].
  unfold bind at 1.
  destruct (PromptBuilder.buildPrompt options _) as [t|promptVariations];
    cbn [lift throw ret]; [discriminate|].
  destruct (negb (PromptBuilder.context_isValid _));
    [intros [= _ <-]; reflexivity|].
  unfold bind at 1.
  destruct (aiService_generatePortrait host budget _ w) as [[generationResult|t|] w1];
    [|discriminate|discriminate].
  destruct (negb (AIService.success generationResult)
            || negb (Js.truthy_str (AIService.imageData generationResult)))%bool;
    [intros [= <- _]; discriminate|].
  unfold bind at 1, Date_now at 1. unfold bind at 1.
  destruct (processResponse host generationResult _ _ _)
    as [[processedResponse|t|] w2]; [|discriminate|discriminate].
  destruct (negb (AIResponseHandler.success processedResponse)
            || negb (Js.truthy_str (AIResponseHandler.imageData processedResponse)))%bool;
    intros [= <- _]; discriminate.
Qed.

(** C8.  The handler admits before it parses, and a rejection takes
    nothing back.  Whenever the handler answers 400 (a missing field, or
    a prompt context it refuses), or answers 500 to a body that could
    not be parsed, the admission check had found room, the provider was
    not called, and the only change to the world is the check's: the
    store keeps the client's entry with one more use than the check
    found.  (The entry is the one the check works on at the handler's
    second clock reading; the third reading, the sweep's, is taken to
    fall within its window.) *)
Theorem rejected_request_keeps_its_admission
    (host : Host) (budget : nat) (request : NextRequest PreviewGenerationRequest)
    (w w' : World) (resp : NextResponse) :
  let ip := getClientIP request in
  let entry := current_entry host ip (tick w) in
  POST host budget request w = (Returns resp, w') ->
  status resp = 400 \/ (status resp = 500 /\ exists t, json request = inl t) ->
  clock host (S (S (clockReads w))) <= entry_resetTime entry ->
  count entry < maxAttempts host
  /\ rateLimitStore w' !! ip =
       Some {| count := count entry + 1;
               entry_resetTime := entry_resetTime entry;
               lastRequest := clock host (S (clockReads w)) |}
  /\ providerCalls w' = providerCalls w
  /\ S (S (S (clockReads w))) = clockReads w'.
Proof.
  intros ip entry Hrun Hstatus Hsweep.
  revert Hrun. unfold POST, bind at 1, Date_now at 1, try_catch.
  change {| rateLimitStore := rateLimitStore w;
            clockReads := S (clockReads w);
            providerCalls := providerCalls w;
            retryCount := retryCount w |} with (tick w).
  unfold bind at 1.
  destruct (Z.lt_ge_cases (count entry) (maxAttempts host)) as [Hroom|Hfull].
  2:{ rewrite (check_denied host request (tick w)) by (fold ip entry; lia).
      cbn [allowed negb ret]. intros [= <- _].
      destruct Hstatus as [Hstatus | [Hstatus _]]; discriminate. }
  destruct (check_admitted host request (tick w) Hroom Hsweep) as (s & Hcheck & Hs).
  rewrite Hcheck. cbn [admitted fst snd allowed negb] in Hs |- *.
  unfold bind at 1.
  destruct (json request) as [t|parsed] eqn:Hjson; cbn [lift throw ret].
  { intros [= _ <-]. repeat split; [exact Hroom | exact Hs]. }
  assert (Hbad : status resp = 400).
  { destruct Hstatus as [Hstatus | [_ [t' Ht']]]; [exact Hstatus | discriminate]. }
  destruct (handle_body host budget _ _ parsed _) as [[resp'|t|] w2] eqn:Hbody;
    [| |discriminate].
  2:{ intros [= <- _]. discriminate. }
  intros [= <- <-].
  apply handle_body_400 in Hbody; [|exact Hbad]. subst w2.
  repeat split; [exact Hroom | exact Hs].
Qed.

(** Every 200 of the handler carries the watermark result's image when
    there is one and the processed image otherwise, and says
    [watermarked: true] either way. *)
Lemma handle_body_200 (host : Host) (budget : nat) (startTime : Z)
    (rateLimitResult : RateLimitResult) (parsed : PreviewGenerationRequest)
    (w w' : World) (resp : NextResponse) :
  handle_body host budget startTime rateLimitResult parsed w = (Returns resp, w') ->
  status resp = 200 ->
  exists processedImage : string,
    imageData (body resp) =
      Some (Js.or_str
              (WatermarkService.imageData (addPreviewWatermark host processedImage))
              processedImage)
    /\ (watermarked <$> metadata (body resp)) = Some true.
Proof.
  unfold handle_body.
  destruct (body_image parsed) as [image|]; [|intros [= <- _]; discriminate].
  destruct (body_options parsed) as [options|]; [|intros [= <- _]; discriminate].
  destruct (negb (Js.truthy_str (json_base64Data image))
            || negb (Js.truthy_str (json_id image))
            || negb (Js.truthy_str (json_type image)))%bool;
    [intros [= <- _]; discriminate|].
  destruct (negb (Js.truthy_str (background options))
            || negb (Js.truthy_str (style options)))%bool;
    [intros [= <- _]; discriminate|].
  unfold bind at 1.
  destruct (PromptBuilder.buildPrompt options _) as [t|promptVariations];
    cbn [lift throw ret]; [discriminate|].
  destruct (negb (PromptBuilder.context_isValid _));
    [intros [= <- _]; discriminate|].
  unfold bind at 1.
  destruct (aiService_generatePortrait host budget _ w) as [[generationResult|t|] w1];
    [|discriminate|discriminate].
  destruct (negb (AIService.success generationResult)
            || negb (Js.truthy_str (AIService.imageData generationResult)))%bool;
    [intros [= <- _]; discriminate|].
  unfold bind at 1, Date_now at 1. unfold bind at 1.
  destruct (processResponse host generationResult _ _ _)
    as [[processedResponse|t|] w2]; [|discriminate|discriminate].
  destruct (negb (AIResponseHandler.success processedResponse)
            || negb (Js.truthy_str (AIResponseHandler.imageData processedResponse)))%bool;
    intros [= <- _]; [discriminate|].
  intros _. eexists. split; reflexivity.
Qed.

(** C1.  A preview whose watermark step fails is still delivered.
    Every 200 of the handler carries the image of the watermark result
    when there is one and the processed, unmarked image otherwise, with
    [watermarked: true] in the metadata either way.  The second case
    occurs: the provider returns twelve bytes that are no image; the
    response processor accepts them (on a server it cannot look
    inside), [sharp] rejects them, [addPreviewWatermark] reports the
    failure, and the handler answers 200 with the unmarked payload as
    [imageData]. *)
Theorem watermark_failure_delivers_unmarked_preview :
  (forall (host : Host) (budget : nat)
          (request : NextRequest PreviewGenerationRequest)
          (w w' : World) (resp : NextResponse),
      POST host budget request w = (Returns resp, w') ->
      status resp = 200 ->
      exists processedImage : string,
        imageData (body resp) =
          Some (Js.or_str
                  (WatermarkService.imageData
                     (addPreviewWatermark host processedImage))
                  processedImage)
        /\ (watermarked <$> metadata (body resp)) = Some true)
  /\ (let host :=
        Demo.server (Demo.ticking 0) (Demo.returns_image Demo.not_an_image) in
      let request := Demo.preview_request 512 512 Demo.png_512x512 in
      addPreviewWatermark host Demo.not_an_image =
        {| WatermarkService.success := false;
           WatermarkService.imageData := None;
           WatermarkService.error :=
             Some "Input buffer contains unsupported image format" |}
      /\ exists resp w',
           POST host 1 request Demo.new_world = (Returns resp, w')
           /\ status resp = 200
           /\ success (body resp) = true
           /\ imageData (body resp) = Some Demo.not_an_image
           /\ (watermarked <$> metadata (body resp)) = Some true).
Proof.
  split.
  - intros host budget request w w' resp.
    unfold POST, bind at 1, Date_now at 1, try_catch. unfold bind at 1.
    destruct (checkRateLimit host request _) as [[rateLimitResult|t|] w1];
      [|intros [= <- _]; discriminate|discriminate].
    destruct (negb (allowed rateLimitResult)); [intros [= <- _]; discriminate|].
    unfold bind at 1.
    destruct (json request) as [t|parsed]; cbn [lift throw ret];
      [intros [= <- _]; discriminate|].
    destruct (handle_body host budget _ _ parsed w1) as [[resp'|t|] w2] eqn:Hbody;
      [|intros [= <- _]; discriminate|discriminate].
    intros [= <- _] Hstatus.
    exact (handle_body_200 _ _ _ _ _ _ _ _ Hbody Hstatus).
  - cbv zeta. split; [vm_compute; reflexivity|].
    eexists; eexists. split; [vm_compute; reflexivity|].
    repeat split.
Qed.

Lemma bind_ext {A B} (m : M A) (k1 k2 : A -> M B) (w : World) :
  (forall a w', k1 a w' = k2 a w') -> bind m k1 w = bind m k2 w.
Proof.
  intros Hk. unfold bind. destruct (m w) as [[a|t|] w']; auto.
Qed.

Lemma bind_cong {A B} (m1 m2 : M A) (k : A -> M B) (w : World) :
  m1 w = m2 w -> bind m1 k w = bind m2 k w.
Proof.
  intros Hm. unfold bind. rewrite Hm. reflexivity.
Qed.

Lemma try_catch_ext {A} (body : M A) (h1 h2 : Js.Thrown -> M A) (w : World) :
  (forall t w', h1 t w' = h2 t w') -> try_catch body h1 w = try_catch body h2 w.
Proof.
  intros Hh. unfold try_catch. destruct (body w) as [[a|t|] w']; auto.
Qed.

(** The generation client reads the payload of the image and nothing
    else of it. *)
Lemma generatePortrait_ignores_size (host : Host)
    (config : AIService.AIServiceConfig) (d : Dimensions) (size : Z)
    (request : AIService.GenerationRequest) (budget : nat) :
  forall w,
    generatePortrait host config budget (resized_generation d size request) w =
    generatePortrait host config budget request w.
Proof.
  induction budget as [|budget IH]; intros w; [reflexivity|].
  cbn [generatePortrait].
  apply bind_ext. intros startTime w1.
  apply try_catch_ext. intros error w2.
  apply bind_ext. intros retries w3.
  destruct (retries <? AIService.maxRetries config); [|reflexivity].
  apply bind_ext. intros _ w4. apply IH.
Qed.

(** The handler reads neither the dimensions nor the byte size of the
    upload. *)
Lemma handle_body_ignores_size (host : Host) (budget : nat) (startTime : Z)
    (rateLimitResult : RateLimitResult) (body : PreviewGenerationRequest)
    (d : Dimensions) (size : Z) (w : World) :
  handle_body host budget startTime rateLimitResult
    {| body_image := resized_image d size <$> body_image body;
       body_options := body_options body;
       body_prompt := body_prompt body;
       body_useCase := body_useCase body |} w
  = handle_body host budget startTime rateLimitResult body w.
Proof.
  unfold handle_body.
  cbn [body_image body_options body_prompt].
  destruct (body_image body) as [image|]; [|reflexivity].
  cbn [fmap option_fmap option_map].
  destruct (body_options body) as [options|]; [|reflexivity].
  cbn [resized_image json_base64Data json_id json_type json_preview
         json_size json_dimensions json_uploadedAt].
  destruct (negb (Js.truthy_str (json_base64Data image))
            || negb (Js.truthy_str (json_id image))
            || negb (Js.truthy_str (json_type image)))%bool; [reflexivity|].
  destruct (negb (Js.truthy_str (background options))
            || negb (Js.truthy_str (style options)))%bool; [reflexivity|].
  apply bind_ext. intros promptVariations w1.
  destruct (negb (PromptBuilder.context_isValid _)); [reflexivity|].
  apply bind_cong. unfold aiService_generatePortrait.
  exact (generatePortrait_ignores_size host (getAIConfig host) d size
                {| AIService.request_image :=
                     {| image_id := Js.or_str (json_id image) "";
                        image_file := [];
                        image_preview := json_preview image;
                        image_size := json_size image;
                        image_type := Js.or_str (json_type image) "";
                        image_dimensions := json_dimensions image;
                        image_uploadedAt := json_uploadedAt image;
                        image_base64Data := json_base64Data image |};
                   AIService.request_options := options;
                   AIService.request_size := preview;
                   AIService.request_prompt :=
                     Some (Js.or_str (body_prompt body)
                             (PromptBuilder.detailed promptVariations)) |}
                budget w1).
Qed.

Lemma POST_ignores_size (host : Host) (budget : nat)
    (request : NextRequest PreviewGenerationRequest) (d : Dimensions) (size : Z)
    (w : World) :
  POST host budget (resized d size request) w = POST host budget request w.
Proof.
  unfold POST.
  apply bind_ext. intros startTime w1.
  unfold try_catch.
  assert (Hbody :
    (rateLimitResult <- checkRateLimit host (resized d size request) ;;
     if negb (allowed rateLimitResult)
     then ret (rate_limited_response rateLimitResult)
     else body <- lift (json (resized d size request)) ;;
          handle_body host budget startTime rateLimitResult body) w1
    = (rateLimitResult <- checkRateLimit host request ;;
       if negb (allowed rateLimitResult)
       then ret (rate_limited_response rateLimitResult)
       else body <- lift (json request) ;;
            handle_body host budget startTime rateLimitResult body) w1);
    [|rewrite Hbody; reflexivity].
  change (checkRateLimit host (resized d size request))
    with (checkRateLimit host request).
  apply bind_ext. intros rateLimitResult w2.
  destruct (negb (allowed rateLimitResult)); [reflexivity|].
  cbn [resized json]. unfold bind.
  destruct (json request) as [t|body]; [reflexivity|].
  cbn [lift ret]. apply handle_body_ignores_size.
Qed.

(** C2.  An upload of 256 by 256 pixels is not turned away.  The
    handler's answer is the same whatever dimensions and byte size the
    upload declares; the image validator calls the upload invalid, with
    the width and the height errors, but the handler never asks it: the
    provider is called once and the answer is 200. *)
Theorem undersized_image_reaches_the_provider :
  (forall (host : Host) (budget : nat)
          (request : NextRequest PreviewGenerationRequest)
          (d : Dimensions) (size : Z) (w : World),
      POST host budget (resized d size request) w = POST host budget request w)
  /\ (let host := Demo.server (Demo.ticking 0) (Demo.returns_image Demo.png_512x512) in
      let request := Demo.preview_request 256 256 Demo.png_256x256 in
      ImageUtils.validateImageForAI (Demo.uploaded 256 256 Demo.png_256x256) =
        {| isValid := false;
           errors := [ "Image width must be at least 512px";
                       "Image height must be at least 512px" ];
           warnings :=
             [ "Image resolution may be insufficient for full-size generation" ] |}
      /\ exists resp w',
           POST host 1 request Demo.new_world = (Returns resp, w')
           /\ status resp = 200
           /\ providerCalls w' = 1%nat).
Proof.
  split; [exact POST_ignores_size|].
  split; [vm_compute; reflexivity|].
  eexists; eexists. split; [vm_compute; reflexivity|].
  split; reflexivity.
Qed.

(** C6.  A provider failure reaches the caller in the provider's own
    words.  Whatever message the provider throws, with the retry
    ceiling at 0 the handler answers 500 with the text of the exception
    that the generation client raised, which ends in that message; a
    body that cannot be parsed is answered with the parser's message
    behind a prefix.  For [quota exceeded] the error is classified
    retryable, and the message that [getUserFriendlyMessage] has for it
    is not the one sent. *)
Theorem provider_error_text_reaches_the_caller :
  (forall (message : string),
      let host := Demo.server (Demo.ticking 0) (Demo.fails_with message) in
      let request := Demo.preview_request 512 512 Demo.png_512x512 in
      AIService.maxRetries (getAIConfig host) = 0
      /\ callGeminiAPI host "prompt" Demo.png_512x512 "model" Demo.new_world =
           (Throws (Js.JsError ("Failed to generate image: " +:+ message)),
            tick_provider Demo.new_world)
      /\ exists w',
           POST host 1 request Demo.new_world =
             (Returns (error_response 500 ("Failed to generate image: " +:+ message)),
              w')
           /\ providerCalls w' = 1%nat)
  /\ (forall (message : string),
         exists w',
           POST (Demo.idle_server (Demo.ticking 0)) 1
             {| headers := {[ "x-forwarded-for" := "203.0.113.7" ]};
                json := inl (Js.JsError message) |}
             Demo.new_world =
             (Returns (error_response 500 ("Preview generation failed: " +:+ message)),
              w'))
  /\ ErrorUtils.parseAIError (Some "Failed to generate image: quota exceeded") =
       {| ErrorUtils.code := "QUOTA_EXCEEDED";
          ErrorUtils.message := "API quota exceeded";
          ErrorUtils.retryable := true |}
  /\ ErrorUtils.getUserFriendlyMessage (Some "Failed to generate image: quota exceeded") =
       "The AI service is temporarily unavailable. Please try again in a few minutes."
  /\ ErrorUtils.getUserFriendlyMessage (Some "Failed to generate image: quota exceeded")
       <> "Failed to generate image: quota exceeded".
Proof.
  split; [|split; [|split; [|split]]];
    try (vm_compute; (reflexivity || discriminate)).
  - intros message host request.
    split; [reflexivity|]. split; [reflexivity|].
    eexists. split; [vm_compute; reflexivity | reflexivity].
  - intros message. eexists. vm_compute. reflexivity.
Qed.

(** The point that [calculateServerPosition] gives for each anchor, as
    a function of the one size it is given. *)
Lemma calculateServerPosition_anchors (imageSize : Z) (fontSize : Q) :
  let at_ := fun p => WatermarkService.calculateServerPosition imageSize p fontSize in
  (WatermarkService.x (at_ WatermarkService.bottom_right) == inject_Z imageSize - 20
   /\ WatermarkService.y (at_ WatermarkService.bottom_right)
        == inject_Z imageSize - 20 - fontSize * (6 # 10))
  /\ (WatermarkService.x (at_ WatermarkService.bottom_center) == inject_Z imageSize / 2
      /\ WatermarkService.y (at_ WatermarkService.bottom_center)
           == inject_Z imageSize - 20 - fontSize * (6 # 10))
  /\ (WatermarkService.x (at_ WatermarkService.center) == inject_Z imageSize / 2
      /\ WatermarkService.y (at_ WatermarkService.center) == inject_Z imageSize / 2)
  /\ (WatermarkService.x (at_ WatermarkService.top_right) == inject_Z imageSize - 20
      /\ WatermarkService.y (at_ WatermarkService.top_right)
           == 20 + fontSize * (6 # 10)).
Proof.
  cbv zeta. unfold WatermarkService.calculateServerPosition.
  cbn [WatermarkService.x WatermarkService.y].
  repeat split; try reflexivity; field.
Qed.

(** C5.  The watermark position is computed from the width alone.
    [addWatermarkServer] hands [calculateServerPosition] the width of
    the image and the overlay is built the same way, so the text of the
    overlay sits where it would for any other height; with a bottom
    anchor its [y] is the width less the padding of 20 and half the
    text height.  On an image of 1024 by 512 pixels the preview
    watermark (bottom-center, font size 20) is placed at [y = 992],
    below the bottom edge at 512, where the padding from the bottom
    edge asks for 480. *)
Theorem bottom_anchor_is_measured_from_the_width :
  (forall (options : WatermarkService.WatermarkOptions) (imageWidth h1 h2 : Z),
      svg_text (WatermarkService.createWatermarkSvg options imageWidth h1) =
      svg_text (WatermarkService.createWatermarkSvg options imageWidth h2))
  /\ (forall (options : WatermarkService.WatermarkOptions) (imageWidth imageHeight : Z),
         WatermarkService.position options = WatermarkService.bottom_center
         \/ WatermarkService.position options = WatermarkService.bottom_right ->
         text_y (svg_text (WatermarkService.createWatermarkSvg
                             options imageWidth imageHeight))
           == inject_Z imageWidth - 20 - WatermarkService.fontSize options * (6 # 10))
  /\ (let pos :=
        WatermarkService.calculateServerPosition 1024
          WatermarkService.bottom_center (20 # 1) in
      WatermarkService.x pos == 512
      /\ WatermarkService.y pos == 992
      /\ ~ WatermarkService.y pos == inject_Z 512 - 20 - (20 # 1) * (6 # 10)
      /\ (inject_Z 512 < WatermarkService.y pos)%Q).
Proof.
  split; [|split].
  - intros options imageWidth h1 h2. reflexivity.
  - intros options imageWidth imageHeight Hbottom.
    pose proof (calculateServerPosition_anchors imageWidth
                  (WatermarkService.fontSize options)) as Hpos.
    cbv zeta in Hpos. destruct Hpos as ((_ & Hbr) & (_ & Hbc) & _).
    unfold WatermarkService.createWatermarkSvg. cbn [svg_text text_y].
    destruct Hbottom as [-> | ->]; assumption.
  - cbv zeta. repeat split; try (vm_compute; reflexivity).
    vm_compute. discriminate.
Qed.

(** C7.  [addWatermark] takes options that [validateOptions] rejects.
    It merges the options over the defaults and composites, with no
    check in between: whenever it fails, one of the two calls of
    [sharp] has thrown, and the error it reports is what that call
    threw.  For an opacity of 5, a font size of 200 and a padding of -1
    the validator reports its error, and [addWatermark] on a decodable
    image succeeds all the same, the overlay carrying the opacity and
    the font size as given.  (The overlay is placed at whole pixels in
    the three cases: 480 from the top at a font size of 20 and 372 at a
    font size of 200, 256 from the left.) *)
Theorem invalid_watermark_options_are_used :
  (forall (host : Host) (imageData : string)
          (options : WatermarkService.PartialOptions),
      addWatermark host imageData options =
        addWatermarkServer host imageData
          (WatermarkService.merge_options WatermarkService.DEFAULT_OPTIONS options))
  /\ (forall (host : Host) (imageData : string)
             (options : WatermarkService.PartialOptions),
         WatermarkService.success (addWatermark host imageData options) = false ->
         let used :=
           WatermarkService.merge_options WatermarkService.DEFAULT_OPTIONS options in
         let buffer :=
           Buffer_from_base64 host (WatermarkService.strip_data_url imageData) in
         exists thrown,
           WatermarkService.error (addWatermark host imageData options) =
             Some (Js.message_or thrown "Server watermarking failed")
           /\ (sharp_metadata host buffer = inl thrown
               \/ exists metadata_width metadata_height,
                    sharp_metadata host buffer = inr (metadata_width, metadata_height)
                    /\ let width := default 512 metadata_width in
                       let height := default 512 metadata_height in
                       let pos :=
                         WatermarkService.calculateServerPosition width
                           (WatermarkService.position used)
                           (WatermarkService.fontSize used) in
                       sharp_composite_png host buffer
                         (WatermarkService.createWatermarkSvg used width height)
                         (WatermarkService.y pos) (WatermarkService.x pos)
                       = inl thrown))
  /\
  let host := Demo.server (Demo.ticking 0) (Demo.returns_image Demo.png_512x512) in
  let marked :=
    {| WatermarkService.success := true;
       WatermarkService.imageData :=
         Some "data:image/png;base64,iVBORw0KGgoAAAANSUhEUgAAAgAAAAIAAQ==";
       WatermarkService.error := None |} in
  let anchor (options : WatermarkService.PartialOptions) :=
    WatermarkService.calculateServerPosition 512
      (WatermarkService.position
         (WatermarkService.merge_options WatermarkService.DEFAULT_OPTIONS options))
      (WatermarkService.fontSize
         (WatermarkService.merge_options WatermarkService.DEFAULT_OPTIONS options)) in
  (WatermarkService.validateOptions Demo.opacity_5 =
     {| WatermarkService.isValid := false;
        WatermarkService.errors := ["Opacity must be between 0 and 1"] |}
   /\ addWatermark host Demo.png_512x512 Demo.opacity_5 = marked
   /\ text_opacity
        (svg_text (WatermarkService.createWatermarkSvg
                     (WatermarkService.merge_options
                        WatermarkService.DEFAULT_OPTIONS Demo.opacity_5) 512 512))
        == 5
   /\ WatermarkService.y (anchor Demo.opacity_5) == 480
   /\ WatermarkService.x (anchor Demo.opacity_5) == 256)
  /\ (WatermarkService.validateOptions Demo.font_size_200 =
        {| WatermarkService.isValid := false;
           WatermarkService.errors := ["Font size must be between 8 and 72"] |}
      /\ addWatermark host Demo.png_512x512 Demo.font_size_200 = marked
      /\ text_font_size
           (svg_text (WatermarkService.createWatermarkSvg
                        (WatermarkService.merge_options
                           WatermarkService.DEFAULT_OPTIONS Demo.font_size_200) 512 512))
           == 200
      /\ WatermarkService.y (anchor Demo.font_size_200) == 372
      /\ WatermarkService.x (anchor Demo.font_size_200) == 256)
  /\ (WatermarkService.validateOptions Demo.padding_minus_1 =
        {| WatermarkService.isValid := false;
           WatermarkService.errors := ["Padding must be non-negative"] |}
      /\ addWatermark host Demo.png_512x512 Demo.padding_minus_1 = marked
      /\ WatermarkService.y (anchor Demo.padding_minus_1) == 480
      /\ WatermarkService.x (anchor Demo.padding_minus_1) == 256).
Proof.
  split; [reflexivity|]. split.
  - intros host imageData options. unfold addWatermark, addWatermarkServer.
    destruct (sharp_metadata host _) as [t|[mw mh]].
    { intros _. exists t. split; [reflexivity | left; reflexivity]. }
    destruct (sharp_composite_png host _ _ _ _) as [t|png] eqn:Hpng; [|discriminate].
    intros _. exists t. split; [reflexivity|]. right. exists mw, mh.
    split; [reflexivity | exact Hpng].
  - cbv zeta. repeat split; vm_compute; reflexivity.
Qed.

(** ** Further properties *)

(** X1.  An image whose shorter side is below 512px is invalid for
    generation, with an error that names each failing dimension. *)
Theorem undersized_image_is_invalid (image : UploadedImage) :
  Z.min (width (image_dimensions image)) (height (image_dimensions image)) < 512 ->
  isValid (ImageUtils.validateImageForAI image) = false
  /\ (width (image_dimensions image) < 512 ->
      In "Image width must be at least 512px"
         (errors (ImageUtils.validateImageForAI image)))
  /\ (height (image_dimensions image) < 512 ->
      In "Image height must be at least 512px"
         (errors (ImageUtils.validateImageForAI image))).
Proof.
  intros Hmin. unfold ImageUtils.validateImageForAI, push_if.
  cbn [isValid errors].
  change GENERATION_CONFIG.PREVIEW_SIZE with 512.
  destruct (Z.ltb_spec (width (image_dimensions image)) 512);
    destruct (Z.ltb_spec (height (image_dimensions image)) 512);
    destruct (image_size image >? 10 * 1024 * 1024);
    try lia; cbn; repeat split; intros; try lia; auto.
Qed.

(** X2.  An image of more than 10MB is invalid for generation, with
    the size error, whatever its dimensions. *)
Theorem oversized_file_is_invalid (image : UploadedImage) :
  10 * 1024 * 1024 < image_size image ->
  isValid (ImageUtils.validateImageForAI image) = false
  /\ In "Image size must be less than 10MB"
        (errors (ImageUtils.validateImageForAI image)).
Proof.
  intros Hsize. unfold ImageUtils.validateImageForAI, push_if.
  cbn [isValid errors].
  destruct (Z.gtb_spec (image_size image) (10 * 1024 * 1024)); [|lia].
  destruct (width (image_dimensions image) <? GENERATION_CONFIG.PREVIEW_SIZE);
    destruct (height (image_dimensions image) <? GENERATION_CONFIG.PREVIEW_SIZE);
    cbn; split; auto 6.
Qed.

(** X3.  A request over the limit is answered 429 before its body is
    looked at: whatever [request.json()] would give, the answer carries
    the reset time and the seconds to it, rounded up, and the world has
    only two more clock readings. *)
Theorem denied_request_is_not_parsed
    (host : Host) (budget : nat) (request : NextRequest PreviewGenerationRequest)
    (w : World) :
  let entry := current_entry host (getClientIP request) (tick w) in
  maxAttempts host <= count entry ->
  POST host budget request w =
    (Returns
       (rate_limited_response
          {| allowed := false;
             remaining := 0;
             resetTime := entry_resetTime entry;
             retryAfter :=
               Some (Js.ceil_div
                       (entry_resetTime entry - clock host (S (clockReads w)))
                       1000) |}),
     tick (tick w)).
Proof.
  intros entry Hfull.
  unfold POST, bind at 1, Date_now at 1, try_catch.
  change {| rateLimitStore := rateLimitStore w;
            clockReads := S (clockReads w);
            providerCalls := providerCalls w;
            retryCount := retryCount w |} with (tick w).
  unfold bind at 1.
  rewrite (check_denied host request (tick w) Hfull). reflexivity.
Qed.

(** X4.  The retry of [generatePortrait] does not count its attempts:
    each attempt starts by setting [retryCount] to 0, so with a ceiling
    of 1 or more and a provider that fails every call, no recursion
    budget is enough for the method to return. *)
Theorem retry_never_gives_up
    (host : Host) (config : AIService.AIServiceConfig)
    (request : AIService.GenerationRequest) (budget : nat) (w : World) :
  1 <= AIService.maxRetries config ->
  DEV_MODE_SKIP_AI host = false ->
  (forall n model prompt image,
      exists t, generateContent host n model prompt image = inl t) ->
  fst (generatePortrait host config budget request w) = Unfinished.
Proof.
  intros Hretries Hlive Hfails. revert w.
  induction budget as [|budget IH]; intros w; [reflexivity|].
  cbn [generatePortrait].
  unfold bind at 1, Date_now at 1, try_catch, bind at 1, set_retryCount at 1.
  rewrite Hlive.
  unfold bind at 1, callGeminiAPI, try_catch, bind at 1, models_generateContent.
  cbn [providerCalls].
  destruct (Hfails (providerCalls w)
              (AIService.model config)
              (AIService.buildPrompt (AIService.request_options request)
                 (AIService.request_prompt request))
              (image_payload host (AIService.request_image request)))
    as (t & ->).
  cbn [throw]. unfold bind at 1, get_retryCount. cbn [retryCount].
  destruct (Z.ltb_spec 0 (AIService.maxRetries config)); [|lia].
  unfold bind at 1, set_retryCount. apply IH.
Qed.

(** ** The rate limiter: keys, isolation and administration *)

Lemma first_segment_app (first rest : string) :
  ~ In ","%char (list_ascii_of_string first) ->
  Js.first_segment (first +:+ "," +:+ rest) = first.
Proof.
  induction first as [|c first IH]; intros Hno; [reflexivity|].
  simpl. destruct (Ascii.eqb_spec c ","%char) as [->|_].
  - exfalso. apply Hno. left. reflexivity.
  - f_equal. apply IH. intros Hin. apply Hno. right. exact Hin.
Qed.

(** X5.  A chain of forwarding addresses is keyed by its first address:
    whatever follows the first comma of [x-forwarded-for], and whatever
    the other two headers say, the client key is the text before that
    comma without the white space around it. *)
Theorem forwarded_chain_is_keyed_by_its_first_address
    {Body : Type} (request : NextRequest Body) (first rest : string) :
  headers request !! "x-forwarded-for" = Some (first +:+ "," +:+ rest) ->
  ~ In ","%char (list_ascii_of_string first) ->
  getClientIP request = Js.trim first.
Proof.
  intros Hheader Hno. unfold getClientIP. rewrite Hheader.
  assert (Hfull : Js.truthy_str (Some (first +:+ "," +:+ rest)) = true).
  { destruct first; reflexivity. }
  rewrite Hfull.
  assert (Hor : Js.or_str (Some (first +:+ "," +:+ rest)) "" = first +:+ "," +:+ rest).
  { destruct first; reflexivity. }
  rewrite Hor, first_segment_app by exact Hno. reflexivity.
Qed.

Section Isolation.

Variable host : Host.
Context {Body : Type}.
Variable request : NextRequest Body.

(** The store after a check: as it was when the check is denied, and
    with the client's entry written and the expired entries swept when
    it is allowed. *)
Lemma checkRateLimit_store (w w' : World) (r : RateLimitResult) :
  checkRateLimit host request w = (Returns r, w') ->
  (allowed r = false /\ rateLimitStore w' = rateLimitStore w)
  \/ (allowed r = true
      /\ exists e,
           rateLimitStore w' =
             filter (fun kv => ~ (clock host (S (clockReads w)) > entry_resetTime (snd kv)))
               (<[getClientIP request := e]> (rateLimitStore w))).
Proof.
  unfold checkRateLimit, cleanupExpiredEntries, bind, Date_now, get_store,
    set_store, ret; simpl.
  destruct (_ >=? _).
  - intros [= <- <-]. left. split; reflexivity.
  - intros [= <- <-]. right. split; [reflexivity|]. eexists. reflexivity.
Qed.

End Isolation.

(** X6.  One client's checks never touch another client's budget: after
    a check of one client, the entry of any other client is either the
    one it had or gone, and it is still there when its window had not
    passed at the time of the sweep. *)
Theorem other_clients_keep_their_entries
    (host : Host) {Body : Type} (request : NextRequest Body)
    (w w' : World) (r : RateLimitResult) (ip : string) :
  checkRateLimit host request w = (Returns r, w') ->
  ip <> getClientIP request ->
  (forall e, rateLimitStore w' !! ip = Some e -> rateLimitStore w !! ip = Some e)
  /\ (forall e, rateLimitStore w !! ip = Some e ->
                clock host (S (clockReads w)) <= entry_resetTime e ->
                rateLimitStore w' !! ip = Some e).
Proof.
  intros Hcheck Hother.
  destruct (checkRateLimit_store host request w w' r Hcheck)
    as [[_ ->] | [_ [e' ->]]].
  - split; intros e He; auto.
  - split; intros e He.
    + apply map_lookup_filter_Some in He as [He _].
      rewrite lookup_insert_ne in He by congruence. exact He.
    + intros Hlive. apply map_lookup_filter_Some. split.
      * rewrite lookup_insert_ne by congruence. exact He.
      * simpl. lia.
Qed.

(** X7.  An allowed check sweeps the store: afterwards no entry, of any
    client, is past its window at the time of the sweep.  A denied check
    leaves the store as it found it. *)
Theorem allowed_check_sweeps_the_store
    (host : Host) {Body : Type} (request : NextRequest Body)
    (w w' : World) (r : RateLimitResult) :
  checkRateLimit host request w = (Returns r, w') ->
  (allowed r = true ->
   forall ip e, rateLimitStore w' !! ip = Some e ->
                clock host (S (clockReads w)) <= entry_resetTime e)
  /\ (allowed r = false -> rateLimitStore w' = rateLimitStore w).
Proof.
  intros Hcheck.
  destruct (checkRateLimit_store host request w w' r Hcheck)
    as [[Hr ->] | [Hr [e' ->]]]; split; intros Hallowed; try congruence.
  intros ip e He. apply map_lookup_filter_Some in He as [_ He].
  simpl in He. lia.
Qed.
(** X8.  In production [getRateLimitStatus] is a dry run of the
    admission check: for a client with an entry, at the same clock
    reading, it announces what [checkRateLimit] then decides (the same
    verdict, reset time and seconds to wait, and a [remaining] that
    counts the use the check is about to record), and it leaves the
    store as it is.  [getDebugInfo] reports the client's entry and the
    ceiling and window that the check applies. *)
Theorem status_is_a_dry_run_of_the_check
    (host : Host) {Body : Type} (request : NextRequest Body) (w : World) :
  NODE_ENV_development host = false ->
  is_Some (rateLimitStore w !! getClientIP request) ->
  exists (s r : RateLimitResult) (w2 : World),
    getRateLimitStatus host (getClientIP request) w = (Returns (Some s), tick w)
    /\ checkRateLimit host request w = (Returns r, w2)
    /\ allowed s = allowed r
    /\ resetTime s = resetTime r
    /\ retryAfter s = retryAfter r
    /\ remaining s = remaining r + (if allowed r then 1 else 0)
    /\ getDebugInfo host (getClientIP request) w =
         (Returns {| debug_entry := rateLimitStore w !! getClientIP request;
                     isDevelopment := false;
                     debug_maxAttempts := maxAttempts host;
                     debug_windowMs := windowMs host |}, w).
Proof.
  intros Hprod [e He].
  assert (Hinfo :
    getDebugInfo host (getClientIP request) w =
      (Returns {| debug_entry := rateLimitStore w !! getClientIP request;
                  isDevelopment := false;
                  debug_maxAttempts := maxAttempts host;
                  debug_windowMs := windowMs host |}, w)).
  { unfold getDebugInfo, bind, get_store, ret, maxAttempts, windowMs.
    rewrite Hprod. reflexivity. }
  rewrite Hinfo. clear Hinfo.
  unfold getRateLimitStatus, checkRateLimit, cleanupExpiredEntries, bind, Date_now,
    get_store, set_store, ret, maxAttempts, windowMs, tick.
  cbn [rateLimitStore clockReads providerCalls retryCount].
  rewrite Hprod, He.
  change RATE_LIMIT_CONFIG.MAX_ATTEMPTS_PER_IP with 3.
  destruct (Z.gtb_spec (clock host (clockReads w)) (entry_resetTime e)).
  - cbn [count entry_resetTime]. change (0 >=? 3) with false. cbv iota.
    do 3 eexists. split; [reflexivity|]. split; [reflexivity|].
    cbn [allowed resetTime retryAfter remaining]. repeat split; (reflexivity || lia).
  - destruct (Z.geb_spec (count e) 3) as [Hfull|Hroom].
    + do 3 eexists. split; [reflexivity|]. split; [reflexivity|].
      cbn [allowed resetTime retryAfter remaining].
      destruct (Z.ltb_spec (count e) 3); [lia|]. repeat split; (reflexivity || lia).
    + do 3 eexists. split; [reflexivity|]. split; [reflexivity|].
      cbn [allowed resetTime retryAfter remaining count].
      destruct (Z.ltb_spec (count e) 3); [|lia]. repeat split; (reflexivity || lia).
Qed.

(** X9.  Clearing a client gives it its full budget back.
    [resetRateLimit] and [clearForIP] are the same function: they say
    whether the client had an entry, delete it and touch no other
    client; the client's next check is then the first of a new window,
    whatever had been recorded.  (The clock reading of the sweep is
    taken to fall within that window.) *)
Theorem clearing_a_client_restores_its_budget
    (host : Host) {Body : Type} (request : NextRequest Body) (w : World) :
  let ip := getClientIP request in
  let cleared :=
    {| rateLimitStore := delete ip (rateLimitStore w);
       clockReads := clockReads w;
       providerCalls := providerCalls w;
       retryCount := retryCount w |} in
  clock host (S (clockReads w)) <= clock host (clockReads w) + windowMs host ->
  resetRateLimit ip w =
    (Returns (bool_decide (is_Some (rateLimitStore w !! ip))), cleared)
  /\ clearForIP ip w = resetRateLimit ip w
  /\ (forall other, other <> ip ->
        rateLimitStore cleared !! other = rateLimitStore w !! other)
  /\ exists w',
       checkRateLimit host request cleared =
         (Returns {| allowed := true;
                     remaining := maxAttempts host - 1;
                     resetTime := clock host (clockReads w) + windowMs host;
                     retryAfter := None |}, w')
       /\ rateLimitStore w' !! ip =
            Some {| count := 1;
                    entry_resetTime := clock host (clockReads w) + windowMs host;
                    lastRequest := clock host (clockReads w) |}.
Proof.
  intros ip cleared Hsweep.
  split; [reflexivity|]. split; [reflexivity|].
  split.
  { intros other Hother. cbn [cleared rateLimitStore].
    apply lookup_delete_ne. congruence. }
  destruct (check_no_live_entry host request cleared) as (s & Hcheck & Hs).
  - unfold no_live_entry. cbn [cleared rateLimitStore]. fold ip.
    rewrite lookup_delete_eq. exact I.
  - exact Hsweep.
  - exists (admitted_world cleared s). split; [exact Hcheck | exact Hs].
Qed.
(** X10.  The debug endpoint acts in development only.  Elsewhere it
    answers 403 to every request without reading it and without
    touching the store.  In development a body that cannot be read is
    answered 500 with the store untouched, a body that names an address
    deletes the entry of that address and reports whether there was one,
    and any other body empties the store, after which every client's
    next check opens a new window. *)
Theorem debug_endpoint_acts_in_development_only
    (host : Host) (request : NextRequest (option string)) (w : World) :
  (NODE_ENV_development host = false ->
   debug_POST host request w = (Returns debug_forbidden, w))
  /\ (NODE_ENV_development host = true ->
      exists resp w',
        debug_POST host request w = (Returns resp, w')
        /\ clockReads w' = clockReads w
        /\ match json request with
           | inl _ =>
               debug_status resp = 500 /\ rateLimitStore w' = rateLimitStore w
           | inr ip =>
               debug_status resp = 200
               /\ if Js.truthy_str ip then
                    rateLimitStore w' = delete (Js.or_str ip "") (rateLimitStore w)
                    /\ debug_cleared resp =
                         Some (bool_decide
                                 (is_Some (rateLimitStore w !! Js.or_str ip "")))
                  else
                    rateLimitStore w' = ∅
                    /\ forall (Body : Type) (client : NextRequest Body),
                         clock host (S (clockReads w))
                           <= clock host (clockReads w) + windowMs host ->
                         exists r w'',
                           checkRateLimit host client w' = (Returns r, w'')
                           /\ allowed r = true
                           /\ remaining r = maxAttempts host - 1
           end).
Proof.
  split; intros Henv; unfold debug_POST; rewrite Henv; cbn [negb]; [reflexivity|].
  unfold try_catch, bind at 1.
  destruct (json request) as [t|ip]; cbn [lift throw ret].
  { do 2 eexists. split; [reflexivity|]. repeat split. }
  destruct (Js.truthy_str ip).
  - do 2 eexists. split; [reflexivity|]. repeat split.
  - do 2 eexists. split; [reflexivity|]. split; [reflexivity|].
    split; [reflexivity|]. split; [reflexivity|].
    intros Body client Hsweep.
    set (w' := snd (clearAll w)).
    destruct (check_no_live_entry host client w') as (s & Hcheck & _).
    + unfold no_live_entry. cbn. rewrite lookup_empty. exact I.
    + exact Hsweep.
    + do 2 eexists. split; [exact Hcheck|]. split; reflexivity.
Qed.

Lemma header_get_set (name other value : string) (hs : list (string * string)) :
  header_get other (header_set name value hs) =
    if same_header name other then Some value else header_get other hs.
Proof.
  unfold header_get, header_set, same_header.
  induction hs as [|[k v] hs IH]; cbn [List.filter app List.find fst snd].
  - destruct (String.eqb _ _); reflexivity.
  - destruct (String.eqb_spec (Js.toLowerCase k) (Js.toLowerCase name)) as [Hk|Hk];
      cbn [negb app List.find fst snd].
    + rewrite IH.
      destruct (String.eqb_spec (Js.toLowerCase name) (Js.toLowerCase other))
        as [Hn|Hn].
      * reflexivity.
      * destruct (String.eqb_spec (Js.toLowerCase k) (Js.toLowerCase other));
          [congruence | reflexivity].
    + destruct (String.eqb_spec (Js.toLowerCase k) (Js.toLowerCase other)) as [Ho|Ho].
      * destruct (String.eqb_spec (Js.toLowerCase name) (Js.toLowerCase other));
          [congruence | reflexivity].
      * exact IH.
Qed.

(** X11.  The middleware runs the handler only after admission.  When
    the client's entry is at the ceiling it answers 429 itself, with the
    seconds to the reset in [Retry-After], and the handler is not run:
    the world has one more clock reading and nothing else.  Otherwise
    the check records the use first, the handler runs in the world the
    check left, an exception of the handler propagates with the use
    recorded, and a response of the handler keeps its status, its body
    and its other headers and gets the three rate-limit headers,
    whatever it had set under those names. *)
Theorem middleware_runs_the_handler_after_admission
    (host : Host) {Body : Type} (handler : NextRequest Body -> M NextResponse)
    (request : NextRequest Body) (w : World) :
  let entry := current_entry host (getClientIP request) w in
  (maxAttempts host <= count entry ->
   exists resp,
     withRateLimit host handler request w = (Returns resp, tick w)
     /\ status resp = 429
     /\ header_get "retry-after" (response_headers resp) =
          Some (Js.num_to_string
                  (Js.ceil_div (entry_resetTime entry - clock host (clockReads w))
                     1000)))
  /\ (count entry < maxAttempts host ->
      exists r w1,
        checkRateLimit host request w = (Returns r, w1)
        /\ allowed r = true
        /\ match handler request w1 with
           | (Returns response, w2) =>
               exists resp,
                 withRateLimit host handler request w = (Returns resp, w2)
                 /\ status resp = status response
                 /\ body resp = body response
                 /\ header_get "x-ratelimit-limit" (response_headers resp) = Some "3"
                 /\ header_get "x-ratelimit-remaining" (response_headers resp) =
                      Some (Js.num_to_string (remaining r))
                 /\ header_get "x-ratelimit-reset" (response_headers resp) =
                      Some (Js.num_to_string (resetTime r))
                 /\ forall name,
                      same_header "X-RateLimit-Limit" name = false ->
                      same_header "X-RateLimit-Remaining" name = false ->
                      same_header "X-RateLimit-Reset" name = false ->
                      header_get name (response_headers resp) =
                        header_get name (response_headers response)
           | (Throws t, w2) =>
               withRateLimit host handler request w = (Throws t, w2)
           | (Unfinished, w2) =>
               withRateLimit host handler request w = (Unfinished, w2)
           end).
Proof.
  intros entry. split.
  - intros Hfull. unfold withRateLimit, bind at 1.
    rewrite (check_denied host request w Hfull). cbn [allowed negb ret].
    eexists. split; [reflexivity|]. split; reflexivity.
  - intros Hroom.
    assert (Hcheck : exists r w1,
               checkRateLimit host request w = (Returns r, w1) /\ allowed r = true).
    { unfold checkRateLimit, cleanupExpiredEntries, bind, Date_now, get_store,
        set_store, ret; simpl.
      fold (current_entry host (getClientIP request) w). fold entry.
      destruct (Z.geb_spec (count entry) (maxAttempts host)); [lia|].
      do 2 eexists. split; reflexivity. }
    destruct Hcheck as (r & w1 & Hcheck & Hallowed).
    exists r, w1. split; [exact Hcheck|]. split; [exact Hallowed|].
    assert (Hrun :
      withRateLimit host handler request w =
        bind (handler request)
          (fun response =>
             ret {| status := status response;
                    body := body response;
                    response_headers :=
                      header_set "X-RateLimit-Reset" (Js.num_to_string (resetTime r))
                        (header_set "X-RateLimit-Remaining"
                           (Js.num_to_string (remaining r))
                           (header_set "X-RateLimit-Limit"
                              (Js.num_to_string RATE_LIMIT_CONFIG.MAX_ATTEMPTS_PER_IP)
                              (response_headers response))) |}) w1).
    { unfold withRateLimit, bind at 1. rewrite Hcheck, Hallowed. reflexivity. }
    rewrite Hrun. unfold bind.
    destruct (handler request w1) as [[response|t|] w2]; [|reflexivity|reflexivity].
    eexists. split; [reflexivity|].
    cbn [status body response_headers ret].
    split; [reflexivity|]. split; [reflexivity|].
    rewrite !header_get_set.
    split; [reflexivity|]. split; [reflexivity|]. split; [reflexivity|].
    intros name H1 H2 H3. rewrite !header_get_set, H1, H2, H3. reflexivity.
Qed.

(** ** The helpers of ai-utils.ts *)

(** X12.  An image is accepted for generation exactly when both sides
    are at least 512px and the file is at most 10MB, and then it has no
    error.  The same holds of a whole generation request: its errors
    are those of its image, and neither missing options nor a size
    class the image is too small for can make it invalid. *)
Theorem image_is_valid_exactly_within_the_limits (image : UploadedImage) :
  let within :=
    512 <= width (image_dimensions image)
    /\ 512 <= height (image_dimensions image)
    /\ image_size image <= 10 * 1024 * 1024 in
  (isValid (ImageUtils.validateImageForAI image) = true <-> within)
  /\ (isValid (ImageUtils.validateImageForAI image) = true
      <-> errors (ImageUtils.validateImageForAI image) = [])
  /\ forall (options : CustomizationOptions) (size : SizeClass),
       (isValid (ValidationUtils.validateGenerationRequest image options size) = true
        <-> within)
       /\ errors (ValidationUtils.validateGenerationRequest image options size) =
            errors (ImageUtils.validateImageForAI image).
Proof.
  cbv zeta.
  assert (Himage :
    (isValid (ImageUtils.validateImageForAI image) = true
     <-> 512 <= width (image_dimensions image)
         /\ 512 <= height (image_dimensions image)
         /\ image_size image <= 10 * 1024 * 1024)
    /\ (isValid (ImageUtils.validateImageForAI image) = true
        <-> errors (ImageUtils.validateImageForAI image) = [])).
  { unfold ImageUtils.validateImageForAI, push_if. cbn [isValid errors].
    change GENERATION_CONFIG.PREVIEW_SIZE with 512.
    destruct (Z.ltb_spec (width (image_dimensions image)) 512);
      destruct (Z.ltb_spec (height (image_dimensions image)) 512);
      destruct (Z.gtb_spec (image_size image) (10 * 1024 * 1024));
      cbn; (split; (split; intros; (congruence || lia))). }
  destruct Himage as [Hlimits Herrors].
  split; [exact Hlimits|]. split; [exact Herrors|].
  intros options size. split; [exact Hlimits | reflexivity].
Qed.

(** X13.  [getOptimalGenerationSize] and [validateImageForAI] draw the
    same line: the size class is [full] exactly when the validation does
    not warn that the resolution may be insufficient for full size, that
    is when both sides are at least 2048px. *)
Theorem full_size_exactly_without_resolution_warning (image : UploadedImage) :
  (ImageUtils.getOptimalGenerationSize image = full
   <-> ~ In "Image resolution may be insufficient for full-size generation"
           (warnings (ImageUtils.validateImageForAI image)))
  /\ (ImageUtils.getOptimalGenerationSize image = full
      <-> 2048 <= width (image_dimensions image)
          /\ 2048 <= height (image_dimensions image)).
Proof.
  unfold ImageUtils.getOptimalGenerationSize, ImageUtils.validateImageForAI, push_if.
  cbn [warnings]. change GENERATION_CONFIG.FULL_SIZE with 2048.
  destruct (Z.geb_spec (Z.min (width (image_dimensions image))
                          (height (image_dimensions image))) 2048) as [Hmin|Hmin];
    destruct (Z.ltb_spec (width (image_dimensions image)) 2048);
    destruct (Z.ltb_spec (height (image_dimensions image)) 2048);
    try lia;
    destruct (extreme_aspect (image_dimensions image));
    cbn [orb app In];
    (split; (split; [intros Heq | intros Hno]));
    try discriminate Heq; try reflexivity; try lia;
    try (intros Hin; cbn in Hin; intuition discriminate);
    exfalso; apply Hno; cbn; auto.
Qed.

(** X14.  What the error classifier lets through.  An error is
    classified as not retryable exactly when its message mentions
    [API key], whatever else it mentions.  The message for the user is
    the entry of the table of five fixed texts under the code of the
    error, and depends on the error through that code alone: it is the
    text of the error only when that text is itself one of the five, as
    it is for an error whose text is the entry for [UNKNOWN_ERROR]. *)
Theorem user_message_is_one_of_five (error_message : option string) :
  ErrorUtils.isRetryableError error_message =
    negb (ErrorUtils.message_includes error_message "API key")
  /\ In (ErrorUtils.code (ErrorUtils.parseAIError error_message))
        (map fst ErrorUtils.userMessages)
  /\ In (ErrorUtils.getUserFriendlyMessage error_message)
        (map snd ErrorUtils.userMessages)
  /\ (ErrorUtils.message_includes error_message "API key" = true ->
      ErrorUtils.code (ErrorUtils.parseAIError error_message) = "INVALID_API_KEY")
  /\ Js.lookup_key (ErrorUtils.code (ErrorUtils.parseAIError error_message))
       ErrorUtils.userMessages
     = Some (ErrorUtils.getUserFriendlyMessage error_message)
  /\ (forall text : string,
         error_message = Some text ->
         ~ In text (map snd ErrorUtils.userMessages) ->
         ErrorUtils.getUserFriendlyMessage error_message <> text)
  /\ (let text :=
        "Something went wrong while generating your portrait. Please try again." in
      ErrorUtils.message (ErrorUtils.parseAIError (Some text)) = text
      /\ ErrorUtils.getUserFriendlyMessage (Some text) = text).
Proof.
  assert (Hin : In (ErrorUtils.getUserFriendlyMessage error_message)
                  (map snd ErrorUtils.userMessages)).
  { unfold ErrorUtils.getUserFriendlyMessage, ErrorUtils.parseAIError.
    destruct (ErrorUtils.message_includes error_message "API key");
      [|destruct (ErrorUtils.message_includes error_message "quota");
        [|destruct (ErrorUtils.message_includes error_message "timeout");
          [|destruct (ErrorUtils.message_includes error_message "rate limit")]]];
      cbn; intuition congruence. }
  repeat match goal with |- _ /\ _ => split end;
    try exact Hin;
    try (intros text _ Hno Heq; apply Hno; rewrite <- Heq; exact Hin);
    try (vm_compute; reflexivity);
    unfold ErrorUtils.isRetryableError, ErrorUtils.getUserFriendlyMessage,
      ErrorUtils.parseAIError;
    (destruct (ErrorUtils.message_includes error_message "API key");
      [|destruct (ErrorUtils.message_includes error_message "quota");
        [|destruct (ErrorUtils.message_includes error_message "timeout");
          [|destruct (ErrorUtils.message_includes error_message "rate limit")]]]);
    cbn; intuition congruence.
Qed.

(** X15.  The two configuration checks agree, and on the configuration
    the service is built from they come down to the API key: the service
    counts as configured exactly when the key is not empty.  A negative
    retry ceiling is warned about and never makes a configuration
    invalid. *)
Theorem service_is_configured_exactly_with_a_key
    (host : Host) (config : AIService.AIServiceConfig) :
  let partial_of (c : AIService.AIServiceConfig) :=
    {| ValidationUtils.config_apiKey := Some (AIService.apiKey c);
       ValidationUtils.config_model := Some (AIService.model c);
       ValidationUtils.config_baseUrl := Some (AIService.baseUrl c);
       ValidationUtils.config_maxRetries := Some (AIService.maxRetries c) |} in
  isValid (ValidationUtils.validateAIConfig (partial_of config)) =
    AIService.validateConfig config
  /\ AIService.isConfigured (AIService.getServiceInfo config) =
       AIService.validateConfig config
  /\ (AIService.validateConfig (getAIConfig host) = true <-> GEMINI_API_KEY host <> "")
  /\ warnings (ValidationUtils.validateAIConfig (partial_of (getAIConfig host))) = []
  /\ (AIService.maxRetries config < 0 ->
      warnings (ValidationUtils.validateAIConfig (partial_of config)) =
        ["Max retries should be at least 0 (0 disables retries for cost savings)"]).
Proof.
  cbv zeta. unfold ValidationUtils.validateAIConfig, AIService.validateConfig, push_if.
  cbn [isValid warnings ValidationUtils.config_apiKey ValidationUtils.config_model
       ValidationUtils.config_baseUrl ValidationUtils.config_maxRetries
       Js.truthy_str AIService.getServiceInfo AIService.isConfigured].
  split; [|split; [reflexivity|split; [|split; [reflexivity|]]]].
  - destruct (String.eqb (AIService.apiKey config) "");
      destruct (String.eqb (AIService.model config) "");
      destruct (String.eqb (AIService.baseUrl config) ""); reflexivity.
  - cbn [getAIConfig AIService.apiKey AIService.model AIService.baseUrl].
    destruct (String.eqb_spec (GEMINI_API_KEY host) ""); cbn; split; congruence.
  - intros Hneg. destruct (Z.ltb_spec (AIService.maxRetries config) 0); [reflexivity|lia].
Qed.

(** ** The generation client and the endpoint as a whole *)

Lemma checkRateLimit_calls (host : Host) {Body : Type} (request : NextRequest Body)
    (w : World) :
  exists r w',
    checkRateLimit host request w = (Returns r, w')
    /\ providerCalls w' = providerCalls w.
Proof.
  unfold checkRateLimit, cleanupExpiredEntries, bind, Date_now, get_store,
    set_store, ret; simpl.
  destruct (_ >=? _); do 2 eexists; split; reflexivity.
Qed.

Lemma processResponse_calls (host : Host)
    (response : AIService.GenerationResponse) (metrics : AIGenerationMetrics)
    (validationOptions : AIResponseHandler.ValidationOptions) (w : World) :
  exists result w',
    processResponse host response metrics validationOptions w = (Returns result, w')
    /\ providerCalls w' = providerCalls w
    /\ rateLimitStore w' = rateLimitStore w
    /\ (AIResponseHandler.success result = true ->
        AIResponseHandler.imageData result = AIService.imageData response).
Proof.
  unfold processResponse, try_catch, bind, Date_now, ret, failed_response.
  destruct (negb (AIService.success response)
            || negb (Js.truthy_str (AIService.imageData response)))%bool.
  { do 2 eexists. split; [reflexivity|]. repeat split. discriminate. }
  destruct (negb (AIResponseHandler.isValid (validateImageData host _ _))).
  { do 2 eexists. split; [reflexivity|]. repeat split. discriminate. }
  do 2 eexists. split; [reflexivity|]. repeat split.
Qed.

(** The service with the retry ceiling at 0, as the application builds
    it: one attempt, whose outcome is the provider's. *)
Lemma generatePortrait_one_attempt (host : Host) (budget : nat)
    (request : AIService.GenerationRequest) (w : World) :
  let prompt :=
    AIService.buildPrompt (AIService.request_options request)
      (AIService.request_prompt request) in
  let payload := image_payload host (AIService.request_image request) in
  let answer :=
    generateContent host (providerCalls w) (AIService.model (getAIConfig host))
      prompt payload in
  exists result w',
    aiService_generatePortrait host (S budget) request w = (Returns result, w')
    /\ rateLimitStore w' = rateLimitStore w
    /\ (if DEV_MODE_SKIP_AI host then
          providerCalls w' = providerCalls w
          /\ AIService.success result = true
          /\ AIService.imageData result = Some payload
          /\ AIService.cost result = Some (0 # 1)
        else
          providerCalls w' = S (providerCalls w)
          /\ match answer with
             | inl t =>
                 AIService.success result = false
                 /\ AIService.error result =
                      Some ("Failed to generate image: "
                              +:+ Js.message_or t "Unknown error")
             | inr response =>
                 match AIService.find_image_data response with
                 | Some data =>
                     AIService.success result = true
                     /\ AIService.imageData result = Some data
                     /\ AIService.cost result =
                          Some (AIService.calculateCost (AIService.request_size request))
                 | None =>
                     AIService.success result = false
                     /\ AIService.error result =
                          Some "Failed to generate image: No image generated in response"
                 end
             end).
Proof.
  cbv zeta. unfold aiService_generatePortrait. cbn [generatePortrait].
  unfold bind at 1, Date_now at 1, try_catch, bind at 1, set_retryCount at 1.
  destruct (DEV_MODE_SKIP_AI host).
  { unfold bind, Date_now, ret. cbn.
    do 2 eexists. split; [reflexivity|]. repeat split. }
  unfold bind at 1, callGeminiAPI, try_catch, bind at 1, models_generateContent.
  cbn [providerCalls getAIConfig AIService.model].
  destruct (generateContent host (providerCalls w) _ _ _) as [t|response].
  { cbn [throw]. unfold bind, get_retryCount, ret. cbn.
    do 2 eexists. split; [reflexivity|]. repeat split. }
  destruct (AIService.find_image_data response) as [data|].
  - cbn [ret]. unfold bind, Date_now, ret. cbn.
    do 2 eexists. split; [reflexivity|]. repeat split.
  - cbn [throw]. unfold bind, get_retryCount, ret. cbn.
    do 2 eexists. split; [reflexivity|]. repeat split.
Qed.
(** How the handler ends once a body is parsed: with a 200, a 400 or a
    500, or with the exception of the prompt builder; with at most one
    provider call, and none in skip mode or before a 400. *)
Lemma handle_body_outcome (host : Host) (budget : nat) (startTime : Z)
    (rateLimitResult : RateLimitResult) (parsed : PreviewGenerationRequest)
    (w : World) :
  exists outcome w',
    handle_body host (S budget) startTime rateLimitResult parsed w = (outcome, w')
    /\ rateLimitStore w' = rateLimitStore w
    /\ (providerCalls w' = providerCalls w
        \/ (DEV_MODE_SKIP_AI host = false /\ providerCalls w' = S (providerCalls w)))
    /\ match outcome with
       | Returns resp =>
           (status resp = 200 /\ success (body resp) = true
            /\ (watermarked <$> metadata (body resp)) = Some true
            /\ (meta_cost <$> metadata (body resp))
                 = Some GENERATION_CONFIG.PREVIEW_COST
            /\ (DEV_MODE_SKIP_AI host = true ->
                exists image,
                  body_image parsed = Some image
                  /\ Js.truthy_str (json_base64Data image) = true
                  /\ imageData (body resp) =
                       Some (Js.or_str
                               (WatermarkService.imageData
                                  (addPreviewWatermark host
                                     (Js.or_str (json_base64Data image) "")))
                               (Js.or_str (json_base64Data image) ""))))
           \/ (status resp = 400 /\ success (body resp) = false
               /\ providerCalls w' = providerCalls w)
           \/ (status resp = 500 /\ success (body resp) = false)
       | Throws t => providerCalls w' = providerCalls w
       | Unfinished => False
       end.
Proof.
  unfold handle_body.
  destruct (body_image parsed) as [image|].
  2:{ do 2 eexists. split; [reflexivity|]. split; [reflexivity|].
      split; [left; reflexivity|]. right. left. repeat split. }
  destruct (body_options parsed) as [options|].
  2:{ do 2 eexists. split; [reflexivity|]. split; [reflexivity|].
      split; [left; reflexivity|]. right. left. repeat split. }
  destruct (Js.truthy_str (json_base64Data image)) eqn:Hdata; cbn [negb orb].
  2:{ do 2 eexists. split; [reflexivity|]. split; [reflexivity|].
      split; [left; reflexivity|]. right. left. repeat split. }
  destruct (negb (Js.truthy_str (json_id image))
            || negb (Js.truthy_str (json_type image)))%bool.
  { do 2 eexists. split; [reflexivity|]. split; [reflexivity|].
    split; [left; reflexivity|]. right. left. repeat split. }
  destruct (negb (Js.truthy_str (background options))
            || negb (Js.truthy_str (style options)))%bool.
  { do 2 eexists. split; [reflexivity|]. split; [reflexivity|].
    split; [left; reflexivity|]. right. left. repeat split. }
  unfold bind at 1.
  destruct (PromptBuilder.buildPrompt options _) as [t|promptVariations];
    cbn [lift throw ret].
  { do 2 eexists. split; [reflexivity|]. split; [reflexivity|].
    split; [left; reflexivity|]. reflexivity. }
  destruct (negb (PromptBuilder.context_isValid _)).
  { do 2 eexists. split; [reflexivity|]. split; [reflexivity|].
    split; [left; reflexivity|]. right. left. repeat split. }
  unfold bind at 1.
  match goal with
  | |- context [aiService_generatePortrait host (S budget) ?req w] =>
      destruct (generatePortrait_one_attempt host budget req w)
        as (generationResult & w1 & -> & Hstore1 & Hgen)
  end.
  assert (Hcalls1 :
    providerCalls w1 = providerCalls w
    \/ (DEV_MODE_SKIP_AI host = false /\ providerCalls w1 = S (providerCalls w))).
  { destruct (DEV_MODE_SKIP_AI host); [left | right; split; [reflexivity|]];
      apply Hgen. }
  destruct (negb (AIService.success generationResult)
            || negb (Js.truthy_str (AIService.imageData generationResult)))%bool.
  { do 2 eexists. split; [reflexivity|]. split; [exact Hstore1|].
    split; [exact Hcalls1|]. right. right. split; reflexivity. }
  unfold bind at 1, Date_now at 1. unfold bind at 1.
  match goal with
  | |- context [processResponse host generationResult ?metrics ?options ?w2] =>
      destruct (processResponse_calls host generationResult metrics options w2)
        as (processedResponse & w3 & -> & Hcalls3 & Hstore3 & Himage)
  end.
  cbn [providerCalls rateLimitStore] in Hcalls3, Hstore3.
  destruct (AIResponseHandler.success processedResponse) eqn:Hok; cbn [negb orb].
  2:{ do 2 eexists. split; [reflexivity|]. split; [congruence|].
      split; [rewrite Hcalls3; exact Hcalls1|]. right. right. split; reflexivity. }
  destruct (negb (Js.truthy_str (AIResponseHandler.imageData processedResponse))).
  { do 2 eexists. split; [reflexivity|]. split; [congruence|].
    split; [rewrite Hcalls3; exact Hcalls1|]. right. right. split; reflexivity. }
  do 2 eexists. split; [reflexivity|]. split; [congruence|].
  split; [rewrite Hcalls3; exact Hcalls1|]. left.
  cbn [status body success metadata imageData fmap option_fmap option_map
       watermarked meta_cost MetricsUtils.createMetrics metrics_cost].
  repeat split.
  intros Hskip. rewrite Hskip in Hgen. destruct Hgen as (_ & _ & Hpayload & _).
  exists image. split; [reflexivity|]. split; [exact Hdata|].
  rewrite (Himage eq_refl), Hpayload.
  unfold image_payload. cbn [AIService.request_image image_base64Data].
  rewrite Hdata.
  assert (Hidem : forall o, Js.or_str (Some (Js.or_str o "")) "" = Js.or_str o "").
  { intros [s|]; [|reflexivity]. cbn.
    destruct (String.eqb s "") eqn:Hs; [reflexivity | rewrite Hs; reflexivity]. }
  rewrite Hidem. reflexivity.
Qed.

(** How the endpoint ends. *)
Lemma POST_outcome (host : Host) (budget : nat)
    (request : NextRequest PreviewGenerationRequest) (w : World) :
  exists resp w',
    POST host (S budget) request w = (Returns resp, w')
    /\ (providerCalls w' = providerCalls w
        \/ (DEV_MODE_SKIP_AI host = false /\ providerCalls w' = S (providerCalls w)))
    /\ ((status resp = 200 /\ success (body resp) = true
         /\ (watermarked <$> metadata (body resp)) = Some true
         /\ (meta_cost <$> metadata (body resp)) = Some GENERATION_CONFIG.PREVIEW_COST
         /\ (DEV_MODE_SKIP_AI host = true ->
             exists parsed image,
               json request = inr parsed
               /\ body_image parsed = Some image
               /\ Js.truthy_str (json_base64Data image) = true
               /\ imageData (body resp) =
                    Some (Js.or_str
                            (WatermarkService.imageData
                               (addPreviewWatermark host
                                  (Js.or_str (json_base64Data image) "")))
                            (Js.or_str (json_base64Data image) ""))))
        \/ ((status resp = 400 \/ status resp = 429)
            /\ success (body resp) = false
            /\ providerCalls w' = providerCalls w)
        \/ (status resp = 500 /\ success (body resp) = false)).
Proof.
  unfold POST, bind at 1, Date_now at 1, try_catch. unfold bind at 1.
  match goal with
  | |- context [checkRateLimit host request ?w0] =>
      destruct (checkRateLimit_calls host request w0) as (r & w1 & -> & Hcalls1)
  end.
  cbn [providerCalls] in Hcalls1.
  destruct (allowed r); cbn [negb ret].
  2:{ do 2 eexists. split; [reflexivity|]. split; [left; exact Hcalls1|].
      right. left. split; [right; reflexivity|]. split; [reflexivity | exact Hcalls1]. }
  unfold bind at 1.
  destruct (json request) as [t|parsed]; cbn [lift throw ret].
  { do 2 eexists. split; [reflexivity|]. split; [left; exact Hcalls1|].
    right. right. split; reflexivity. }
  match goal with
  | |- context [handle_body host (S budget) ?st r parsed w1] =>
      destruct (handle_body_outcome host budget st r parsed w1)
        as (outcome & w2 & -> & _ & Hcalls2 & Hout)
  end.
  rewrite Hcalls1 in Hcalls2.
  destruct outcome as [resp|t|]; [| |contradiction].
  - do 2 eexists. split; [reflexivity|]. split; [exact Hcalls2|].
    destruct Hout as [(H200 & Hok & Hmark & Hcost & Hskip) | [(H400 & Hbad & Hsame) | H500]].
    + left. repeat split; try assumption.
      intros Hon. destruct (Hskip Hon) as (image & Himg & Hdata & Hsent).
      exists parsed, image. repeat split; assumption.
    + right. left. split; [left; exact H400|]. split; [exact Hbad | congruence].
    + right. right. exact H500.
  - do 2 eexists. split; [reflexivity|]. split; [left; congruence|].
    right. right. split; reflexivity.
Qed.

(** X16.  The endpoint always answers.  Given a budget of one attempt,
    which the retry ceiling of 0 never exceeds, [POST] returns a
    response for every request in every world and on every host: no
    exception escapes.  The status is 200, 400, 429 or 500, and the body
    says [success: true] exactly when it is 200. *)
Theorem preview_endpoint_always_answers
    (host : Host) (budget : nat) (request : NextRequest PreviewGenerationRequest)
    (w : World) :
  exists resp w',
    POST host (S budget) request w = (Returns resp, w')
    /\ In (status resp) [200; 400; 429; 500]
    /\ (success (body resp) = true <-> status resp = 200).
Proof.
  destruct (POST_outcome host budget request w) as (resp & w' & Hrun & _ & Hout).
  exists resp, w'. split; [exact Hrun|].
  destruct Hout as [(H200 & Hok & _) | [([H4|H4] & Hbad & _) | (H500 & Hbad)]];
    rewrite ?H200, ?H4, ?H500, ?Hok, ?Hbad; cbn; intuition congruence.
Qed.

(** X17.  A request costs at most one provider call.  Whatever the
    request, the handler calls the provider once or not at all; not at
    all when it answers 400 or 429, and never in skip mode
    ([DEV_MODE_SKIP_AI]). *)
Theorem request_costs_at_most_one_provider_call
    (host : Host) (budget : nat) (request : NextRequest PreviewGenerationRequest)
    (w : World) :
  let run := POST host (S budget) request w in
  (providerCalls (snd run) = providerCalls w
   \/ providerCalls (snd run) = S (providerCalls w))
  /\ (forall resp,
        fst run = Returns resp -> status resp = 400 \/ status resp = 429 ->
        providerCalls (snd run) = providerCalls w)
  /\ (DEV_MODE_SKIP_AI host = true -> providerCalls (snd run) = providerCalls w).
Proof.
  cbv zeta.
  destruct (POST_outcome host budget request w) as (resp & w' & -> & Hcalls & Hout).
  cbn [fst snd]. split; [|split].
  - destruct Hcalls as [Hsame | [_ Hone]]; auto.
  - intros resp' [= <-] Hstatus.
    destruct Hout as [(H200 & _) | [(_ & _ & Hsame) | (H500 & _)]];
      [|exact Hsame|]; destruct Hstatus; congruence.
  - intros Hskip. destruct Hcalls as [Hsame | [Hlive _]]; congruence.
Qed.

(** X18.  In skip mode the preview is the upload.  With
    [DEV_MODE_SKIP_AI] on, every 200 carries the uploaded payload
    itself, watermarked when the watermark step succeeded and as it was
    uploaded otherwise; the provider has not been called, and the
    metadata still reports the price of a generated preview. *)
Theorem skip_mode_previews_the_upload
    (host : Host) (budget : nat) (request : NextRequest PreviewGenerationRequest)
    (w w' : World) (resp : NextResponse) :
  DEV_MODE_SKIP_AI host = true ->
  POST host (S budget) request w = (Returns resp, w') ->
  status resp = 200 ->
  providerCalls w' = providerCalls w
  /\ (meta_cost <$> metadata (body resp)) = Some GENERATION_CONFIG.PREVIEW_COST
  /\ exists parsed image payload,
       json request = inr parsed
       /\ body_image parsed = Some image
       /\ json_base64Data image = Some payload
       /\ imageData (body resp) =
            Some (Js.or_str
                    (WatermarkService.imageData (addPreviewWatermark host payload))
                    payload).
Proof.
  intros Hskip Hrun H200.
  destruct (POST_outcome host budget request w) as (resp' & w'' & Hrun' & Hcalls & Hout).
  rewrite Hrun in Hrun'. injection Hrun' as <- <-.
  split.
  { destruct Hcalls as [Hsame | [Hlive _]]; congruence. }
  destruct Hout as [(_ & _ & _ & Hcost & Hecho) | [([H4|H4] & _) | (H500 & _)]];
    try congruence.
  split; [exact Hcost|].
  destruct (Hecho Hskip) as (parsed & image & Hjson & Himage & Hdata & Hsent).
  destruct (json_base64Data image) as [payload|] eqn:Hpayload; [|discriminate Hdata].
  exists parsed, image, payload. repeat split; try assumption.
  rewrite Hsent. cbn [Js.or_str Js.truthy_str] in Hdata |- *.
  destruct (String.eqb payload ""); [discriminate Hdata | reflexivity].
Qed.

(** [List.find] returns the first element that passes the test. *)
Lemma find_first {A} (f : A -> bool) (l : list A) (x : A) :
  List.find f l = Some x
  <-> exists before after,
        l = (before ++ x :: after)%list
        /\ Forall (fun a => f a = false) before
        /\ f x = true.
Proof.
  induction l as [|a l IH]; cbn [List.find].
  - split; [discriminate|]. intros ([|b before] & after & Hl & _); discriminate Hl.
  - destruct (f a) eqn:Hfa.
    + split.
      * intros [= <-]. exists [], l. repeat split; [constructor | exact Hfa].
      * intros ([|b before] & after & Hl & Hbefore & Hx).
        -- injection Hl as <- _. reflexivity.
        -- injection Hl as <- _. inversion Hbefore; congruence.
    + rewrite IH. split.
      * intros (before & after & -> & Hbefore & Hx).
        exists (a :: before), after. repeat split; [constructor; assumption | exact Hx].
      * intros ([|b before] & after & Hl & Hbefore & Hx).
        -- injection Hl as <- _. congruence.
        -- injection Hl as <- ->. exists before, after.
           inversion Hbefore. repeat split; assumption.
Qed.

(** The image data that [callGeminiAPI] finds in an answer. *)
Lemma find_image_data_first (response : GeminiResponse) (data : string) :
  AIService.find_image_data response = Some data
  <-> exists candidate others before part after,
        candidates response = Some (candidate :: others)
        /\ content candidate = Some (Some (before ++ part :: after)%list)
        /\ Forall (fun p => inlineData p = None) before
        /\ inlineData part = Some (Some data)
        /\ data <> "".
Proof.
  unfold AIService.find_image_data. split.
  - destruct (candidates response) as [[|candidate others]|]; try discriminate.
    destruct (content candidate) as [[parts|]|] eqn:Hcontent; try discriminate.
    destruct (List.find _ parts) as [part|] eqn:Hfind; [|discriminate].
    apply find_first in Hfind. destruct Hfind as (before & after & -> & Hbefore & _).
    destruct (inlineData part) as [[d|]|] eqn:Hpart; try discriminate.
    destruct (String.eqb_spec d ""); [discriminate|]. intros [= <-].
    exists candidate, others, before, part, after. repeat split; try assumption.
    eapply Forall_impl; [exact Hbefore|]. intros p Hp. cbn beta in Hp.
    destruct (inlineData p); [|reflexivity].
    rewrite bool_decide_eq_false in Hp. exfalso. apply Hp. eexists. reflexivity.
  - intros (candidate & others & before & part & after & -> & -> & Hbefore & Hpart & Hdata).
    assert (Hfind : List.find (fun part => bool_decide (is_Some (inlineData part)))
                      (before ++ part :: after) = Some part).
    { apply find_first. exists before, after. repeat split.
      - eapply Forall_impl; [exact Hbefore|]. intros p Hp. cbn beta in Hp |- *.
        rewrite Hp. reflexivity.
      - rewrite Hpart. reflexivity. }
    rewrite Hfind, Hpart. destruct (String.eqb_spec data ""); [contradiction|reflexivity].
Qed.

(** X19.  Outside skip mode the generation client makes exactly one
    provider call per request and reports what the provider did: an
    exception of the provider, and an answer in which no image data is
    found, as a failure whose text starts with
    [Failed to generate image: ]; an answer in which image data is found
    as a success that carries that data and the price of the size
    class.  The rate-limit store is not touched.  Image data is looked
    for in one place: the first part of the first candidate that has an
    [inlineData] at all, and it is found when the [data] of that part
    is a non-empty text.  Later parts are not looked at: an answer
    whose parts are an [inlineData] with empty data followed by one
    with data is reported as a failure. *)
Theorem generation_is_one_provider_call
    (host : Host) (budget : nat) (request : AIService.GenerationRequest) (w : World) :
  DEV_MODE_SKIP_AI host = false ->
  (exists result w',
    aiService_generatePortrait host (S budget) request w = (Returns result, w')
    /\ providerCalls w' = S (providerCalls w)
    /\ rateLimitStore w' = rateLimitStore w
    /\ match generateContent host (providerCalls w)
               (AIService.model (getAIConfig host))
               (AIService.buildPrompt (AIService.request_options request)
                  (AIService.request_prompt request))
               (image_payload host (AIService.request_image request)) with
       | inl t =>
           AIService.success result = false
           /\ AIService.error result =
                Some ("Failed to generate image: " +:+ Js.message_or t "Unknown error")
       | inr response =>
           match AIService.find_image_data response with
           | Some data =>
               AIService.success result = true
               /\ AIService.imageData result = Some data
               /\ AIService.cost result =
                    Some (AIService.calculateCost (AIService.request_size request))
           | None =>
               AIService.success result = false
               /\ AIService.error result =
                    Some "Failed to generate image: No image generated in response"
           end
       end)
  /\ (forall (response : GeminiResponse) (data : string),
         AIService.find_image_data response = Some data
         <-> exists candidate others before part after,
               candidates response = Some (candidate :: others)
               /\ content candidate = Some (Some (before ++ part :: after)%list)
               /\ Forall (fun p => inlineData p = None) before
               /\ inlineData part = Some (Some data)
               /\ data <> "")
  /\ AIService.find_image_data
       {| candidates :=
            Some [ {| content :=
                        Some (Some [ {| inlineData := Some (Some "") |};
                                     {| inlineData := Some (Some "AAAA") |} ]) |} ] |}
     = None.
Proof.
  intros Hlive. split; [|split; [exact find_image_data_first | reflexivity]].
  destruct (generatePortrait_one_attempt host budget request w)
    as (result & w' & Hrun & Hstore & Hgen).
  rewrite Hlive in Hgen. destruct Hgen as [Hcalls Hanswer].
  exists result, w'. repeat split; assumption.
Qed.





(** X21.  The [useCase] of a request has no effect: the handler's
    answer and everything it does are the same whatever use case the
    body names, or none. *)
Theorem useCase_is_ignored
    (host : Host) (budget : nat) (request : NextRequest PreviewGenerationRequest)
    (useCase : option string) (w : World) :
  POST host budget (with_useCase useCase request) w = POST host budget request w.
Proof.
  unfold POST.
  apply bind_ext. intros startTime w1.
  unfold try_catch.
  assert (Hbody :
    (rateLimitResult <- checkRateLimit host (with_useCase useCase request) ;;
     if negb (allowed rateLimitResult)
     then ret (rate_limited_response rateLimitResult)
     else body <- lift (json (with_useCase useCase request)) ;;
          handle_body host budget startTime rateLimitResult body) w1
    = (rateLimitResult <- checkRateLimit host request ;;
       if negb (allowed rateLimitResult)
       then ret (rate_limited_response rateLimitResult)
       else body <- lift (json request) ;;
            handle_body host budget startTime rateLimitResult body) w1);
    [|rewrite Hbody; reflexivity].
  change (checkRateLimit host (with_useCase useCase request))
    with (checkRateLimit host request).
  apply bind_ext. intros rateLimitResult w2.
  destruct (negb (allowed rateLimitResult)); [reflexivity|].
  cbn [with_useCase json]. unfold bind.
  destruct (json request) as [t|parsed]; reflexivity.
Qed.

(** ** The response processor *)



(** X23.  The list of allowed formats works as a switch, not as a
    filter.  Every decoded payload is typed [image/jpeg] whatever it
    holds, so a list without [image/jpeg] rejects every image, and a
    list with it (or no list) never raises the format error. *)
Theorem allowed_formats_is_a_switch
    (host : Host) (imageData : string) (options : AIResponseHandler.ValidationOptions) :
  let jpeg_allowed :=
    match AIResponseHandler.allowedFormats options with
    | Some formats => AIResponseHandler.includes_str formats "image/jpeg"
    | None => true
    end in
  (jpeg_allowed = false ->
   AIResponseHandler.isValid (validateImageData host imageData options) = false)
  /\ (jpeg_allowed = true ->
      ~ In "Unsupported format: image/jpeg"
           (AIResponseHandler.errors (validateImageData host imageData options)))
  /\ (forall blob, base64ToBlob host imageData = inr blob ->
                   AIResponseHandler.blob_type blob = "image/jpeg").
Proof.
  cbv zeta. unfold validateImageData, base64ToBlob.
  destruct (negb (isValidBase64 host imageData)).
  { split; [reflexivity|]. split.
    - intros _ [Hin|[]]. discriminate Hin.
    - destruct (Buffer_defined host); [intros blob [= <-]; reflexivity|].
      destruct (atob host imageData); [discriminate | intros blob [= <-]; reflexivity]. }
  assert (Hchecked : forall bs dims,
    let blob := {| AIResponseHandler.blob_bytes := bs;
                   AIResponseHandler.blob_type := "image/jpeg" |} in
    (match AIResponseHandler.allowedFormats options with
     | Some formats => AIResponseHandler.includes_str formats "image/jpeg"
     | None => true
     end = false ->
     AIResponseHandler.isValid (AIResponseHandler.check_blob blob dims options) = false)
    /\ (match AIResponseHandler.allowedFormats options with
        | Some formats => AIResponseHandler.includes_str formats "image/jpeg"
        | None => true
        end = true ->
        ~ In "Unsupported format: image/jpeg"
             (AIResponseHandler.errors
                (AIResponseHandler.check_blob blob dims options)))).
  { intros bs dims blob. unfold AIResponseHandler.check_blob, push_if.
    cbn [AIResponseHandler.blob_type blob].
    destruct (AIResponseHandler.allowedFormats options) as [formats|].
    - destruct (AIResponseHandler.includes_str formats "image/jpeg"); cbn [negb].
      + split; [discriminate|]. intros _.
        destruct (_ >? _); destruct dims as [d|];
          repeat match goal with
                 | |- context [if ?c then _ else _] => destruct c
                 end;
          cbn; intuition discriminate.
      + split; [|discriminate]. intros _.
        destruct (_ >? _); destruct dims as [d|];
          repeat match goal with
                 | |- context [if ?c then _ else _] => destruct c
                 end;
          reflexivity.
    - split; [discriminate|]. intros _.
      destruct (_ >? _); destruct dims as [d|];
        repeat match goal with
               | |- context [if ?c then _ else _] => destruct c
               end;
        cbn; intuition discriminate. }
  destruct (Buffer_defined host).
  - split; [apply Hchecked|]. split; [apply Hchecked|].
    intros blob [= <-]. reflexivity.
  - destruct (atob host imageData) as [t|bs].
    + split; [reflexivity|]. split; [|discriminate].
      intros _ [Hin|[]]. discriminate Hin.
    + split; [apply Hchecked|]. split; [apply Hchecked|].
      intros blob [= <-]. reflexivity.
Qed.

(** X24.  On a server no result is displayed as a plain success.  A
    processed response is displayed as an error when it failed, with a
    message that is never empty, and as a warning when it succeeded:
    the warning that the dimensions could not be determined is always
    among its details. *)
Theorem server_side_success_is_displayed_as_a_warning
    (host : Host) (response : AIService.GenerationResponse)
    (metrics : AIGenerationMetrics)
    (validationOptions : AIResponseHandler.ValidationOptions)
    (w w' : World) (result : AIResponseHandler.ProcessedResponse) :
  window_defined host = false ->
  processResponse host response metrics validationOptions w = (Returns result, w') ->
  let display := AIResponseHandler.formatResponseForDisplay result in
  (AIResponseHandler.success result = true ->
   AIResponseHandler.display_type display = AIResponseHandler.display_warning
   /\ exists details,
        AIResponseHandler.display_details display = Some details
        /\ In "Could not determine image dimensions" details)
  /\ (AIResponseHandler.success result = false ->
      AIResponseHandler.display_type display = AIResponseHandler.display_error
      /\ AIResponseHandler.display_message display <> "").
Proof.
  intros Hserver Hrun display. subst display.
  unfold AIResponseHandler.formatResponseForDisplay.
  destruct (AIResponseHandler.success result) eqn:Hok; cbn [negb].
  - split; [intros _|discriminate].
    destruct (processResponse_success host response metrics validationOptions
                w w' result Hrun Hok)
      as (validation & md & -> & Hvalid & _ & _ & _ & _ & _ & Hwarnings).
    destruct (validateImageData_server host _ _ Hserver Hvalid) as [_ Hin].
    rewrite Hwarnings.
    destruct (AIResponseHandler.warnings_found _) as [|w0 ws]; [destruct Hin|].
    cbn. split; [reflexivity|]. eexists. split; [reflexivity | exact Hin].
  - split; [discriminate|intros _]. split; [reflexivity|].
    cbn [AIResponseHandler.display_message].
    destruct (AIResponseHandler.error result) as [e|]; [|discriminate].
    cbn. destruct (String.eqb_spec e ""); [discriminate | assumption].
Qed.

(** ** The watermark service *)

Lemma Qlt_bool_iff (a b : Q) : WatermarkService.Qlt_bool a b = true <-> (a < b)%Q.
Proof.
  unfold WatermarkService.Qlt_bool. rewrite negb_true_iff.
  destruct (Qle_bool b a) eqn:Hle.
  - apply Qle_bool_iff in Hle. split; [discriminate|]. intros Hlt.
    exfalso. apply (Qlt_not_le _ _ Hlt Hle).
  - split; [intros _ | reflexivity]. apply Qnot_le_lt. intros Hle'.
    apply Qle_bool_iff in Hle'. congruence.
Qed.

Lemma Qlt_bool_false (a b : Q) : WatermarkService.Qlt_bool a b = false <-> (b <= a)%Q.
Proof.
  unfold WatermarkService.Qlt_bool. rewrite negb_false_iff. apply Qle_bool_iff.
Qed.

(** X25.  [validateOptions] accepts a set of options exactly when each
    value that is given lies in its range: a text of at most 100
    characters, an opacity between 0 and 1, a font size between 8 and
    72, a padding of at least 0.  The one exception is a font size of 0,
    which is outside the range and accepted, because the check is
    skipped for a value that is not truthy. *)
Theorem watermark_options_are_valid_exactly_in_range
    (options : WatermarkService.PartialOptions) :
  WatermarkService.isValid (WatermarkService.validateOptions options) = true
  <-> (forall t, WatermarkService.partial_text options = Some t ->
                 (String.length t <= 100)%nat)
      /\ (forall o, WatermarkService.partial_opacity options = Some o ->
                    (0 <= o /\ o <= 1)%Q)
      /\ (forall f, WatermarkService.partial_fontSize options = Some f ->
                    (f == 0 \/ (8 <= f /\ f <= 72))%Q)
      /\ (forall p, WatermarkService.partial_padding options = Some p -> (0 <= p)%Q).
Proof.
  unfold WatermarkService.validateOptions. cbn [WatermarkService.isValid].
  set (bad_text :=
         (Js.truthy_str (WatermarkService.partial_text options)
          && Nat.ltb 100 (String.length
                            (Js.or_str (WatermarkService.partial_text options) "")))%bool).
  set (bad_opacity :=
         (WatermarkService.truthy_Q (WatermarkService.partial_opacity options)
          && (WatermarkService.Qlt_bool
                (default 0%Q (WatermarkService.partial_opacity options)) 0
              || WatermarkService.Qlt_bool 1
                   (default 0%Q (WatermarkService.partial_opacity options))))%bool).
  set (bad_font :=
         (WatermarkService.truthy_Q (WatermarkService.partial_fontSize options)
          && (WatermarkService.Qlt_bool
                (default 0%Q (WatermarkService.partial_fontSize options)) (8 # 1)
              || WatermarkService.Qlt_bool (72 # 1)
                   (default 0%Q (WatermarkService.partial_fontSize options))))%bool).
  set (bad_padding :=
         (WatermarkService.truthy_Q (WatermarkService.partial_padding options)
          && WatermarkService.Qlt_bool
               (default 0%Q (WatermarkService.partial_padding options)) 0)%bool).
  assert (Htext : bad_text = false
                  <-> forall t, WatermarkService.partial_text options = Some t ->
                                (String.length t <= 100)%nat).
  { subst bad_text. destruct (WatermarkService.partial_text options) as [t|].
    - cbn [Js.truthy_str Js.or_str].
      destruct (String.eqb_spec t "") as [->|Hne]; cbn [negb andb].
      + split; [|reflexivity]. intros _ t [= <-]. cbn. lia.
      + split.
        * intros Hlen t' [= <-]. apply Nat.ltb_ge in Hlen. exact Hlen.
        * intros Hlen. apply Nat.ltb_ge. apply Hlen. reflexivity.
    - split; [|reflexivity]. intros _ t Ht. discriminate Ht. }
  assert (Hopacity : bad_opacity = false
                     <-> forall o, WatermarkService.partial_opacity options = Some o ->
                                   (0 <= o /\ o <= 1)%Q).
  { subst bad_opacity. destruct (WatermarkService.partial_opacity options) as [o|].
    - cbn [WatermarkService.truthy_Q default].
      rewrite andb_false_iff, negb_false_iff, orb_false_iff, !Qlt_bool_false.
      split.
      + intros [Hzero | Hrange] o' [= <-]; [|exact Hrange].
        apply Qeq_bool_iff in Hzero. rewrite Hzero. split; discriminate.
      + intros Hrange. right. apply Hrange. reflexivity.
    - split; [|reflexivity]. intros _ o Ho. discriminate Ho. }
  assert (Hfont : bad_font = false
                  <-> forall f, WatermarkService.partial_fontSize options = Some f ->
                                (f == 0 \/ (8 <= f /\ f <= 72))%Q).
  { subst bad_font. destruct (WatermarkService.partial_fontSize options) as [f|].
    - cbn [WatermarkService.truthy_Q default].
      rewrite andb_false_iff, negb_false_iff, orb_false_iff, !Qlt_bool_false.
      split.
      + intros [Hzero | Hrange] f' [= <-]; [left | right; exact Hrange].
        apply Qeq_bool_iff in Hzero. exact Hzero.
      + intros Hrange. destruct (Hrange f eq_refl) as [Hzero | Hin];
          [left; apply Qeq_bool_iff; exact Hzero | right; exact Hin].
    - split; [|reflexivity]. intros _ f Hf. discriminate Hf. }
  assert (Hpadding : bad_padding = false
                     <-> forall p, WatermarkService.partial_padding options = Some p ->
                                   (0 <= p)%Q).
  { subst bad_padding. destruct (WatermarkService.partial_padding options) as [p|].
    - cbn [WatermarkService.truthy_Q default].
      rewrite andb_false_iff, negb_false_iff, Qlt_bool_false.
      split.
      + intros [Hzero | Hrange] p' [= <-]; [|exact Hrange].
        apply Qeq_bool_iff in Hzero. rewrite Hzero. discriminate.
      + intros Hrange. right. apply Hrange. reflexivity.
    - split; [|reflexivity]. intros _ p Hp. discriminate Hp. }
  rewrite <- Htext, <- Hopacity, <- Hfont, <- Hpadding.
  unfold push_if.
  destruct bad_text; destruct bad_opacity; destruct bad_font; destruct bad_padding;
    cbn; intuition congruence.
Qed.

(** X26.  The backing box of the overlay is centred on the text: its
    middle is the anchor at which the text is drawn, and it is wider
    than the estimated text by 20px and taller by 10px.  The overlay
    has the size of the image, and it has a box exactly when a
    background colour is given. *)
Theorem backing_box_is_centred_on_the_text
    (options : WatermarkService.WatermarkOptions) (imageWidth imageHeight : Z) :
  let overlay := WatermarkService.createWatermarkSvg options imageWidth imageHeight in
  let textWidth :=
    (WatermarkService.text_length (WatermarkService.text options)
     * WatermarkService.fontSize options * (6 # 10))%Q in
  let textHeight := (WatermarkService.fontSize options * (12 # 10))%Q in
  svg_width overlay = imageWidth
  /\ svg_height overlay = imageHeight
  /\ (is_Some (svg_rect overlay)
      <-> Js.truthy_str (WatermarkService.backgroundColor options) = true)
  /\ forall box, svg_rect overlay = Some box ->
       (rect_x box + rect_width box / (2 # 1) == text_x (svg_text overlay))%Q
       /\ (rect_y box + rect_height box / (2 # 1) == text_y (svg_text overlay))%Q
       /\ (rect_width box == textWidth + (20 # 1))%Q
       /\ (rect_height box == textHeight + (10 # 1))%Q.
Proof.
  cbv zeta. unfold WatermarkService.createWatermarkSvg.
  cbn [svg_width svg_height svg_rect svg_text text_x text_y].
  split; [reflexivity|]. split; [reflexivity|].
  destruct (Js.truthy_str (WatermarkService.backgroundColor options)).
  - split; [split; [reflexivity | intros _; eexists; reflexivity]|].
    intros box [= <-]. cbn [rect_x rect_y rect_width rect_height].
    repeat split; try reflexivity; field.
  - split; [split; [intros [box Hbox]; discriminate Hbox | discriminate]|].
    intros box Hbox. discriminate Hbox.
Qed.

(** X27.  The data-URL prefix is put on once and taken off again.  The
    watermark's prefix stripping undoes the PNG and JPEG prefixes for
    every payload, so a successful watermark can be fed its own output:
    stripping it gives the base64 of the composited PNG.
    [createPreviewUrl] leaves a data URL, the watermark's included, as
    it is, so applying it twice is applying it once. *)
Theorem data_url_prefix_round_trip
    (host : Host) (payload : string) (options : WatermarkService.PartialOptions) :
  WatermarkService.strip_data_url ("data:image/png;base64," +:+ payload) = payload
  /\ WatermarkService.strip_data_url ("data:image/jpeg;base64," +:+ payload) = payload
  /\ createPreviewUrl (createPreviewUrl payload) = createPreviewUrl payload
  /\ (String.prefix "data:" payload = false ->
      WatermarkService.strip_data_url (createPreviewUrl payload) = payload)
  /\ forall url,
       WatermarkService.imageData (addWatermark host payload options) = Some url ->
       createPreviewUrl url = url
       /\ exists png,
            url = "data:image/png;base64," +:+ Buffer_to_base64 host png
            /\ WatermarkService.strip_data_url url = Buffer_to_base64 host png.
Proof.
  split; [reflexivity|]. split; [reflexivity|]. split; [|split].
  - unfold createPreviewUrl.
    destruct (String.prefix "data:" payload) eqn:Hprefix; [rewrite Hprefix|];
      reflexivity.
  - intros Hraw. unfold createPreviewUrl. rewrite Hraw. reflexivity.
  - intros url. unfold addWatermark, addWatermarkServer.
    destruct (sharp_metadata host _) as [t|[mw mh]]; [discriminate|].
    destruct (sharp_composite_png host _ _ _ _) as [t|png]; [discriminate|].
    intros [= <-]. split; [reflexivity|]. exists png. split; reflexivity.
Qed.

(** ** The prompt templates *)

Lemma append_cons (c : ascii) (a b : string) : String c a +:+ b = String c (a +:+ b).
Proof. reflexivity. Qed.

Lemma append_nil_r (a : string) : a +:+ "" = a.
Proof.
  induction a as [|c a IH]; [reflexivity|]. rewrite append_cons, IH. reflexivity.
Qed.

Lemma append_assoc (a b c : string) : (a +:+ b) +:+ c = a +:+ (b +:+ c).
Proof.
  induction a as [|d a IH]; [reflexivity|]. rewrite !append_cons, IH. reflexivity.
Qed.

(** A template whose placeholders all stand for themselves comes back
    as it is. *)
Lemma interpolate_by_placeholders (variables : list (string * option string))
    (s : string) :
  forall pending : option string,
    (forall key, In key (placeholders pending s) ->
                 PromptUtils.replacement variables key = "{" +:+ key +:+ "}") ->
    PromptUtils.interpolate variables pending s =
      match pending with
      | Some key => "{" +:+ key +:+ s
      | None => s
      end.
Proof.
  induction s as [|c s IH]; intros [key|] Hnone;
    cbn [PromptUtils.interpolate placeholders] in Hnone |- *.
  - rewrite append_nil_r. reflexivity.
  - reflexivity.
  - destruct (PromptUtils.is_word c).
    { rewrite (IH _ Hnone), append_assoc. reflexivity. }
    destruct (Ascii.eqb_spec c "}"%char) as [->|Hc]; cbn [andb] in Hnone |- *.
    + destruct (String.eqb key "") eqn:Hkey; cbn [negb] in Hnone |- *.
      * change (Ascii.eqb "}" "{") with false in Hnone |- *. cbv iota in Hnone |- *.
        rewrite (IH _ Hnone). reflexivity.
      * rewrite (Hnone key (or_introl eq_refl)),
          (IH None (fun k Hk => Hnone k (or_intror Hk))), !append_assoc.
        reflexivity.
    + destruct (Ascii.eqb_spec c "{"%char) as [->|Hc'].
      * rewrite (IH _ Hnone). reflexivity.
      * rewrite (IH _ Hnone). reflexivity.
  - destruct (Ascii.eqb_spec c "{"%char) as [->|Hc]; rewrite (IH _ Hnone); reflexivity.
Qed.

Lemma substring_prefix (needle b : string) :
  substring 0 (String.length needle) (needle +:+ b) = needle.
Proof.
  induction needle as [|d needle IH].
  - destruct b; reflexivity.
  - rewrite append_cons. cbn [String.length substring]. rewrite IH. reflexivity.
Qed.

Lemma substring_app (a needle b : string) :
  substring (String.length a) (String.length needle) (a +:+ needle +:+ b) = needle.
Proof.
  induction a as [|c a IH].
  - exact (substring_prefix needle b).
  - rewrite append_cons. cbn [String.length substring]. exact IH.
Qed.

(** [includes] finds a text that is there. *)
Lemma includes_app (a needle b : string) :
  Js.includes (a +:+ needle +:+ b) needle = true.
Proof.
  unfold Js.includes.
  destruct (String.index 0 needle (a +:+ needle +:+ b)) eqn:Hindex; [reflexivity|].
  exfalso. destruct needle as [|d needle].
  - apply index_correct4 in Hindex. lia.
  - apply (index_correct3 0 (String.length a) _ _ Hindex); [discriminate|lia|].
    apply substring_app.
Qed.

Lemma getPromptTemplate_known (id : string) :
  In id (map PromptUtils.template_id PromptUtils.PROMPT_TEMPLATES) ->
  exists t,
    PromptUtils.getPromptTemplate id = Some t /\ In t PromptUtils.PROMPT_TEMPLATES.
Proof.
  cbn. intros [<-|[<-|[<-|[]]]]; eexists; (split; [reflexivity|]); cbn; auto.
Qed.

Lemma getPromptTemplate_unknown (id : string) :
  ~ In id (map PromptUtils.template_id PromptUtils.PROMPT_TEMPLATES) ->
  PromptUtils.getPromptTemplate id = None.
Proof.
  intros Hno. unfold PromptUtils.getPromptTemplate, PromptUtils.PROMPT_TEMPLATES.
  cbn [List.find PromptUtils.template_id].
  destruct (String.eqb_spec "professional" id) as [<-|_].
  { exfalso. apply Hno. cbn. auto. }
  destruct (String.eqb_spec "executive" id) as [<-|_].
  { exfalso. apply Hno. cbn. auto. }
  destruct (String.eqb_spec "creative" id) as [<-|_].
  { exfalso. apply Hno. cbn. auto. }
  reflexivity.
Qed.

(** X28.  How the templates are filled.  A placeholder that has no
    value stays in the text as it is: a template comes back unchanged
    when none of its placeholders has a value.  The placeholders of the
    three templates are the four names that [getPromptVariables] sets.
    [buildPrompt] returns the custom prompt when there is one, whatever
    the template; without one it throws for a template that does not
    exist and fills the template otherwise: for each of the three
    templates and each style and background of the tables no brace is
    left in the prompt, and with a style the table does not have the
    placeholder [{style_description}] is.  (The names that every object
    inherits are left out, as placeholders and as styles: the model
    treats them as missing, and JavaScript finds them.) *)
Theorem placeholders_without_a_value_stay :
  (forall (template : string) (variables : list (string * option string)),
      (forall key, In key (placeholders None template) ->
                   ~ In key Js.inherited_keys
                   /\ PromptUtils.replacement variables key = "{" +:+ key +:+ "}") ->
      PromptUtils.interpolateTemplate template variables = template)
  /\ (forall (t : PromptUtils.PromptTemplate) (key : string),
         In t PromptUtils.PROMPT_TEMPLATES ->
         In key (placeholders None (PromptUtils.template t)) ->
         In key ["style"; "background"; "style_description"; "background_description"]
         /\ ~ In key Js.inherited_keys)
  /\ (forall (templateId : string) (options : CustomizationOptions)
             (customPrompt : string),
         customPrompt <> "" ->
         PromptUtils.buildPrompt templateId options (Some customPrompt)
           = inr customPrompt)
  /\ (forall (templateId : string) (options : CustomizationOptions),
         ~ In templateId (map PromptUtils.template_id PromptUtils.PROMPT_TEMPLATES) ->
         PromptUtils.buildPrompt templateId options None =
           inl (Js.JsError ("Prompt template '" +:+ templateId +:+ "' not found")))
  /\ (forall (templateId : string) (options : CustomizationOptions)
             (chosen_style chosen_background : string),
         In templateId (map PromptUtils.template_id PromptUtils.PROMPT_TEMPLATES) ->
         style options = Some chosen_style ->
         background options = Some chosen_background ->
         In chosen_style (map fst PromptUtils.styleDescriptions) ->
         In chosen_background (map fst PromptUtils.backgroundDescriptions) ->
         exists prompt,
           PromptUtils.buildPrompt templateId options None = inr prompt
           /\ Js.includes prompt "{" = false)
  /\ (forall (templateId : string) (options : CustomizationOptions),
         In templateId (map PromptUtils.template_id PromptUtils.PROMPT_TEMPLATES) ->
         ~ In (Js.or_str (style options) "professional") Js.inherited_keys ->
         Js.lookup_key (Js.or_str (style options) "professional")
           PromptUtils.styleDescriptions = None ->
         exists prompt,
           PromptUtils.buildPrompt templateId options None = inr prompt
           /\ Js.includes prompt "{style_description}" = true).
Proof.
  split; [|split; [|split; [|split; [|split]]]].
  - intros template variables Hnone. unfold PromptUtils.interpolateTemplate.
    exact (interpolate_by_placeholders variables template None
             (fun key Hkey => proj2 (Hnone key Hkey))).
  - intros t key Ht Hkey. cbn in Ht.
    repeat (destruct Ht as [<-|Ht]; [|try contradiction]);
      vm_compute in Hkey;
      repeat (destruct Hkey as [<-|Hkey]; [|try contradiction]);
      (split; [cbn; tauto | vm_compute; intuition discriminate]).
  - intros templateId options customPrompt Hcustom. unfold PromptUtils.buildPrompt.
    cbn [Js.truthy_str Js.or_str].
    destruct (String.eqb_spec customPrompt ""); [contradiction | reflexivity].
  - intros templateId options Hunknown. unfold PromptUtils.buildPrompt.
    cbn [Js.truthy_str]. rewrite (getPromptTemplate_unknown _ Hunknown). reflexivity.
  - intros templateId options chosen_style chosen_background Hid Hstyle Hbackground
      Hs Hb.
    destruct (getPromptTemplate_known _ Hid) as (t & Hfound & Ht).
    unfold PromptUtils.buildPrompt. cbn [Js.truthy_str]. rewrite Hfound.
    eexists. split; [reflexivity|].
    unfold PromptUtils.getPromptVariables. rewrite Hstyle, Hbackground.
    cbn in Ht, Hs, Hb.
    repeat (destruct Ht as [<-|Ht]; [|try contradiction]);
      (repeat (destruct Hs as [<-|Hs]; [|try contradiction]);
       (repeat (destruct Hb as [<-|Hb]; [|try contradiction]); vm_compute; reflexivity)).
  - intros templateId options Hid _ Hstyle.
    destruct (getPromptTemplate_known _ Hid) as (t & Hfound & Ht).
    unfold PromptUtils.buildPrompt. cbn [Js.truthy_str]. rewrite Hfound.
    eexists. split; [reflexivity|].
    unfold PromptUtils.getPromptVariables, PromptUtils.interpolateTemplate.
    rewrite Hstyle. cbn in Ht.
    repeat (destruct Ht as [<-|Ht]; [|try contradiction]); vm_compute; reflexivity.
Qed.

Lemma toLowerCase_app (a b : string) :
  Js.toLowerCase (a +:+ b) = Js.toLowerCase a +:+ Js.toLowerCase b.
Proof.
  induction a as [|c a IH]; [reflexivity|].
  rewrite append_cons. cbn [Js.toLowerCase]. rewrite IH, append_cons. reflexivity.
Qed.

(** The errors that the scan of the keywords collects. *)
Lemma keyword_errors (lowerPrompt : string) (keywords : list string) :
  forall acc : list string,
    let errors :=
      fold_left
        (fun errors keyword =>
           push_if (Js.includes lowerPrompt keyword)
             ("Inappropriate keyword detected: " +:+ keyword) errors)
        keywords acc in
    (forall e, In e acc -> In e errors)
    /\ (forall keyword,
          In keyword keywords -> Js.includes lowerPrompt keyword = true ->
          In ("Inappropriate keyword detected: " +:+ keyword) errors)
    /\ (errors = []
        <-> acc = []
            /\ Forall (fun keyword => Js.includes lowerPrompt keyword = false) keywords).
Proof.
  induction keywords as [|k keywords IH]; intros acc; cbn [fold_left].
  - split; [auto|]. split; [intros keyword []|].
    split; [intros ->; split; [reflexivity | constructor] | intros [-> _]; reflexivity].
  - destruct (IH (push_if (Js.includes lowerPrompt k)
                    ("Inappropriate keyword detected: " +:+ k) acc))
      as (Hkeep & Hfound & Hnone).
    split; [|split].
    + intros e He. apply Hkeep. unfold push_if.
      destruct (Js.includes lowerPrompt k); [apply in_or_app; left|]; exact He.
    + intros keyword [<-|Hin] Hhit.
      * apply Hkeep. unfold push_if. rewrite Hhit. apply in_or_app. right. left.
        reflexivity.
      * apply Hfound; assumption.
    + rewrite Hnone. unfold push_if.
      destruct (Js.includes lowerPrompt k) eqn:Hk.
      * split.
        -- intros [Hacc _]. destruct acc; discriminate Hacc.
        -- intros [_ Hall]. inversion Hall; congruence.
      * split.
        -- intros [-> Hall]. split; [reflexivity | constructor; assumption].
        -- intros [-> Hall]. inversion Hall; subst. split; [reflexivity | assumption].
Qed.

(** X29.  The keyword check of [validatePrompt] looks at the prompt in
    lower case and anywhere in it: a prompt is valid exactly when none
    of the nine keywords occurs in its lower-case form, so a keyword
    written in any mix of letter cases, alone or inside a longer word,
    makes the prompt invalid and is named in the errors.  The length of
    the prompt only decides warnings. *)
Theorem keyword_check_ignores_case_and_word_boundaries (prompt : string) :
  (isValid (PromptUtils.validatePrompt prompt) = true
   <-> Forall (fun keyword => Js.includes (Js.toLowerCase prompt) keyword = false)
         PromptUtils.inappropriateKeywords)
  /\ (forall before written after keyword : string,
         prompt = before +:+ written +:+ after ->
         Js.toLowerCase written = keyword ->
         In keyword PromptUtils.inappropriateKeywords ->
         isValid (PromptUtils.validatePrompt prompt) = false
         /\ In ("Inappropriate keyword detected: " +:+ keyword)
               (errors (PromptUtils.validatePrompt prompt))).
Proof.
  unfold PromptUtils.validatePrompt. cbn [isValid errors].
  destruct (keyword_errors (Js.toLowerCase prompt) PromptUtils.inappropriateKeywords [])
    as (_ & Hfound & Hnone).
  cbv zeta in Hfound, Hnone.
  split.
  - rewrite Nat.eqb_eq, length_zero_iff_nil, Hnone. intuition.
  - intros before written after keyword -> Hlower Hin.
    assert (Hhit : Js.includes
                     (Js.toLowerCase (before +:+ written +:+ after)) keyword = true).
    { rewrite !toLowerCase_app, Hlower. apply includes_app. }
    pose proof (Hfound keyword Hin Hhit) as Herror.
    split; [|exact Herror].
    destruct (fold_left _ _ _); [destruct Herror | reflexivity].
Qed.

(** ** The environment *)

Lemma filter_nil_Forall {A} (f : A -> bool) (l : list A) :
  List.filter f l = [] -> Forall (fun a => f a = false) l.
Proof.
  induction l as [|a l IH]; cbn [List.filter]; [constructor|].
  destruct (f a) eqn:Ha; [discriminate|]. intros Hl. constructor; auto.
Qed.

Lemma node_env_of_development (o : option string) (nodeEnv : EnvValidation.NodeEnv) :
  EnvValidation.node_env_of (Js.or_str o "") = Some nodeEnv ->
  bool_decide (o = Some "development") =
    match nodeEnv with
    | EnvValidation.development => true
    | _ => false
    end.
Proof.
  destruct o as [s|]; [|discriminate]. cbn [Js.or_str].
  destruct (String.eqb_spec s "") as [->|Hne]; [discriminate|].
  unfold EnvValidation.node_env_of.
  destruct (String.eqb_spec s "development") as [->|Hdev].
  { intros [= <-]. reflexivity. }
  assert (Hno : bool_decide (Some s = Some "development") = false).
  { apply bool_decide_eq_false. congruence. }
  rewrite Hno.
  destruct (String.eqb s "production"); [intros [= <-]; reflexivity|].
  destruct (String.eqb s "test"); [intros [= <-]; reflexivity | discriminate].
Qed.

(** X30.  A development machine never calls the provider.  When the
    environment loads, every required variable is set and not empty,
    so the service built from it counts as configured; skip mode is on
    exactly in development or when [DEV_MODE_SKIP_AI] is the text
    [true]; and on a host that runs with that configuration and has
    [NODE_ENV=development], no request to the preview endpoint reaches
    the provider, whatever [DEV_MODE_SKIP_AI] says. *)
Theorem development_never_calls_the_provider
    {Num : Type} (parseInt parseFloat : string -> Num)
    (not_a_number URL_parses : string -> bool)
    (env : gmap string string) (config : EnvValidation.EnvConfig Num) (host : Host) :
  EnvValidation.validateAndLoadConfig Num parseInt parseFloat not_a_number URL_parses env
    = inr config ->
  runs_with host env config ->
  Forall (fun varName => Js.truthy_str (env !! varName) = true)
    EnvValidation.requiredVars
  /\ EnvValidation.DEV_MODE_SKIP_AI config =
       (EnvValidation.isDevelopment config
        || bool_decide (env !! "DEV_MODE_SKIP_AI" = Some "true"))%bool
  /\ NODE_ENV_development host = EnvValidation.isDevelopment config
  /\ getAIConfig host = EnvValidation.getAIConfig config
  /\ AIService.validateConfig (getAIConfig host) = true
  /\ (NODE_ENV_development host = true ->
      forall (budget : nat) (request : NextRequest PreviewGenerationRequest)
             (w : World),
        providerCalls (snd (POST host (S budget) request w)) = providerCalls w).
Proof.
  unfold EnvValidation.validateAndLoadConfig, runs_with.
  destruct (List.filter (EnvValidation.unset env) EnvValidation.requiredVars)
    as [|m ms] eqn:Hmissing; [|discriminate].
  cbn [length Nat.ltb Nat.leb].
  destruct (EnvValidation.node_env_of _) as [nodeEnv|] eqn:Hnode; [|discriminate].
  destruct (negb (URL_parses _)); [discriminate|].
  destruct (List.find _ EnvValidation.numericVars); [discriminate|].
  intros [= <-] (Hdev & Hskip & Hkey).
  cbn [EnvValidation.DEV_MODE_SKIP_AI EnvValidation.GEMINI_API_KEY] in Hskip, Hkey.
  apply filter_nil_Forall in Hmissing.
  assert (Hset : Forall (fun varName => Js.truthy_str (env !! varName) = true)
                   EnvValidation.requiredVars).
  { eapply Forall_impl; [exact Hmissing|]. intros varName.
    unfold EnvValidation.unset. apply negb_false_iff. }
  assert (Hisdev : NODE_ENV_development host =
                   match nodeEnv with
                   | EnvValidation.development => true
                   | _ => false
                   end).
  { rewrite Hdev. exact (node_env_of_development _ _ Hnode). }
  split; [exact Hset|].
  unfold EnvValidation.isDevelopment, EnvValidation.getAIConfig, getAIConfig.
  cbn [EnvValidation.DEV_MODE_SKIP_AI EnvValidation.NODE_ENV
       EnvValidation.GEMINI_API_KEY].
  split; [apply orb_comm|]. split; [exact Hisdev|].
  split; [rewrite Hkey; reflexivity|]. split.
  - unfold AIService.validateConfig. cbn [AIService.apiKey AIService.model
                                          AIService.baseUrl].
    rewrite Hkey. inversion Hset as [|? ? Hfirst _]; subst.
    destruct (env !! "GEMINI_API_KEY") as [k|]; [|discriminate Hfirst].
    cbn [Js.truthy_str Js.or_str] in Hfirst |- *.
    destruct (String.eqb k "") eqn:Hk; [discriminate Hfirst|].
    rewrite Hk. reflexivity.
  - intros Hdevelopment budget request w.
    destruct (POST_outcome host budget request w) as (resp & w' & -> & Hcalls & _).
    cbn [snd]. destruct Hcalls as [Hsame | [Hlive _]]; [exact Hsame|].
    rewrite Hskip, <- Hisdev, Hdevelopment, orb_true_r in Hlive. discriminate Hlive.
Qed.

(** ** The theorems at concrete inputs *)

(** C3 on a production server (ceiling 3, window 24 hours) whose clock
    gives the first seven readings a millisecond apart and the later
    ones more than a day after them. *)
Lemma rate_limit_window_witness :
  let host := Demo.idle_server (Demo.ticking_then_late 7 100000000) in
  (exists w' : World,
      admissions host Demo.incomplete_request 5 Demo.new_world
        = (window_trace host 0, w'))
  /\ Forall (within_ceiling host) (window_trace host 0)
  /\ 0 <= retry_seconds host 0
  /\ (clock host 6 < clock host 0 + windowMs host -> 0 < retry_seconds host 0)
  /\ (clock host 6 = clock host 0 + windowMs host -> retry_seconds host 0 = 0).
Proof.
  apply (rate_limit_window (Demo.idle_server (Demo.ticking_then_late 7 100000000))
           Demo.incomplete_request Demo.new_world).
  - exact I.
  - intros i Hi. change (i <= 6)%nat in Hi.
    change (Demo.ticking_then_late 7 100000000 i <= 86400000).
    unfold Demo.ticking_then_late.
    destruct (Nat.ltb_spec i 7); lia.
  - reflexivity.
  - discriminate.
Defined.

(** C4 on the metadata of a processed preview. *)
Lemma quality_tier_additive_witness :
  AIResponseHandler.quality Demo.processed_metadata =
    QualitySpec.tier
      (dimension_points_of (AIResponseHandler.dimensions Demo.processed_metadata)
       + QualitySpec.time_points (metrics_duration Demo.preview_metrics)
       + QualitySpec.size_points (metrics_size Demo.preview_metrics)).
Proof.
  apply (proj1 (proj2 quality_tier_additive)
           (Demo.idle_server (Demo.ticking 0)) Demo.generated Demo.preview_metrics
           Demo.preview_validation Demo.new_world
           (snd (processResponse (Demo.idle_server (Demo.ticking 0)) Demo.generated
                   Demo.preview_metrics Demo.preview_validation Demo.new_world))
           Demo.processed Demo.processed_metadata).
  - vm_compute. reflexivity.
  - vm_compute. reflexivity.
Defined.

(** C8 on a first request without [options]. *)
Lemma rejected_request_keeps_its_admission_witness :
  let host := Demo.idle_server (Demo.ticking 0) in
  let run := POST host 1 Demo.incomplete_request Demo.new_world in
  let entry :=
    current_entry host (getClientIP Demo.incomplete_request) (tick Demo.new_world) in
  count entry < maxAttempts host
  /\ rateLimitStore (snd run) !! getClientIP Demo.incomplete_request =
       Some {| count := count entry + 1;
               entry_resetTime := entry_resetTime entry;
               lastRequest := clock host 1 |}
  /\ providerCalls (snd run) = 0%nat
  /\ 3%nat = clockReads (snd run).
Proof.
  apply (rejected_request_keeps_its_admission (Demo.idle_server (Demo.ticking 0)) 1
           Demo.incomplete_request Demo.new_world
           (snd (POST (Demo.idle_server (Demo.ticking 0)) 1 Demo.incomplete_request
                   Demo.new_world))
           (error_response 400
              "Missing required fields: image and options are required")).
  - vm_compute. reflexivity.
  - left. reflexivity.
  - vm_compute. discriminate.
Defined.

(** C9 on a processed preview. *)
Lemma server_side_quality_witness :
  (forall blob, getImageDimensions (Demo.idle_server (Demo.ticking 0)) blob = None)
  /\
  exists (md : AIResponseHandler.ResponseMetadata) (warnings : list string),
    AIResponseHandler.metadata Demo.processed = Some md
    /\ AIResponseHandler.dimensions md = None
    /\ AIResponseHandler.warnings Demo.processed = Some warnings
    /\ In "Could not determine image dimensions" warnings
    /\ AIResponseHandler.qualityScore (bare_of md) =
         0 + QualitySpec.time_points (AIResponseHandler.generationTime md)
           + QualitySpec.size_points (AIResponseHandler.size md)
    /\ AIResponseHandler.quality md =
         QualitySpec.tier (AIResponseHandler.qualityScore (bare_of md))
    /\ (AIResponseHandler.size md = preview ->
        AIResponseHandler.qualityScore (bare_of md) <= 3
        /\ AIResponseHandler.quality md <> high).
Proof.
  apply (server_side_quality_has_no_dimension_term
           (Demo.idle_server (Demo.ticking 0)) Demo.generated Demo.preview_metrics
           Demo.preview_validation Demo.new_world
           (snd (processResponse (Demo.idle_server (Demo.ticking 0)) Demo.generated
                   Demo.preview_metrics Demo.preview_validation Demo.new_world))
           Demo.processed).
  - reflexivity.
  - vm_compute. reflexivity.
  - vm_compute. reflexivity.
Defined.

(** C10 on the preview watermark of a decodable image. *)
Lemma watermark_output_witness :
  let host := Demo.idle_server (Demo.ticking 0) in
  let buffer :=
    Buffer_from_base64 host (WatermarkService.strip_data_url Demo.png_512x512) in
  exists (metadata_width metadata_height : option Z) (png : bytes),
    sharp_metadata host buffer = inr (metadata_width, metadata_height)
    /\ (let width := default 512 metadata_width in
        let height := default 512 metadata_height in
        let pos :=
          WatermarkService.calculateServerPosition width
            (WatermarkService.position preview_watermark_options)
            (WatermarkService.fontSize preview_watermark_options) in
        sharp_composite_png host buffer
          (WatermarkService.createWatermarkSvg preview_watermark_options width height)
          (WatermarkService.y pos) (WatermarkService.x pos) = inr png)
    /\ addPreviewWatermark host Demo.png_512x512 =
         {| WatermarkService.success := true;
            WatermarkService.imageData :=
              Some ("data:image/png;base64," +:+ Buffer_to_base64 host png);
            WatermarkService.error := None |}.
Proof.
  apply (watermark_output_is_png_data_url (Demo.idle_server (Demo.ticking 0))
           Demo.png_512x512 WatermarkService.no_options
           (addPreviewWatermark (Demo.idle_server (Demo.ticking 0)) Demo.png_512x512)
           preview_watermark_options).
  - right. left. split; reflexivity.
  - vm_compute. reflexivity.
Defined.

(** X1 on an upload of 256 by 256 pixels. *)
Lemma undersized_image_witness :
  isValid (ImageUtils.validateImageForAI (Demo.uploaded 256 256 Demo.png_256x256))
    = false
  /\ (256 < 512 ->
      In "Image width must be at least 512px"
         (errors (ImageUtils.validateImageForAI
                    (Demo.uploaded 256 256 Demo.png_256x256))))
  /\ (256 < 512 ->
      In "Image height must be at least 512px"
         (errors (ImageUtils.validateImageForAI
                    (Demo.uploaded 256 256 Demo.png_256x256)))).
Proof.
  apply (undersized_image_is_invalid (Demo.uploaded 256 256 Demo.png_256x256)).
  reflexivity.
Defined.

(** X2 on a file of 15MB. *)
Lemma oversized_file_witness :
  isValid (ImageUtils.validateImageForAI Demo.large_file) = false
  /\ In "Image size must be less than 10MB"
        (errors (ImageUtils.validateImageForAI Demo.large_file)).
Proof.
  apply (oversized_file_is_invalid Demo.large_file). reflexivity.
Defined.

(** X3 on the fourth request of a client within a millisecond-paced
    day. *)
Lemma denied_request_witness :
  let host := Demo.idle_server (Demo.ticking 0) in
  let w := snd (admissions host Demo.incomplete_request 3 Demo.new_world) in
  let entry := current_entry host (getClientIP Demo.unparsable_request) (tick w) in
  POST host 1 Demo.unparsable_request w =
    (Returns
       (rate_limited_response
          {| allowed := false;
             remaining := 0;
             resetTime := entry_resetTime entry;
             retryAfter :=
               Some (Js.ceil_div
                       (entry_resetTime entry - clock host (S (clockReads w)))
                       1000) |}),
     tick (tick w)).
Proof.
  apply (denied_request_is_not_parsed (Demo.idle_server (Demo.ticking 0)) 1
           Demo.unparsable_request
           (snd (admissions (Demo.idle_server (Demo.ticking 0))
                   Demo.incomplete_request 3 Demo.new_world))).
  vm_compute. discriminate.
Defined.

(** X4 on a service with one retry whose provider always fails. *)
Lemma retry_never_gives_up_witness :
  fst (generatePortrait (Demo.server (Demo.ticking 0) (Demo.fails_with "quota exceeded"))
         Demo.one_retry 100 Demo.generation_request Demo.new_world)
    = Unfinished.
Proof.
  apply (retry_never_gives_up
           (Demo.server (Demo.ticking 0) (Demo.fails_with "quota exceeded"))
           Demo.one_retry Demo.generation_request 100 Demo.new_world).
  - discriminate.
  - reflexivity.
  - intros n model prompt image. eexists. reflexivity.
Defined.

(** X5 on a request that came through two proxies. *)
Lemma forwarded_chain_witness :
  getClientIP Demo.chained_request = Js.trim "203.0.113.7 ".
Proof.
  apply (forwarded_chain_is_keyed_by_its_first_address Demo.chained_request
           "203.0.113.7 " " 10.0.0.1, 10.0.0.2").
  - vm_compute. reflexivity.
  - cbn. intuition discriminate.
Defined.

(** X6 on the first check of one client after a check of another. *)
Lemma other_clients_witness :
  let host := Demo.idle_server (Demo.ticking 0) in
  let request := Demo.preview_request 512 512 Demo.png_512x512 in
  let w := Demo.after_other_client in
  let w' := snd (checkRateLimit host request w) in
  (forall e, rateLimitStore w' !! "198.51.100.2" = Some e ->
             rateLimitStore w !! "198.51.100.2" = Some e)
  /\ (forall e, rateLimitStore w !! "198.51.100.2" = Some e ->
                clock host (S (clockReads w)) <= entry_resetTime e ->
                rateLimitStore w' !! "198.51.100.2" = Some e).
Proof.
  apply (other_clients_keep_their_entries (Demo.idle_server (Demo.ticking 0))
           (Demo.preview_request 512 512 Demo.png_512x512) Demo.after_other_client
           (snd (checkRateLimit (Demo.idle_server (Demo.ticking 0))
                   (Demo.preview_request 512 512 Demo.png_512x512)
                   Demo.after_other_client))
           {| allowed := true; remaining := 2; resetTime := 86400002;
              retryAfter := None |}
           "198.51.100.2").
  - vm_compute. reflexivity.
  - vm_compute. discriminate.
Defined.

(** X7 on the same check, which is allowed: the entry of the other
    client is in the store afterwards, and its window has not passed. *)
Lemma allowed_check_sweeps_witness :
  let host := Demo.idle_server (Demo.ticking 0) in
  let w := Demo.after_other_client in
  clock host (S (clockReads w))
    <= entry_resetTime {| count := 1; entry_resetTime := 86400000; lastRequest := 0 |}.
Proof.
  apply (proj1
           (allowed_check_sweeps_the_store (Demo.idle_server (Demo.ticking 0))
              (Demo.preview_request 512 512 Demo.png_512x512) Demo.after_other_client
              (snd (checkRateLimit (Demo.idle_server (Demo.ticking 0))
                      (Demo.preview_request 512 512 Demo.png_512x512)
                      Demo.after_other_client))
              {| allowed := true; remaining := 2; resetTime := 86400002;
                 retryAfter := None |}
              ltac:(vm_compute; reflexivity))
           eq_refl "198.51.100.2").
  vm_compute. reflexivity.
Defined.

(** X8 on a client that has made one request. *)
Lemma status_dry_run_witness :
  let host := Demo.idle_server (Demo.ticking 0) in
  let w := Demo.after_other_client in
  exists (s r : RateLimitResult) (w2 : World),
    getRateLimitStatus host (getClientIP Demo.other_request) w
      = (Returns (Some s), tick w)
    /\ checkRateLimit host Demo.other_request w = (Returns r, w2)
    /\ allowed s = allowed r
    /\ resetTime s = resetTime r
    /\ retryAfter s = retryAfter r
    /\ remaining s = remaining r + (if allowed r then 1 else 0)
    /\ getDebugInfo host (getClientIP Demo.other_request) w =
         (Returns {| debug_entry := rateLimitStore w !! getClientIP Demo.other_request;
                     isDevelopment := false;
                     debug_maxAttempts := maxAttempts host;
                     debug_windowMs := windowMs host |}, w).
Proof.
  apply (status_is_a_dry_run_of_the_check (Demo.idle_server (Demo.ticking 0))
           Demo.other_request Demo.after_other_client).
  - reflexivity.
  - eexists. vm_compute. reflexivity.
Defined.

(** X9 on a client that has used its three attempts. *)
Lemma clearing_a_client_witness :
  let host := Demo.idle_server (Demo.ticking 0) in
  let request := Demo.incomplete_request in
  let w := snd (admissions host request 3 Demo.new_world) in
  let ip := getClientIP request in
  let cleared :=
    {| rateLimitStore := delete ip (rateLimitStore w);
       clockReads := clockReads w;
       providerCalls := providerCalls w;
       retryCount := retryCount w |} in
  resetRateLimit ip w =
    (Returns (bool_decide (is_Some (rateLimitStore w !! ip))), cleared)
  /\ clearForIP ip w = resetRateLimit ip w
  /\ (forall other, other <> ip ->
        rateLimitStore cleared !! other = rateLimitStore w !! other)
  /\ exists w',
       checkRateLimit host request cleared =
         (Returns {| allowed := true;
                     remaining := maxAttempts host - 1;
                     resetTime := clock host (clockReads w) + windowMs host;
                     retryAfter := None |}, w')
       /\ rateLimitStore w' !! ip =
            Some {| count := 1;
                    entry_resetTime := clock host (clockReads w) + windowMs host;
                    lastRequest := clock host (clockReads w) |}.
Proof.
  apply (clearing_a_client_restores_its_budget (Demo.idle_server (Demo.ticking 0))
           Demo.incomplete_request
           (snd (admissions (Demo.idle_server (Demo.ticking 0))
                   Demo.incomplete_request 3 Demo.new_world))).
  vm_compute. discriminate.
Defined.

(** X18 on a first request to a server in skip mode. *)
Lemma skip_mode_witness :
  let host := Demo.skipping_server (Demo.ticking 0) in
  let request := Demo.preview_request 512 512 Demo.png_512x512 in
  let resp := Demo.answer_of host request in
  providerCalls (Demo.world_after host request) = providerCalls Demo.new_world
  /\ (meta_cost <$> metadata (body resp)) = Some GENERATION_CONFIG.PREVIEW_COST
  /\ exists parsed image payload,
       json request = inr parsed
       /\ body_image parsed = Some image
       /\ json_base64Data image = Some payload
       /\ imageData (body resp) =
            Some (Js.or_str
                    (WatermarkService.imageData (addPreviewWatermark host payload))
                    payload).
Proof.
  apply (skip_mode_previews_the_upload (Demo.skipping_server (Demo.ticking 0)) 0
           (Demo.preview_request 512 512 Demo.png_512x512) Demo.new_world
           (Demo.world_after (Demo.skipping_server (Demo.ticking 0))
              (Demo.preview_request 512 512 Demo.png_512x512))
           (Demo.answer_of (Demo.skipping_server (Demo.ticking 0))
              (Demo.preview_request 512 512 Demo.png_512x512))).
  - reflexivity.
  - vm_compute. reflexivity.
  - vm_compute. reflexivity.
Defined.

(** X19 on a provider that answers with an image. *)
Lemma generation_is_one_provider_call_witness :
  let host := Demo.server (Demo.ticking 0) (Demo.returns_image Demo.png_512x512) in
  let request := Demo.generation_request in
  exists result w',
    aiService_generatePortrait host 1 request Demo.new_world = (Returns result, w')
    /\ providerCalls w' = 1%nat
    /\ rateLimitStore w' = rateLimitStore Demo.new_world
    /\ match generateContent host 0
               (AIService.model (getAIConfig host))
               (AIService.buildPrompt (AIService.request_options request)
                  (AIService.request_prompt request))
               (image_payload host (AIService.request_image request)) with
       | inl t =>
           AIService.success result = false
           /\ AIService.error result =
                Some ("Failed to generate image: " +:+ Js.message_or t "Unknown error")
       | inr response =>
           match AIService.find_image_data response with
           | Some data =>
               AIService.success result = true
               /\ AIService.imageData result = Some data
               /\ AIService.cost result =
                    Some (AIService.calculateCost (AIService.request_size request))
           | None =>
               AIService.success result = false
               /\ AIService.error result =
                    Some "Failed to generate image: No image generated in response"
           end
       end.
Proof.
  apply (proj1 (generation_is_one_provider_call
           (Demo.server (Demo.ticking 0) (Demo.returns_image Demo.png_512x512)) 0
           Demo.generation_request Demo.new_world eq_refl)).
Defined.



(** X24 on a processed preview. *)
Lemma server_side_display_witness :
  let display := AIResponseHandler.formatResponseForDisplay Demo.processed in
  (AIResponseHandler.success Demo.processed = true ->
   AIResponseHandler.display_type display = AIResponseHandler.display_warning
   /\ exists details,
        AIResponseHandler.display_details display = Some details
        /\ In "Could not determine image dimensions" details)
  /\ (AIResponseHandler.success Demo.processed = false ->
      AIResponseHandler.display_type display = AIResponseHandler.display_error
      /\ AIResponseHandler.display_message display <> "").
Proof.
  apply (server_side_success_is_displayed_as_a_warning
           (Demo.idle_server (Demo.ticking 0)) Demo.generated Demo.preview_metrics
           Demo.preview_validation Demo.new_world
           (snd (processResponse (Demo.idle_server (Demo.ticking 0)) Demo.generated
                   Demo.preview_metrics Demo.preview_validation Demo.new_world))
           Demo.processed).
  - reflexivity.
  - vm_compute. reflexivity.
Defined.

(** X30 on a development machine whose environment says
    [DEV_MODE_SKIP_AI=false]. *)
Lemma development_witness :
  let host := Demo.development_server (Demo.ticking 0) in
  let config := Demo.development_config in
  Forall (fun varName => Js.truthy_str (Demo.development_env !! varName) = true)
    EnvValidation.requiredVars
  /\ EnvValidation.DEV_MODE_SKIP_AI config =
       (EnvValidation.isDevelopment config
        || bool_decide (Demo.development_env !! "DEV_MODE_SKIP_AI" = Some "true"))%bool
  /\ NODE_ENV_development host = EnvValidation.isDevelopment config
  /\ getAIConfig host = EnvValidation.getAIConfig config
  /\ AIService.validateConfig (getAIConfig host) = true
  /\ (NODE_ENV_development host = true ->
      forall (budget : nat) (request : NextRequest PreviewGenerationRequest)
             (w : World),
        providerCalls (snd (POST host (S budget) request w)) = providerCalls w).
Proof.
  apply (development_never_calls_the_provider (fun s => s) (fun s => s)
           (fun _ => false) (fun _ => true)
           Demo.development_env Demo.development_config
           (Demo.development_server (Demo.ticking 0))).
  - vm_compute. reflexivity.
  - split; [vm_compute; reflexivity|]. split; reflexivity.
Defined.
